(** * MedGPT: appointment manager and chat relay

    A shallow embedding of [app/routes/appointments.py] and
    [app/routes/chatbot.py].  The Flask handlers are written in a small
    state-and-exception monad over a [World] that holds the relational store,
    the connection handles handed out by [get_db_connection], the clocks and
    the log.  Python's [return], [raise], [try/except] and [try/finally]
    are combinators of that monad. *)

From stdpp Require Import gmap strings list sorting.
From Stdlib Require Import ZArith Ascii.

#[local] Set Warnings "-register-all".
#[local] Open Scope Z_scope.

(** ** Request and response values *)

(** What [request.get_json()] hands to a handler, and what [jsonify]
    takes.  Numbers are the integers; JSON floats are not modelled. *)
Inductive json : Type :=
| JNull
| JBool (b : bool)
| JInt (n : Z)
| JStr (s : string)
| JArr (l : list json)
| JObj (m : gmap string json).

(** Python truthiness, the test behind [if not x]. *)
Definition truthy (v : json) : bool :=
  match v with
  | JNull => false
  | JBool b => b
  | JInt n => negb (n =? 0)
  | JStr s => negb (String.eqb s "")
  | JArr l => match l with [] => false | _ => true end
  | JObj m => match map_to_list m with [] => false | _ => true end
  end.

Record Response := mkResponse { status_code : Z; body : json }.

(** [jsonify(d), code] and plain [jsonify(d)] (status 200). *)
Definition jsonify (d : gmap string json) (code : Z) : Response :=
  mkResponse code (JObj d).

Definition error_body (msg : string) : gmap string json :=
  {[ "error" := JStr msg ]}.

(** ** Calendar values *)

Record Date := mkDate { year : Z; month : Z; day : Z }.
Record Time := mkTime { hour : Z; minute : Z; second : Z; microsecond : Z }.

(** A naive [datetime]: [datetime.combine(d, t)] is the pair. *)
Definition DateTime : Type := Date * Time.

Definition lex (c1 c2 : comparison) : comparison :=
  match c1 with Eq => c2 | _ => c1 end.

Definition date_compare (a b : Date) : comparison :=
  lex (year a ?= year b) (lex (month a ?= month b) (day a ?= day b)).

Definition time_compare (a b : Time) : comparison :=
  lex (hour a ?= hour b)
    (lex (minute a ?= minute b)
       (lex (second a ?= second b) (microsecond a ?= microsecond b))).

Definition datetime_compare (a b : DateTime) : comparison :=
  lex (date_compare a.1 b.1) (time_compare a.2 b.2).

(** [a <= b] on naive datetimes. *)
Definition datetime_le (a b : DateTime) : bool :=
  match datetime_compare a b with Gt => false | _ => true end.

(** ** Tables of the store *)

(** A nullable text column: [None] is SQL NULL. *)
Definition sqltext : Type := option string.

Module doctors.
Record row := mk
  { id : Z; name : string; specialization : string; is_verified : bool }.
End doctors.

Module appointments.
Record row := mk
  { id : Z;
    patient_name : sqltext;
    patient_email : sqltext;
    patient_phone : sqltext;
    doctor_id : Z;
    appointment_date : Date;
    appointment_time : Time;
    reason : sqltext;
    status : string;
    notes : sqltext;
    created_at : DateTime;
    updated_at : DateTime }.
End appointments.

Module chat_history.
Record row := mk
  { session_id : sqltext;
    user_message : string;
    bot_response : string;
    created_at : DateTime }.
End chat_history.

Record Store := mkStore
  { tbl_doctors : list doctors.row;
    tbl_appointments : list appointments.row;
    tbl_chat_history : list chat_history.row }.

(** Modelled from the spec: the table definitions are not part of the
    sources; section 3 of the specification gives [pending] as the status a
    new appointment receives from the storage layer, and lists notes as
    optional, which is taken as a NULL default.  The created and updated
    timestamps of a new row are taken as the store's current time. *)
Definition default_status : string := "pending".
Definition default_notes : sqltext := None.

(** ** The world a request runs in *)

(** A connection handle: open with its transaction's working copy of the
    store, or closed. *)
Inductive Conn :=
| Open (working : Store)
| Closed.

Inductive Exn :=
| AttributeError
| TypeError
| ValueError
| KeyError
| DatabaseError                        (* whatever driver or store raise *)
| ModelError.

Record World := mkWorld
  { committed : Store;                 (* what committed transactions left *)
    conns : list Conn;                 (* every handle ever handed out *)
    clock : DateTime;                  (* datetime.now() *)
    current_timestamp : DateTime;      (* the store's CURRENT_TIMESTAMP *)
    appointments_id_seq : Z;           (* the serial behind appointments.id *)
    faults : list bool;                (* outages: one flag per gateway call *)
    log : list (string * Exn) }.       (* logging.error calls *)

Definition set_committed (s : Store) (w : World) : World :=
  mkWorld s (conns w) (clock w) (current_timestamp w)
    (appointments_id_seq w) (faults w) (log w).
Definition set_conns (cs : list Conn) (w : World) : World :=
  mkWorld (committed w) cs (clock w) (current_timestamp w)
    (appointments_id_seq w) (faults w) (log w).
Definition set_seq (n : Z) (w : World) : World :=
  mkWorld (committed w) (conns w) (clock w) (current_timestamp w)
    n (faults w) (log w).
Definition set_faults (fs : list bool) (w : World) : World :=
  mkWorld (committed w) (conns w) (clock w) (current_timestamp w)
    (appointments_id_seq w) fs (log w).
Definition set_log (l : list (string * Exn)) (w : World) : World :=
  mkWorld (committed w) (conns w) (clock w) (current_timestamp w)
    (appointments_id_seq w) (faults w) l.

(** ** The handler monad *)

(** How a block of Python ends: it falls through with a value, executes
    [return], or raises. *)
Inductive Outcome (A : Type) : Type :=
| Normal (a : A)
| Return (r : Response)
| Raise (e : Exn).
Arguments Normal {A} a.
Arguments Return {A} r.
Arguments Raise {A} e.

Definition Py (A : Type) : Type := World → Outcome A * World.

Definition ret {A} (a : A) : Py A := λ w, (Normal a, w).

Definition bind {A B} (m : Py A) (k : A → Py B) : Py B :=
  λ w, match m w with
       | (Normal a, w') => k a w'
       | (Return r, w') => (Return r, w')
       | (Raise e, w') => (Raise e, w')
       end.

Definition return_ {A} (r : Response) : Py A := λ w, (Return r, w).
Definition raise {A} (e : Exn) : Py A := λ w, (Raise e, w).
Definition get_world : Py World := λ w, (Normal w, w).
Definition modify (f : World → World) : Py unit := λ w, (Normal tt, f w).

(** [try: body except <classes> as e: handler e]. *)
Definition try_except {A} (catches : Exn → bool)
    (body : Py A) (handler : Exn → Py A) : Py A :=
  λ w, match body w with
       | (Raise e, w') => if catches e then handler e w' else (Raise e, w')
       | other => other
       end.

(** [try: body finally: fin]; [fin] runs however [body] ends, and only
    replaces the outcome when it does not fall through itself. *)
Definition try_finally {A} (body : Py A) (fin : Py unit) : Py A :=
  λ w, match body w with
       | (o, w') =>
           match fin w' with
           | (Normal _, w'') => (o, w'')
           | (Return r, w'') => (Return r, w'')
           | (Raise e, w'') => (Raise e, w'')
           end
       end.

Definition Exception (e : Exn) : bool := true.
Definition only_ValueError (e : Exn) : bool :=
  match e with ValueError => true | _ => false end.

Declare Scope py_scope.
Delimit Scope py_scope with py.
Notation "'let*' x := m 'in' k" := (bind m (λ x, k))
  (at level 10, x name, m at level 100, k at level 200) : py_scope.
Notation "m ;;; k" := (bind m (λ _, k))
  (at level 100, k at level 200, right associativity) : py_scope.
#[local] Open Scope py_scope.

Definition logging_error (msg : string) (e : Exn) : Py unit :=
  modify (λ w, set_log (log w ++ [(msg, e)]) w).

(** ** Collaborators outside the repository *)

(** The library and store functions the handlers call but do not define.
    The Python ones: [datetime.strptime] with the two formats ([None] is
    [ValueError]), [str.strip], and the three renderings used by the list
    endpoint.  The store ones say how a bound parameter is read against a
    column of the given type; [None] means the statement fails.  The two
    for text take the name of the column: [pg_accepts] says whether the
    store takes a text as it is (its length, its encoding), [pg_text] reads
    a parameter that is not text. *)
Record Externals := mkExternals
  { strptime_Ymd : string → option Date;
    strptime_HM : string → option Time;
    str_strip : string → string;
    date_isoformat : Date → string;
    time_strftime_HM : Time → string;
    datetime_isoformat : DateTime → string;
    pg_int : json → option Z;
    pg_text : string → json → option sqltext;
    pg_accepts : string → string → bool;
    pg_date : json → option Date;
    pg_time : json → option Time }.

(** The reply of the hosted model to one [generate_content] call:
    [response.text] (which may be [None]), or an exception. *)
Inductive ModelReply :=
| ReplyText (text : option string)
| ReplyError.

#[global] Instance Date_eq_dec : EqDecision Date.
Proof. solve_decision. Defined.
#[global] Instance Time_eq_dec : EqDecision Time.
Proof. solve_decision. Defined.

(** ** The storage gateway *)

(** Every gateway round trip consumes the next outage flag; a set flag
    makes the call raise. *)
Definition round_trip : Py unit :=
  λ w, let w' := set_faults (tail (faults w)) w in
       if hd false (faults w) then (Raise DatabaseError, w')
       else (Normal tt, w').

(** [get_db_connection()]: a fresh handle whose transaction starts from
    the committed store. *)
Definition get_db_connection : Py nat :=
  round_trip ;;;
  let* w := get_world in
  modify (set_conns (conns w ++ [Open (committed w)])) ;;;
  ret (length (conns w)).

(** [cur.execute(...)] followed by the fetch: the statement reads and
    rewrites the working copy of its connection. *)
Definition execute {A} (conn : nat)
    (stmt : World → Store → option (A * Store)) : Py A :=
  round_trip ;;;
  let* w := get_world in
  match conns w !! conn with
  | Some (Open s) =>
      match stmt w s with
      | Some (a, s') =>
          modify (set_conns (<[conn := Open s']> (conns w))) ;;; ret a
      | None => raise DatabaseError
      end
  | _ => raise DatabaseError
  end.

Definition commit (conn : nat) : Py unit :=
  round_trip ;;;
  let* w := get_world in
  match conns w !! conn with
  | Some (Open s) => modify (set_committed s)
  | _ => raise DatabaseError
  end.

Definition rollback (conn : nat) : Py unit :=
  round_trip ;;;
  let* w := get_world in
  match conns w !! conn with
  | Some (Open _) => modify (set_conns (<[conn := Open (committed w)]> (conns w)))
  | _ => raise DatabaseError
  end.

Definition close (conn : nat) : Py unit :=
  modify (λ w, set_conns (<[conn := Closed]> (conns w)) w).

(** ** Python helpers *)

(** [data.get(k, dflt)]; anything but a dict has no [get]. *)
Definition dict_get (data : json) (k : string) (dflt : json) : Py json :=
  match data with
  | JObj m => ret (default dflt (m !! k))
  | _ => raise AttributeError
  end.

(** [data[k]]: a missing key is a [KeyError]. *)
Definition dict_item (data : json) (k : string) : Py json :=
  match data with
  | JObj m => match m !! k with
              | Some v => ret v
              | None => raise KeyError
              end
  | _ => raise TypeError
  end.

(** [datetime.strptime(v, fmt)]: a non-string argument is a [TypeError],
    a string that does not match is a [ValueError]. *)
Definition strptime {T} (parse : string → option T) (v : json) : Py T :=
  match v with
  | JStr s => match parse s with
              | Some x => ret x
              | None => raise ValueError
              end
  | _ => raise TypeError
  end.

Definition opt_json (t : sqltext) : json :=
  match t with Some s => JStr s | None => JNull end.

(** ** SQL predicates *)

(** [status NOT IN ('cancelled', 'completed')] *)
Definition active (a : appointments.row) : Prop :=
  appointments.status a ∉ ["cancelled"; "completed"]%string.

Definition at_slot (n : Z) (d : Date) (t : Time) (a : appointments.row) : Prop :=
  appointments.doctor_id a = n ∧ appointments.appointment_date a = d
  ∧ appointments.appointment_time a = t.

#[global] Instance active_dec a : Decision (active a).
Proof. unfold active. apply _. Defined.
#[global] Instance at_slot_dec n d t a : Decision (at_slot n d t a).
Proof. unfold at_slot. apply _. Defined.

(** ** Ordering of the list endpoint *)

Definition slot_time (r : appointments.row * doctors.row) : DateTime :=
  (appointments.appointment_date r.1, appointments.appointment_time r.1).

(** [ORDER BY a.appointment_date DESC, a.appointment_time DESC]: [x] may
    stand before [y]. *)
Definition date_time_desc (x y : appointments.row * doctors.row) : Prop :=
  datetime_compare (slot_time x) (slot_time y) ≠ Lt.

#[global] Instance date_time_desc_dec x y : Decision (date_time_desc x y).
Proof. unfold date_time_desc. apply _. Defined.

Definition created_asc (x y : chat_history.row) : Prop :=
  datetime_compare (chat_history.created_at x) (chat_history.created_at y) ≠ Gt.

#[global] Instance created_asc_dec x y : Decision (created_asc x y).
Proof. unfold created_asc. apply _. Defined.

(** ** Parameters of a statement *)

(** The driver refuses a [str] parameter that holds U+0000: the
    statement raises before it is sent. *)
Fixpoint has_nul (s : string) : bool :=
  match s with
  | EmptyString => false
  | String c rest => Ascii.eqb c "000" || has_nul rest
  end.

(** What an [INSERT ... RETURNING id] comes back with: the id of the row
    it stored, or a key that is already taken. *)
Inductive Inserted :=
| Stored (id : Z)
| DuplicateKey.

Section handlers.
Variable ext : Externals.

(** How driver and store read a bound parameter.  A Python [int] against
    an integer column is taken as it is.  A [str] for a text column is
    refused by the driver when it holds U+0000, and is otherwise taken as
    it is when the store accepts it for that column.  Every other
    combination is the store's business. *)
Definition sql_int (v : json) : option Z :=
  match v with JInt n => Some n | _ => pg_int ext v end.

Definition sql_str (column : string) (s : string) : option string :=
  if has_nul s then None
  else if pg_accepts ext column s then Some s else None.

Definition sql_text (column : string) (v : json) : option sqltext :=
  match v with
  | JStr s => Some <$> sql_str column s
  | _ => pg_text ext column v
  end.

(** *** [book_appointment] *)

Definition required_fields : list string :=
  ["patient_name"; "patient_email"; "doctor_id";
   "appointment_date"; "appointment_time"]%string.

(** The loop over [required_fields]. *)
Fixpoint check_required (data : json) (fields : list string) : Py unit :=
  match fields with
  | [] => ret tt
  | field :: rest =>
      let* v := dict_get data field JNull in
      if negb (truthy v)
      then return_ (jsonify (error_body (field +:+ " is required")) 400)
      else check_required data rest
  end.

(** [SELECT id, name FROM doctors WHERE id = %s AND is_verified = TRUE] *)
Definition select_verified_doctor (doctor_id : json)
    (w : World) (s : Store) : option (option doctors.row * Store) :=
  n ← sql_int doctor_id;
  Some (head (filter (λ d, doctors.id d = n ∧ doctors.is_verified d = true)
                (tbl_doctors s)), s).

(** [SELECT id FROM appointments WHERE doctor_id = %s AND
    appointment_date = %s AND appointment_time = %s AND status NOT IN
    ('cancelled', 'completed')] *)
Definition select_conflict (doctor_id appointment_date appointment_time : json)
    (w : World) (s : Store) : option (option Z * Store) :=
  n ← sql_int doctor_id;
  d ← pg_date ext appointment_date;
  t ← pg_time ext appointment_time;
  Some (appointments.id <$>
          head (filter (λ a, at_slot n d t a ∧ active a) (tbl_appointments s)),
        s).

(** [INSERT INTO appointments (...) VALUES (...) RETURNING id]; the
    columns the statement leaves out take their defaults, the id among
    them, which is the next value of the sequence.  The id is the primary
    key: a value that a stored row already has is refused. *)
Definition insert_appointment_row
    (patient_name patient_email patient_phone doctor_id
     appointment_date appointment_time reason : json)
    (w : World) (s : Store) : option (Inserted * Store) :=
  pn ← sql_text "patient_name" patient_name;
  pe ← sql_text "patient_email" patient_email;
  pp ← sql_text "patient_phone" patient_phone;
  n ← sql_int doctor_id;
  d ← pg_date ext appointment_date;
  t ← pg_time ext appointment_time;
  r ← sql_text "reason" reason;
  let new_id := appointments_id_seq w in
  if decide (new_id ∈ appointments.id <$> tbl_appointments s)
  then Some (DuplicateKey, s)
  else
    Some (Stored new_id,
          mkStore (tbl_doctors s)
            (tbl_appointments s ++
               [appointments.mk new_id pn pe pp n d t r
                  default_status default_notes
                  (current_timestamp w) (current_timestamp w)])
            (tbl_chat_history s)).

(** A statement that got as far as the key has drawn the id from the
    sequence, which neither the failure nor a rollback gives back. *)
Definition insert_appointment (conn : nat)
    (patient_name patient_email patient_phone doctor_id
     appointment_date appointment_time reason : json) : Py Z :=
  let* inserted :=
    execute conn
      (insert_appointment_row patient_name patient_email patient_phone
         doctor_id appointment_date appointment_time reason) in
  modify (λ w, set_seq (appointments_id_seq w + 1) w) ;;;
  match inserted with
  | Stored new_id => ret new_id
  | DuplicateKey => raise DatabaseError
  end.

(** The local variables of [book_appointment] once its checks have
    passed. *)
Record Booking := mkBooking
  { patient_name : json;
    patient_email : json;
    patient_phone : json;
    doctor_id : json;
    appointment_date : json;
    appointment_time : json;
    reason : json }.

(** Lines 14 to 38: the required fields, the two formats, the future
    check. *)
Definition validate_booking (data : json) : Py Booking :=
  check_required data required_fields ;;;
  let* patient_name := dict_item data "patient_name" in
  let* patient_email := dict_item data "patient_email" in
  let* patient_phone := dict_get data "patient_phone" (JStr "") in
  let* doctor_id := dict_item data "doctor_id" in
  let* appointment_date := dict_item data "appointment_date" in
  let* appointment_time := dict_item data "appointment_time" in
  let* reason := dict_get data "reason" (JStr "") in
  let* parsed :=
    try_except only_ValueError
      (let* appointment_date_obj :=
         strptime (strptime_Ymd ext) appointment_date in
       let* appointment_time_obj :=
         strptime (strptime_HM ext) appointment_time in
       ret (appointment_date_obj, appointment_time_obj))
      (λ _, return_
              (jsonify (error_body "Invalid date or time format") 400)) in
  let appointment_datetime : DateTime := parsed in
  let* w := get_world in
  if datetime_le appointment_datetime (clock w)
  then return_
         (jsonify
            (error_body
               "Appointment must be scheduled for a future date and time")
            400)
  else ret (mkBooking patient_name patient_email patient_phone doctor_id
              appointment_date appointment_time reason).

(** Lines 42 to 76: the body of the inner [try]. *)
Definition book_transaction (conn : nat) (b : Booking) : Py unit :=
  let* doctor := execute conn (select_verified_doctor (doctor_id b)) in
  match doctor with
  | None =>
      return_ (jsonify (error_body "Doctor not found or not verified") 404)
  | Some doctor =>
      let* conflict :=
        execute conn
          (select_conflict (doctor_id b) (appointment_date b)
             (appointment_time b)) in
      match conflict with
      | Some _ =>
          return_ (jsonify (error_body "This time slot is already booked") 409)
      | None =>
          let* appointment_id :=
            insert_appointment conn (patient_name b) (patient_email b)
              (patient_phone b) (doctor_id b) (appointment_date b)
              (appointment_time b) (reason b) in
          commit conn ;;;
          return_
            (jsonify
               (<["message" := JStr "Appointment booked successfully"]>
                (<["appointment_id" := JInt appointment_id]>
                 (<["doctor_name" := JStr (doctors.name doctor)]>
                  (<["appointment_date" := appointment_date b]>
                   (<["appointment_time" := appointment_time b]> ∅)))))
               200)
      end
  end.

Definition book_appointment (data : json) : Py unit :=
  try_except Exception
    (let* b := validate_booking data in
     let* conn := get_db_connection in
     try_finally
       (try_except Exception
          (book_transaction conn b)
          (λ e,
             rollback conn ;;;
             logging_error "Database error in book_appointment" e ;;;
             return_ (jsonify (error_body "Failed to book appointment") 500)))
       (close conn))
    (λ e,
       logging_error "Error in book_appointment" e ;;;
       return_ (jsonify (error_body "Internal server error") 500)).

(** *** [get_appointments] *)

(** [if v:] on a value of [request.args.get]. *)
Definition arg_given (v : option string) : option string :=
  match v with
  | Some s => if String.eqb s "" then None else Some s
  | None => None
  end.

(** [FROM appointments a JOIN doctors d ON a.doctor_id = d.id] *)
Definition join_doctors (s : Store) : list (appointments.row * doctors.row) :=
  a ← tbl_appointments s;
  (λ d, (a, d)) <$>
    filter (λ d, appointments.doctor_id a = doctors.id d) (tbl_doctors s).

(** [if doctor_id: query += ' AND a.doctor_id = %s'] *)
Definition where_doctor (doctor_id : option string)
    : option (list (appointments.row * doctors.row)
              → list (appointments.row * doctors.row)) :=
  match arg_given doctor_id with
  | Some v =>
      n ← sql_int (JStr v);
      Some (filter (λ r : appointments.row * doctors.row,
                      appointments.doctor_id r.1 = n))
  | None => Some (λ rows, rows)
  end.

(** [if status: query += ' AND a.status = %s'] *)
Definition where_status (status : option string)
    : option (list (appointments.row * doctors.row)
              → list (appointments.row * doctors.row)) :=
  match arg_given status with
  | Some v =>
      v ← sql_str "status" v;
      Some (filter (λ r : appointments.row * doctors.row,
                      appointments.status r.1 = v))
  | None => Some (λ rows, rows)
  end.

(** The query the handler assembles: the join, one [AND] per filter
    given, and the [ORDER BY]. *)
Definition select_appointments (doctor_id status : option string)
    (w : World) (s : Store)
    : option (list (appointments.row * doctors.row) * Store) :=
  by_doctor ← where_doctor doctor_id;
  by_status ← where_status status;
  Some (merge_sort date_time_desc (by_status (by_doctor (join_doctors s))), s).

(** One element of the ["appointments"] array. *)
Definition appointment_json (apt : appointments.row * doctors.row) : json :=
  JObj
    (<["id" := JInt (appointments.id apt.1)]>
     (<["patient_name" := opt_json (appointments.patient_name apt.1)]>
      (<["patient_email" := opt_json (appointments.patient_email apt.1)]>
       (<["patient_phone" := opt_json (appointments.patient_phone apt.1)]>
        (<["doctor_id" := JInt (appointments.doctor_id apt.1)]>
         (<["doctor_name" := JStr (doctors.name apt.2)]>
          (<["specialization" := JStr (doctors.specialization apt.2)]>
           (<["appointment_date" :=
                JStr (date_isoformat ext (appointments.appointment_date apt.1))]>
            (<["appointment_time" :=
                 JStr (time_strftime_HM ext
                         (appointments.appointment_time apt.1))]>
             (<["reason" := opt_json (appointments.reason apt.1)]>
              (<["status" := JStr (appointments.status apt.1)]>
               (<["notes" := opt_json (appointments.notes apt.1)]>
                (<["created_at" :=
                     JStr (datetime_isoformat ext
                             (appointments.created_at apt.1))]>
                 ∅))))))))))))).

Definition get_appointments (doctor_id status : option string) : Py unit :=
  try_except Exception
    (let* conn := get_db_connection in
     let* appointments :=
       execute conn (select_appointments doctor_id status) in
     close conn ;;;
     return_
       (jsonify
          {[ "appointments" := JArr (appointment_json <$> appointments) ]}
          200))
    (λ e,
       logging_error "Error getting appointments" e ;;;
       return_ (jsonify (error_body "Failed to retrieve appointments") 500)).

(** *** [update_appointment] *)

Definition valid_statuses : list string :=
  ["pending"; "confirmed"; "completed"; "cancelled"]%string.

(** [status in [...]]: only a string equals a string. *)
Definition status_in (status : json) (l : list string) : bool :=
  match status with
  | JStr s => bool_decide (s ∈ l)
  | _ => false
  end.

(** [UPDATE appointments SET status = %s, notes = %s, updated_at =
    CURRENT_TIMESTAMP WHERE id = %s RETURNING id]; the status is one of
    the four texts of [valid_statuses] here, which the column takes. *)
Definition update_appointment_row (status notes : json) (appointment_id : Z)
    (w : World) (s : Store) : option (option Z * Store) :=
  st ← match status with
       | JStr s => if has_nul s then None else Some s
       | _ => None
       end;
  nt ← sql_text "notes" notes;
  let set (a : appointments.row) : appointments.row :=
    if decide (appointments.id a = appointment_id)
    then appointments.mk (appointments.id a)
           (appointments.patient_name a) (appointments.patient_email a)
           (appointments.patient_phone a) (appointments.doctor_id a)
           (appointments.appointment_date a)
           (appointments.appointment_time a) (appointments.reason a)
           st nt (appointments.created_at a) (current_timestamp w)
    else a in
  Some (appointments.id <$>
          head (filter (λ a, appointments.id a = appointment_id)
                  (tbl_appointments s)),
        mkStore (tbl_doctors s) (set <$> tbl_appointments s)
          (tbl_chat_history s)).

Definition update_appointment (appointment_id : Z) (data : json) : Py unit :=
  try_except Exception
    (let* status := dict_get data "status" JNull in
     let* notes := dict_get data "notes" (JStr "") in
     if negb (status_in status valid_statuses)
     then return_ (jsonify (error_body "Invalid status") 400)
     else
       let* conn := get_db_connection in
       try_finally
         (try_except Exception
            (let* updated :=
               execute conn
                 (update_appointment_row status notes appointment_id) in
             match updated with
             | None =>
                 return_ (jsonify (error_body "Appointment not found") 404)
             | Some _ =>
                 commit conn ;;;
                 return_
                   (jsonify
                      {[ "message" := JStr "Appointment updated successfully" ]}
                      200)
             end)
            (λ e,
               rollback conn ;;;
               logging_error "Database error updating appointment" e ;;;
               return_
                 (jsonify (error_body "Failed to update appointment") 500)))
         (close conn))
    (λ e,
       logging_error "Error updating appointment" e ;;;
       return_ (jsonify (error_body "Internal server error") 500)).

(** *** [chat] *)

(** [v.strip()]: only a string has the method. *)
Definition strip (v : json) : Py string :=
  match v with
  | JStr s => ret (str_strip ext s)
  | _ => raise AttributeError
  end.

(** [client.models.generate_content(...)] and the read of
    [response.text]. *)
Definition generate_content (gemini : string → ModelReply)
    (user_message : string) : Py (option string) :=
  match gemini user_message with
  | ReplyText t => ret t
  | ReplyError => raise ModelError
  end.

Definition fallback_response : string :=
  "I apologize, but I couldn't generate a response. Please try again.".

(** [text or fallback] *)
Definition or_fallback (text : option string) : string :=
  match text with
  | Some t => if String.eqb t "" then fallback_response else t
  | None => fallback_response
  end.

(** [INSERT INTO chat_history (session_id, user_message, bot_response)
    VALUES (%s, %s, %s)] *)
Definition insert_chat_row (session_id : json)
    (user_message bot_response : string)
    (w : World) (s : Store) : option (unit * Store) :=
  sid ← sql_text "session_id" session_id;
  um ← sql_str "user_message" user_message;
  br ← sql_str "bot_response" bot_response;
  Some (tt,
        mkStore (tbl_doctors s) (tbl_appointments s)
          (tbl_chat_history s ++
             [chat_history.mk sid um br (current_timestamp w)])).

(** Lines 56 to 67: the best-effort write of the exchange. *)
Definition save_chat_history (session_id : json)
    (user_message bot_response : string) : Py unit :=
  try_except Exception
    (let* conn := get_db_connection in
     execute conn (insert_chat_row session_id user_message bot_response) ;;;
     commit conn ;;;
     close conn)
    (λ db_error, logging_error "Failed to save chat history" db_error).

(** [uuid4] is the text of the identifier [uuid.uuid4()] draws for this
    request, [gemini] the answer of the hosted model. *)
Definition chat (uuid4 : string) (gemini : string → ModelReply)
    (data : json) : Py unit :=
  try_except Exception
    (let* message := dict_get data "message" (JStr "") in
     let* user_message := strip message in
     let* session_id := dict_get data "session_id" (JStr uuid4) in
     if String.eqb user_message ""
     then return_ (jsonify (error_body "Message is required") 400)
     else
       let* text := generate_content gemini user_message in
       let bot_response := or_fallback text in
       save_chat_history session_id user_message bot_response ;;;
       return_
         (jsonify
            (<["response" := JStr bot_response]>
             (<["session_id" := session_id]>
              (<["timestamp" := JStr "now"]> ∅)))
            200))
    (λ e,
       logging_error "Chat error" e ;;;
       return_
         (jsonify
            (error_body "Failed to process your message. Please try again.")
            500)).

(** *** [get_chat_history] *)

(** [SELECT ... FROM chat_history WHERE session_id = %s ORDER BY
    created_at ASC] *)
Definition select_history (session_id : string)
    (w : World) (s : Store) : option (list chat_history.row * Store) :=
  sid ← sql_str "session_id" session_id;
  Some (merge_sort created_asc
          (filter (λ r, chat_history.session_id r = Some sid)
             (tbl_chat_history s)),
        s).

Definition history_json (row : chat_history.row) : json :=
  JObj
    (<["user_message" := JStr (chat_history.user_message row)]>
     (<["bot_response" := JStr (chat_history.bot_response row)]>
      (<["timestamp" :=
           JStr (datetime_isoformat ext (chat_history.created_at row))]>
       ∅))).

Definition get_chat_history (session_id : string) : Py unit :=
  try_except Exception
    (let* conn := get_db_connection in
     let* history := execute conn (select_history session_id) in
     close conn ;;;
     return_ (jsonify {[ "history" := JArr (history_json <$> history) ]} 200))
    (λ e,
       logging_error "Failed to get chat history" e ;;;
       return_ (jsonify (error_body "Failed to retrieve chat history") 500)).
End handlers.

(** * A sample instantiation of the collaborators

    Fixed-width readers and writers for [YYYY-MM-DD] and [HH:MM], decimal
    integers, and stripping of ASCII white space: enough to run the
    handlers on concrete requests. *)

Module Sample.
Definition digit (c : ascii) : option Z :=
  let n := Z.of_N (N_of_ascii c) in
  if decide (48 ≤ n ≤ 57) then Some (n - 48) else None.

Fixpoint digits (acc : Z) (s : string) : option Z :=
  match s with
  | EmptyString => Some acc
  | String c rest => d ← digit c; digits (10 * acc + d) rest
  end.

Definition number (s : string) : option Z :=
  match s with
  | EmptyString => None
  | _ => digits 0 s
  end.

Definition leap (y : Z) : bool :=
  ((y mod 4 =? 0) && negb (y mod 100 =? 0)) || (y mod 400 =? 0).

Definition days_in_month (y m : Z) : Z :=
  if m =? 2 then (if leap y then 29 else 28)
  else if (m =? 4) || (m =? 6) || (m =? 9) || (m =? 11) then 30
  else 31.

Definition read_date (s : string) : option Date :=
  if decide (String.length s = 10%nat ∧ String.substring 4 1 s = "-"%string
             ∧ String.substring 7 1 s = "-"%string)
  then
    y ← number (String.substring 0 4 s);
    m ← number (String.substring 5 2 s);
    d ← number (String.substring 8 2 s);
    if decide (1 ≤ y ∧ 1 ≤ m ≤ 12 ∧ 1 ≤ d ≤ days_in_month y m)
    then Some (mkDate y m d) else None
  else None.

Definition read_time (s : string) : option Time :=
  if decide (String.length s = 5%nat ∧ String.substring 2 1 s = ":"%string)
  then
    h ← number (String.substring 0 2 s);
    m ← number (String.substring 3 2 s);
    if decide (h ≤ 23 ∧ m ≤ 59) then Some (mkTime h m 0 0) else None
  else None.

Definition digit_char (n : Z) : ascii := ascii_of_N (Z.to_N (48 + n mod 10)).

Definition pad2 (n : Z) : string :=
  String (digit_char (n / 10)) (String (digit_char n) EmptyString).

Definition pad4 (n : Z) : string := pad2 (n / 100) +:+ pad2 (n mod 100).

Definition write_date (d : Date) : string :=
  pad4 (year d) +:+ "-" +:+ pad2 (month d) +:+ "-" +:+ pad2 (day d).

Definition write_time (t : Time) : string :=
  pad2 (hour t) +:+ ":" +:+ pad2 (minute t).

Definition write_datetime (x : DateTime) : string :=
  write_date x.1 +:+ "T" +:+ write_time x.2 +:+ ":" +:+ pad2 (second x.2).

Definition is_space (c : ascii) : bool :=
  let n := Z.of_N (N_of_ascii c) in
  ((9 <=? n) && (n <=? 13)) || ((28 <=? n) && (n <=? 32)).

Fixpoint lstrip (s : string) : string :=
  match s with
  | String c rest => if is_space c then lstrip rest else s
  | EmptyString => EmptyString
  end.

Fixpoint rstrip (s : string) : string :=
  match s with
  | String c rest =>
      match rstrip rest with
      | EmptyString => if is_space c then EmptyString else String c EmptyString
      | rest' => String c rest'
      end
  | EmptyString => EmptyString
  end.

Definition of_str {T} (read : string → option T) (v : json) : option T :=
  match v with JStr s => read s | _ => None end.

Definition ext : Externals :=
  {| strptime_Ymd := read_date;
     strptime_HM := read_time;
     str_strip := λ s, rstrip (lstrip s);
     date_isoformat := write_date;
     time_strftime_HM := write_time;
     datetime_isoformat := write_datetime;
     pg_int := of_str number;
     pg_text := λ _ v, match v with JNull => Some None | _ => None end;
     pg_accepts := λ _ _, true;
     pg_date := of_str read_date;
     pg_time := of_str read_time |}.

(** A store with one verified and one unverified doctor, and a clock. *)
Definition midnight : Time := mkTime 0 0 0 0.

Definition dr_grey : doctors.row := doctors.mk 3 "Grey" "Cardiology" true.
Definition dr_house : doctors.row := doctors.mk 4 "House" "Diagnostics" false.

Definition empty_store : Store := mkStore [dr_grey; dr_house] [] [].

(** The sequence of a sample world stands past every id of its store. *)
Definition next_id (s : Store) : Z :=
  1 + foldr Z.max 0 (appointments.id <$> tbl_appointments s).

Definition world (s : Store) (fs : list bool) : World :=
  {| committed := s;
     conns := [];
     clock := (mkDate 2026 11 3, mkTime 12 0 0 0);
     current_timestamp := (mkDate 2026 11 3, mkTime 12 0 0 0);
     appointments_id_seq := next_id s;
     faults := fs;
     log := [] |}.

(** The booking of section 8 of the specification. *)
Definition booking (doctor_id date time : json) : gmap string json :=
  <["patient_name" := JStr "Jane Doe"]>
    (<["patient_email" := JStr "jane@x.com"]>
       (<["doctor_id" := doctor_id]>
          (<["appointment_date" := date]>
             (<["appointment_time" := time]> ∅)))).
(** An appointment of Jane Doe with doctor 3. *)
Definition jane (id : Z) (d : Date) (t : Time) (status : string)
    : appointments.row :=
  appointments.mk id (Some "Jane Doe") (Some "jane@x.com") (Some "")
    3 d t (Some "") status (Some "call back")
    (mkDate 2019 12 1, midnight) (mkDate 2019 12 1, midnight).

Definition ten : Time := mkTime 10 0 0 0.

(** A slot of January 2020 that is still pending when the clock says
    November 2026, and a slot of 2099. *)
Definition past_store : Store :=
  mkStore [dr_grey; dr_house] [jane 1 (mkDate 2020 1 1) ten "pending"] [].

Definition future_store : Store :=
  mkStore [dr_grey; dr_house]
    [jane 1 (mkDate 2099 1 1) ten "pending";
     jane 2 (mkDate 2099 1 2) ten "cancelled";
     jane 3 (mkDate 2099 1 1) (mkTime 9 30 0 0) "confirmed"] [].

(** Doctor 4 lost the verification flag after this appointment was
    made. *)
Definition house_store : Store :=
  mkStore [dr_grey; dr_house]
    [appointments.mk 1 (Some "Jane Doe") (Some "jane@x.com") (Some "")
       4 (mkDate 2099 1 1) ten (Some "") "pending" None
       (mkDate 2019 12 1, midnight) (mkDate 2019 12 1, midnight)] [].

Definition status_only (status : string) : gmap string json :=
  {[ "status" := JStr status ]}.

Definition hello : gmap string json := {[ "message" := JStr " hello " ]}.

Definition gemini (user_message : string) : ModelReply :=
  ReplyText (Some "Drink water.").

(** The world a handler leaves, and the status it answers with. *)
Definition after (m : Py unit) (w : World) : World := (m w).2.

Definition answered (m : Py unit) (w : World) : option Z :=
  match (m w).1 with
  | Return r => Some (status_code r)
  | _ => None
  end.

(** Book a slot, cancel the appointment, book the slot again, and set the
    first appointment back to pending. *)
Definition slot_2099 : json :=
  JObj (booking (JInt 3) (JStr "2099-01-01") (JStr "10:00")).

Definition w0 : World := world empty_store [].
Definition w1 : World := after (book_appointment ext slot_2099) w0.
Definition w2 : World :=
  after (update_appointment ext 1 (JObj (status_only "cancelled"))) w1.
Definition w3 : World := after (book_appointment ext slot_2099) w2.
Definition w4 : World :=
  after (update_appointment ext 1 (JObj (status_only "pending"))) w3.
(** The request of section 8 as fields, a request without fields, and
    two requests whose doctor or date is off. *)
Definition jane_2099 : gmap string json :=
  booking (JInt 3) (JStr "2099-01-01") (JStr "10:00").

Definition house_2099 : gmap string json :=
  booking (JInt 4) (JStr "2099-01-01") (JStr "10:00").

Definition month_13 : gmap string json :=
  booking (JInt 3) (JStr "2099-13-01") (JStr "10:00").

(** The row the booking of [jane_2099] stores in [world s fs]. *)
Definition jane_row (id : Z) : appointments.row :=
  appointments.mk id (Some "Jane Doe") (Some "jane@x.com") (Some "")
    3 (mkDate 2099 1 1) ten (Some "") "pending" None
    (mkDate 2026 11 3, mkTime 12 0 0 0) (mkDate 2026 11 3, mkTime 12 0 0 0).

(** Jane holds the slot of [jane_2099]. *)
Definition held_store : Store :=
  mkStore [dr_grey; dr_house] [jane 1 (mkDate 2099 1 1) ten "pending"] [].

(** Two sessions with three turns, stored out of order. *)
Definition turn (session : string) (said : string) (h : Z) : chat_history.row :=
  chat_history.mk (Some session) said "Drink water."
    (mkDate 2026 11 1, mkTime h 0 0 0).

Definition chat_store : Store :=
  mkStore [dr_grey; dr_house] []
    [turn "session-1" "second" 11; turn "session-2" "other" 9;
     turn "session-1" "first" 8].

Definition blank : gmap string json := {[ "message" := JStr "   " ]}.

Definition number_message : gmap string json := {[ "message" := JInt 5 ]}.

(** A text that holds U+0000, as notes of an update and as a message. *)
Definition nul : string := String "000" EmptyString.

Definition call_nul_back : string := "call" +:+ nul +:+ "back".

Definition notes_with_nul : gmap string json :=
  <["notes" := JStr call_nul_back]> (status_only "confirmed").

(** The request of [jane_2099] under a name that holds U+0000, and a
    chat message that does. *)
Definition nul_2099 : gmap string json :=
  <["patient_name" := JStr call_nul_back]> jane_2099.

Definition nul_message : gmap string json :=
  {[ "message" := JStr call_nul_back ]}.

(** Jane holds a slot of the day after that of [jane_2099]. *)
Definition next_day_store : Store :=
  mkStore [dr_grey; dr_house] [jane 1 (mkDate 2099 1 2) ten "pending"] [].

(** An appointment whose doctor id names no doctor, next to one of
    doctor 3. *)
Definition stray : appointments.row :=
  appointments.mk 2 (Some "John Roe") (Some "john@x.com") None
    7 (mkDate 2099 1 3) ten None "pending" None
    (mkDate 2019 12 1, midnight) (mkDate 2019 12 1, midnight).

Definition stray_store : Store :=
  mkStore [dr_grey; dr_house]
    [jane 1 (mkDate 2099 1 1) ten "pending"; stray] [].

(** A world like [w] at a later hour of the clock, with other outages
    ahead. *)
Definition later (c : DateTime) (fs : list bool) (w : World) : World :=
  mkWorld (committed w) (conns w) c c (appointments_id_seq w) fs (log w).

(** The first day of 2050, when the slot of 2099 is still ahead, and the
    first day of 2100, when it has passed. *)
Definition year_2050 : DateTime := (mkDate 2050 1 1, midnight).

Definition year_2100 : DateTime := (mkDate 2100 1 1, midnight).
End Sample.

(** * Vocabulary of the statements *)

(** The test of the loop body on a dict: [data.get(field)] is truthy. *)
Definition field_given (m : gmap string json) (field : string) : Prop :=
  truthy (default JNull (m !! field)) = true.

(** The first [n] gateway calls meet no outage. *)
Fixpoint no_outage (n : nat) (fs : list bool) : Prop :=
  match n with
  | O => True
  | S n' => hd false fs = false ∧ no_outage n' (tail fs)
  end.

(** What [UPDATE ... SET status, notes, updated_at] leaves of a row. *)
Definition rewritten (status : string) (notes : sqltext) (now : DateTime)
    (a : appointments.row) : appointments.row :=
  appointments.mk (appointments.id a)
    (appointments.patient_name a) (appointments.patient_email a)
    (appointments.patient_phone a) (appointments.doctor_id a)
    (appointments.appointment_date a) (appointments.appointment_time a)
    (appointments.reason a) status notes (appointments.created_at a) now.

(** Every connection opened between two worlds has been closed, and the
    handles that existed before are as they were. *)
Definition released (w w' : World) : Prop :=
  ∃ opened, conns w' = conns w ++ opened ∧ Forall (λ c, c = Closed) opened.

(** A connection opened between two worlds is still open. *)
Definition leaked (w w' : World) : Prop :=
  ∃ s, conns w' !! length (conns w) = Some (Open s).

(** At most one active appointment per (doctor id, date, time). *)
Definition unique_active (s : Store) : Prop :=
  ∀ n d t,
    (length (filter (λ a, at_slot n d t a ∧ active a) (tbl_appointments s))
     ≤ 1)%nat.

(** The slot holds an active appointment. *)
Definition occupied (n : Z) (d : Date) (t : Time) (s : Store) : Prop :=
  ∃ a, a ∈ tbl_appointments s ∧ at_slot n d t a ∧ active a.

(** The store [s'] is [s] with one active appointment appended, in a slot
    that held no active appointment. *)
Definition booked_into (n : Z) (d : Date) (t : Time) (s s' : Store) : Prop :=
  ∃ a, at_slot n d t a ∧ active a
       ∧ filter (λ a, at_slot n d t a ∧ active a) (tbl_appointments s) = []
       ∧ s' = mkStore (tbl_doctors s) (tbl_appointments s ++ [a])
                (tbl_chat_history s).

(** A block that leaves the world as it found it. *)
Definition reads_only {A} (m : Py A) : Prop := ∀ w, (m w).2 = w.

(** The handle past the handles [cs] is open. *)
Definition session (cs : list Conn) (w : World) : Prop :=
  ∃ s, conns w = cs ++ [Open s].

(** A block that maintains a property of the world however it ends. *)
Definition keeps (P : World → Prop) {A} (m : Py A) : Prop :=
  ∀ w, P w → P (m w).2.

(** Three comparison results that fit together as those of [a] with [b],
    [b] with [c] and [a] with [c] in a total order. *)
Definition chain (ab bc ac : comparison) : Prop :=
  (ab = Eq → ac = bc) ∧ (bc = Eq → ac = ab)
  ∧ (ab = Gt → bc = Gt → ac = Gt) ∧ (ab = Lt → bc = Lt → ac = Lt).

(** The filters of the list endpoint, as the specification words them: a
    filter that is absent, or present without a value, restricts nothing;
    the doctor filter is compared as the store reads it. *)
Definition filter_allows (given : option string) (P : string → Prop) : Prop :=
  match given with
  | Some v => v ≠ ""%string → P v
  | None => True
  end.

Definition matches_filters (ext : Externals) (doctor_id status : option string)
    (a : appointments.row) : Prop :=
  filter_allows doctor_id
    (λ v, sql_int ext (JStr v) = Some (appointments.doctor_id a))
  ∧ filter_allows status (λ v, appointments.status a = v).

#[global] Instance filter_allows_dec given P :
  (∀ v, Decision (P v)) → Decision (filter_allows given P).
Proof. intros HP. destruct given; simpl; apply _. Defined.

#[global] Instance matches_filters_dec ext doctor_id status a :
  Decision (matches_filters ext doctor_id status a).
Proof. unfold matches_filters. apply _. Defined.

(** The key constraints of the schema: doctor ids are unique and every
    appointment refers to a doctor. *)
Definition references_doctors (s : Store) : Prop :=
  NoDup (doctors.id <$> tbl_doctors s)
  ∧ ∀ a, a ∈ tbl_appointments s →
         ∃ d, d ∈ tbl_doctors s ∧ doctors.id d = appointments.doctor_id a.

(** A row of the join carries the doctor its appointment refers to. *)
Definition joined (s : Store) (r : appointments.row * doctors.row) : Prop :=
  r.2 ∈ tbl_doctors s ∧ doctors.id r.2 = appointments.doctor_id r.1.

(** The request passes the three checks of [book_appointment]: all
    required fields are given, date and time are text that [strptime]
    reads, and the moment they name is later than the clock. *)
Definition passes_checks (ext : Externals) (m : gmap string json) (w : World)
    (dv : json) (ds ts : string) : Prop :=
  Forall (field_given m) required_fields
  ∧ m !! "doctor_id" = Some dv
  ∧ m !! "appointment_date" = Some (JStr ds)
  ∧ m !! "appointment_time" = Some (JStr ts)
  ∧ ∃ d0 t0, strptime_Ymd ext ds = Some d0 ∧ strptime_HM ext ts = Some t0
             ∧ datetime_le (d0, t0) (clock w) = false.

(** The slot the store reads from the request. *)
Definition targets (ext : Externals) (dv : json) (ds ts : string)
    (n : Z) (d : Date) (t : Time) : Prop :=
  sql_int ext dv = Some n ∧ pg_date ext (JStr ds) = Some d
  ∧ pg_time ext (JStr ts) = Some t.

(** The store holds a verified doctor of that id. *)
Definition verified (n : Z) (s : Store) : Prop :=
  ∃ doc, doc ∈ tbl_doctors s ∧ doctors.id doc = n
         ∧ doctors.is_verified doc = true.

(** The columns [update_appointment] never writes. *)
Definition kept_columns (a : appointments.row)
    : Z * sqltext * sqltext * sqltext * Z * Date * Time * sqltext * DateTime :=
  (appointments.id a, appointments.patient_name a,
   appointments.patient_email a, appointments.patient_phone a,
   appointments.doctor_id a, appointments.appointment_date a,
   appointments.appointment_time a, appointments.reason a,
   appointments.created_at a).

(** The answer of a run, when it ends in [return]. *)
Definition answer (run : Outcome unit * World) : option Response :=
  match run.1 with
  | Return r => Some r
  | _ => None
  end.

(** Driver and store take the text as it is for that column. *)
Definition takes_text (ext : Externals) (column s : string) : Prop :=
  sql_str ext column s = Some s.

(** The next value of the sequence is the id of no stored appointment. *)
Definition fresh_id (w : World) : Prop :=
  appointments_id_seq w ∉ appointments.id <$> tbl_appointments (committed w).

#[global] Instance fresh_id_dec w : Decision (fresh_id w).
Proof. unfold fresh_id. apply _. Defined.

(** What an element of the ["appointments"] array shows of a row of the
    join: thirteen fields, eleven from the appointment, the name and the
    specialization from the doctor. *)
Definition shows_appointment (ext : Externals)
    (r : appointments.row * doctors.row) (j : json) : Prop :=
  ∃ d, j = JObj d
    ∧ size d = 13%nat
    ∧ d !! "id" = Some (JInt (appointments.id r.1))
    ∧ d !! "patient_name" = Some (opt_json (appointments.patient_name r.1))
    ∧ d !! "patient_email" = Some (opt_json (appointments.patient_email r.1))
    ∧ d !! "patient_phone" = Some (opt_json (appointments.patient_phone r.1))
    ∧ d !! "doctor_id" = Some (JInt (appointments.doctor_id r.1))
    ∧ d !! "doctor_name" = Some (JStr (doctors.name r.2))
    ∧ d !! "specialization" = Some (JStr (doctors.specialization r.2))
    ∧ d !! "appointment_date"
      = Some (JStr (date_isoformat ext (appointments.appointment_date r.1)))
    ∧ d !! "appointment_time"
      = Some (JStr (time_strftime_HM ext (appointments.appointment_time r.1)))
    ∧ d !! "reason" = Some (opt_json (appointments.reason r.1))
    ∧ d !! "status" = Some (JStr (appointments.status r.1))
    ∧ d !! "notes" = Some (opt_json (appointments.notes r.1))
    ∧ d !! "created_at"
      = Some (JStr (datetime_isoformat ext (appointments.created_at r.1))).

(** What an element of the ["history"] array shows of a turn. *)
Definition shows_turn (ext : Externals) (row : chat_history.row) (j : json)
    : Prop :=
  ∃ d, j = JObj d
    ∧ size d = 3%nat
    ∧ d !! "user_message" = Some (JStr (chat_history.user_message row))
    ∧ d !! "bot_response" = Some (JStr (chat_history.bot_response row))
    ∧ d !! "timestamp"
      = Some (JStr (datetime_isoformat ext (chat_history.created_at row))).

(** Driver and store take the four text fields of a booking, and read
    them as [pn], [pe], [pp] and [r]. *)
Definition stores_fields (ext : Externals) (m : gmap string json)
    (pn pe pp r : sqltext) : Prop :=
  sql_text ext "patient_name" (default JNull (m !! "patient_name")) = Some pn
  ∧ sql_text ext "patient_email" (default JNull (m !! "patient_email"))
    = Some pe
  ∧ sql_text ext "patient_phone" (default (JStr "") (m !! "patient_phone"))
    = Some pp
  ∧ sql_text ext "reason" (default (JStr "") (m !! "reason")) = Some r.

(** The row a booking stores. *)
Definition booked_row (w : World) (pn pe pp : sqltext) (n : Z) (d : Date)
    (t : Time) (r : sqltext) : appointments.row :=
  appointments.mk (appointments_id_seq w) pn pe pp n d t r
    "pending" None (current_timestamp w) (current_timestamp w).

(** * Properties *)

(** ** Running the monad *)

(** Handlers are run step by step with the equations below; [simpl]
    stays on the data. *)
Arguments bind : simpl never.
Arguments try_except : simpl never.
Arguments try_finally : simpl never.
Arguments get_db_connection : simpl never.
Arguments execute : simpl never.
Arguments commit : simpl never.
Arguments rollback : simpl never.
Arguments close : simpl never.
Arguments logging_error : simpl never.

Lemma bind_normal {A B} (m : Py A) (k : A → Py B) w a w' :
  m w = (Normal a, w') → bind m k w = k a w'.
Proof. unfold bind. by intros ->. Qed.

Lemma bind_return {A B} (m : Py A) (k : A → Py B) w r w' :
  m w = (Return r, w') → bind m k w = (Return r, w').
Proof. unfold bind. by intros ->. Qed.

Lemma bind_raise {A B} (m : Py A) (k : A → Py B) w e w' :
  m w = (Raise e, w') → bind m k w = (Raise e, w').
Proof. unfold bind. by intros ->. Qed.

Lemma try_except_return {A} c (m : Py A) h w r w' :
  m w = (Return r, w') → try_except c m h w = (Return r, w').
Proof. unfold try_except. by intros ->. Qed.

Lemma try_except_caught {A} c (m : Py A) h w e w' :
  m w = (Raise e, w') → c e = true → try_except c m h w = h e w'.
Proof. unfold try_except. by intros -> ->. Qed.

Ltac run_normal tac := erewrite bind_normal; [cbv beta | tac].

(** Opening a connection never leaves the world as it was: a world that
    comes back unchanged has seen no gateway call. *)
Lemma get_db_connection_changes_world w :
  (get_db_connection w).2 ≠ w.
Proof.
  unfold get_db_connection, bind, round_trip, get_world, modify, ret.
  destruct (hd false (faults w)) eqn:Hf; simpl.
  - intros Hw. apply (f_equal faults) in Hw. simpl in Hw.
    destruct (faults w) as [|b fs]; [done|].
    simpl in *. apply (f_equal length) in Hw. simpl in Hw. lia.
  - intros Hw. apply (f_equal conns) in Hw. simpl in Hw.
    apply (f_equal length) in Hw. rewrite length_app in Hw. simpl in Hw. lia.
Qed.

(** ** Required fields *)

Section required.
Variable ext : Externals.

Lemma check_required_pass m fields w :
  Forall (field_given m) fields →
  check_required (JObj m) fields w = (Normal tt, w).
Proof.
  induction 1 as [|f fields Hf _ IH]; [done|].
  simpl. unfold bind at 1. simpl. unfold field_given in Hf.
  rewrite Hf. simpl. apply IH.
Qed.

Lemma check_required_stop m pre g post w :
  Forall (field_given m) pre →
  ¬ field_given m g →
  check_required (JObj m) (pre ++ g :: post) w
  = (Return (jsonify (error_body (g +:+ " is required")) 400), w).
Proof.
  intros Hpre Hg. induction Hpre as [|f pre Hf _ IH]; simpl.
  - unfold bind. simpl. unfold field_given in Hg.
    by destruct (truthy (default JNull (m !! g))).
  - unfold bind at 1. simpl. unfold field_given in Hf. rewrite Hf. apply IH.
Qed.

(** A list with an element failing a decidable test splits at the first
    such element. *)
Lemma first_not_given m (fields : list string) :
  Exists (λ f, ¬ field_given m f) fields →
  ∃ pre g post, fields = pre ++ g :: post
                ∧ Forall (field_given m) pre ∧ ¬ field_given m g.
Proof.
  induction fields as [|f fields IH]; intros Hex.
  - by apply Exists_nil in Hex.
  - destruct (truthy (default JNull (m !! f))) eqn:Hv;
      [assert (Hf : field_given m f) by done
      |assert (Hf : ¬ field_given m f) by (unfold field_given; congruence)].
    + apply Exists_cons in Hex as [?|Hex]; [done|].
      destruct (IH Hex) as (pre & g & post & -> & Hpre & Hg).
      exists (f :: pre), g, post. by repeat split; [constructor|].
    + by exists [], f, fields.
Qed.

Lemma book_appointment_stops_at_required m pre g post w :
  required_fields = pre ++ g :: post →
  Forall (field_given m) pre →
  ¬ field_given m g →
  book_appointment ext (JObj m) w
  = (Return (jsonify (error_body (g +:+ " is required")) 400), w).
Proof.
  intros Hreq Hpre Hg. unfold book_appointment, validate_booking.
  apply try_except_return, bind_return, bind_return.
  rewrite Hreq. by apply check_required_stop.
Qed.
End required.

Lemma field_given_lookup m f :
  field_given m f → ∃ v, m !! f = Some v ∧ truthy v = true.
Proof.
  unfold field_given. destruct (m !! f) as [v|]; simpl; [eauto|done].
Qed.

(** A request that passes the loop has all five fields. *)
Lemma required_lookups m :
  Forall (field_given m) required_fields →
  ∃ v1 v2 v3 v4 v5,
    m !! "patient_name" = Some v1 ∧ m !! "patient_email" = Some v2
    ∧ m !! "doctor_id" = Some v3 ∧ m !! "appointment_date" = Some v4
    ∧ m !! "appointment_time" = Some v5.
Proof.
  unfold required_fields. intros Hall.
  repeat (apply Forall_cons in Hall as [(? & ? & _)%field_given_lookup Hall]).
  eauto 10.
Qed.

Section validation.
Variable ext : Externals.

(** X22.  A date that is text but does not parse, or a parsed date
    followed by a time that is text but does not parse, is answered with
    400 and the format message; the world is not touched. *)
Lemma book_appointment_bad_format m ds w :
  Forall (field_given m) required_fields →
  m !! "appointment_date" = Some (JStr ds) →
  strptime_Ymd ext ds = None
  ∨ (∃ ts, m !! "appointment_time" = Some (JStr ts)
           ∧ strptime_HM ext ts = None) →
  book_appointment ext (JObj m) w
  = (Return (jsonify (error_body "Invalid date or time format") 400), w).
Proof.
  intros Hall Hd Hbad.
  destruct (required_lookups m Hall)
    as (v1 & v2 & v3 & v4 & v5 & H1 & H2 & H3 & H4 & H5).
  unfold book_appointment, validate_booking.
  apply try_except_return, bind_return.
  rewrite (bind_normal _ _ _ _ _ (check_required_pass m _ w Hall)).
  unfold bind, dict_item, dict_get, try_except, strptime, get_world, ret,
    return_, raise.
  rewrite H1, H2, H3, Hd, H5. simpl.
  destruct Hbad as [Hpd|(ts & Ht & Hpt)].
  - by rewrite Hpd.
  - destruct (strptime_Ymd ext ds); [|done].
    rewrite Ht in H5. injection H5 as <-. by rewrite Hpt.
Qed.

(** C2.  A booking request that passes the field and format checks and
    whose date and time, combined, are not later than the clock is answered
    with 400 and the future-date message, whatever the store holds; the
    world comes back as it was, so no connection was opened. *)
Theorem book_appointment_rejects_past m ds ts d t w :
  Forall (field_given m) required_fields →
  m !! "appointment_date" = Some (JStr ds) →
  m !! "appointment_time" = Some (JStr ts) →
  strptime_Ymd ext ds = Some d →
  strptime_HM ext ts = Some t →
  datetime_le (d, t) (clock w) = true →
  book_appointment ext (JObj m) w
  = (Return
       (jsonify
          (error_body "Appointment must be scheduled for a future date and time")
          400), w).
Proof.
  intros Hall Hd Ht Hpd Hpt Hle.
  destruct (required_lookups m Hall)
    as (v1 & v2 & v3 & v4 & v5 & H1 & H2 & H3 & H4 & H5).
  unfold book_appointment, validate_booking.
  apply try_except_return, bind_return.
  rewrite (bind_normal _ _ _ _ _ (check_required_pass m _ w Hall)).
  unfold bind, dict_item, dict_get, try_except, strptime, get_world, ret,
    return_.
  rewrite H1, H2, H3, Hd, Ht, Hpd, Hpt. simpl. by rewrite Hle.
Qed.

(** C3.  A booking whose [appointment_date] is a JSON number passes the
    field check, and [strptime] then raises [TypeError], which the format
    check does not catch: the answer is 500 with the catch-all message
    instead of 400 with the format message. *)
Theorem book_appointment_numeric_date w :
  book_appointment ext
    (JObj (Sample.booking (JInt 3) (JInt 20990101) (JStr "10:00"))) w
  = (Return (jsonify (error_body "Internal server error") 500),
     set_log (log w ++ [("Error in book_appointment"%string, TypeError)]) w).
Proof.
  set (m := Sample.booking _ _ _).
  assert (Hall : Forall (field_given m) required_fields)
    by (repeat constructor; vm_compute; reflexivity).
  unfold book_appointment, validate_booking.
  erewrite try_except_caught; [reflexivity| |reflexivity].
  apply bind_raise.
  rewrite (bind_normal _ _ _ _ _ (check_required_pass m _ w Hall)).
  unfold bind, dict_item, dict_get, try_except, strptime, get_world, ret,
    return_, raise.
  replace (m !! "patient_name"%string) with (Some (JStr "Jane Doe"))
    by reflexivity.
  replace (m !! "patient_email"%string) with (Some (JStr "jane@x.com"))
    by reflexivity.
  replace (m !! "patient_phone"%string) with (@None json) by reflexivity.
  replace (m !! "doctor_id"%string) with (Some (JInt 3)) by reflexivity.
  replace (m !! "appointment_date"%string) with (Some (JInt 20990101))
    by reflexivity.
  replace (m !! "appointment_time"%string) with (Some (JStr "10:00"))
    by reflexivity.
  reflexivity.
Qed.


(** C5.  An update whose status is missing, is not a string, or is a
    string outside the four statuses, is answered with 400 and
    ["Invalid status"]; the world comes back as it was: no connection was
    opened and no row was written. *)
Theorem update_appointment_invalid_status appointment_id m w :
  (∀ s, m !! "status" = Some (JStr s) → s ∉ valid_statuses) →
  update_appointment ext appointment_id (JObj m) w
  = (Return (jsonify (error_body "Invalid status") 400), w).
Proof.
  intros Hbad.
  unfold update_appointment, try_except, bind, dict_get, ret, return_.
  destruct (m !! "status") as [[| | |s| |]|] eqn:Hs; simpl; try done.
  rewrite bool_decide_eq_false_2; [done|]. by apply Hbad.
Qed.
End validation.

(** ** The gateway on a live connection *)

Lemma lookup_last_handle (cs : list Conn) c : (cs ++ [c]) !! length cs = Some c.
Proof. by rewrite list_lookup_middle. Qed.

Lemma insert_last_handle (cs : list Conn) c c' :
  <[length cs := c']> (cs ++ [c]) = cs ++ [c'].
Proof.
  rewrite insert_app_r_alt by lia. by rewrite Nat.sub_diag.
Qed.

Lemma get_db_connection_run w :
  get_db_connection w
  = let w1 := set_faults (tail (faults w)) w in
    if hd false (faults w) then (Raise DatabaseError, w1)
    else (Normal (length (conns w)),
          set_conns (conns w ++ [Open (committed w)]) w1).
Proof.
  unfold get_db_connection, bind, round_trip, get_world, modify, ret.
  by destruct (hd false (faults w)).
Qed.

Lemma execute_run {A} cs s (stmt : World → Store → option (A * Store)) w :
  conns w = cs ++ [Open s] →
  execute (length cs) stmt w
  = let w1 := set_faults (tail (faults w)) w in
    if hd false (faults w) then (Raise DatabaseError, w1)
    else match stmt w1 s with
         | Some (a, s') => (Normal a, set_conns (cs ++ [Open s']) w1)
         | None => (Raise DatabaseError, w1)
         end.
Proof.
  intros Hc.
  unfold execute, bind, round_trip, get_world, modify, ret, raise.
  destruct (hd false (faults w)); [done|]. simpl.
  rewrite Hc, lookup_last_handle.
  destruct (stmt _ s) as [[a s']|]; [|done].
  by rewrite insert_last_handle.
Qed.

Lemma commit_run cs s w :
  conns w = cs ++ [Open s] →
  commit (length cs) w
  = let w1 := set_faults (tail (faults w)) w in
    if hd false (faults w) then (Raise DatabaseError, w1)
    else (Normal tt, set_committed s w1).
Proof.
  intros Hc. unfold commit, bind, round_trip, get_world, modify, raise.
  destruct (hd false (faults w)); [done|]. simpl.
  by rewrite Hc, lookup_last_handle.
Qed.

Lemma rollback_run cs s w :
  conns w = cs ++ [Open s] →
  rollback (length cs) w
  = let w1 := set_faults (tail (faults w)) w in
    if hd false (faults w) then (Raise DatabaseError, w1)
    else (Normal tt, set_conns (cs ++ [Open (committed w)]) w1).
Proof.
  intros Hc. unfold rollback, bind, round_trip, get_world, modify, raise.
  destruct (hd false (faults w)); [done|]. simpl.
  by rewrite Hc, lookup_last_handle, insert_last_handle.
Qed.

Lemma close_run cs c w :
  conns w = cs ++ [c] →
  close (length cs) w = (Normal tt, set_conns (cs ++ [Closed]) w).
Proof.
  intros Hc. unfold close, modify. by rewrite Hc, insert_last_handle.
Qed.

Lemma head_filter_found {A} (P : A → Prop) `{!∀ x, Decision (P x)} l x :
  x ∈ l → P x → is_Some (head (filter P l)).
Proof.
  intros Hx HP. destruct (filter P l) as [|y l'] eqn:Hf; [|by eexists].
  assert (x ∈ filter P l) as Hin by by apply list_elem_of_filter.
  rewrite Hf in Hin. by apply not_elem_of_nil in Hin.
Qed.

(** ** Text parameters *)

Lemma sql_str_Some ext column s s' :
  sql_str ext column s = Some s' →
  s' = s ∧ has_nul s = false ∧ pg_accepts ext column s = true.
Proof.
  unfold sql_str. destruct (has_nul s); [done|].
  destruct (pg_accepts ext column s); [|done]. by intros [= <-].
Qed.

Lemma sql_str_takes ext column s s' :
  sql_str ext column s = Some s' → s' = s ∧ takes_text ext column s.
Proof.
  intros Hs. destruct (sql_str_Some _ _ _ _ Hs) as (-> & _ & _). by split.
Qed.

Lemma sql_text_JStr ext column s t :
  sql_text ext column (JStr s) = Some t →
  t = Some s ∧ takes_text ext column s.
Proof.
  simpl. destruct (sql_str ext column s) as [s'|] eqn:Hs; simpl; [|done].
  intros [= <-]. by destruct (sql_str_takes _ _ _ _ Hs) as [-> ?].
Qed.

(** A text with U+0000 is never taken. *)
Lemma has_nul_refused ext column s :
  has_nul s = true → sql_text ext column (JStr s) = None.
Proof. intros Hs. simpl. unfold sql_str. by rewrite Hs. Qed.

Lemma valid_statuses_no_nul s : s ∈ valid_statuses → has_nul s = false.
Proof.
  unfold valid_statuses. intros Hs.
  repeat (apply elem_of_cons in Hs as [->|Hs]; [reflexivity|]).
  by apply elem_of_nil in Hs.
Qed.

Section update.
Variable ext : Externals.

(** C9 (amended).  An update with a valid status for an id the store
    holds, with notes that driver and store take for the column, which
    meets no outage, commits for every row of that id the new status, the
    notes the request supplied (the empty string when it supplied none)
    and the store's current time as [updated_at]; what the row held as
    notes is gone.  Every other row and column is as it was. *)
Theorem update_appointment_overwrites_notes appointment_id m s nt w :
  m !! "status" = Some (JStr s) →
  s ∈ valid_statuses →
  sql_text ext "notes" (default (JStr "") (m !! "notes")) = Some nt →
  (∃ a, a ∈ tbl_appointments (committed w)
        ∧ appointments.id a = appointment_id) →
  no_outage 3 (faults w) →
  ∃ w',
    update_appointment ext appointment_id (JObj m) w
    = (Return
         (jsonify {[ "message" := JStr "Appointment updated successfully" ]}
            200), w')
    ∧ tbl_appointments (committed w')
      = (λ a, if decide (appointments.id a = appointment_id)
              then rewritten s nt (current_timestamp w) a else a)
          <$> tbl_appointments (committed w)
    ∧ (m !! "notes" = None → nt = Some ""%string)
    ∧ (∀ t, m !! "notes" = Some (JStr t) → nt = Some t).
Proof.
  intros Hs Hvalid Hnotes (a & Ha & Hid) (Hf1 & Hf2 & Hf3 & _).
  destruct (head_filter_found
              (λ a, appointments.id a = appointment_id)
              (tbl_appointments (committed w)) a Ha Hid) as [a' Hhead].
  unfold update_appointment.
  eexists. split.
  - apply try_except_return.
    run_normal ltac:(unfold dict_get; rewrite Hs; reflexivity).
    run_normal ltac:(unfold dict_get; reflexivity).
    simpl. rewrite bool_decide_eq_true_2 by done. simpl.
    run_normal ltac:(rewrite get_db_connection_run, Hf1; reflexivity).
    unfold try_finally.
    erewrite try_except_return; cycle 1.
    + run_normal ltac:(
        erewrite (execute_run (conns w) (committed w)) by reflexivity;
        simpl; rewrite Hf2; unfold update_appointment_row;
        rewrite (valid_statuses_no_nul s Hvalid), Hnotes; simpl; reflexivity).
      rewrite Hhead. simpl.
      run_normal ltac:(
        erewrite (commit_run (conns w)) by reflexivity;
        simpl; rewrite Hf3; reflexivity).
      reflexivity.
    + erewrite close_run by reflexivity. reflexivity.
  - simpl. split_and!.
    + done.
    + intros Hnone. rewrite Hnone in Hnotes.
      by apply sql_text_JStr in Hnotes as [-> _].
    + intros t Ht. rewrite Ht in Hnotes.
      by apply sql_text_JStr in Hnotes as [-> _].
Qed.
End update.

Section chat.
Variable ext : Externals.

(** The write of the exchange falls through whatever the store does. *)
Lemma save_chat_history_falls_through session_id user_message bot_response w :
  ∃ w', save_chat_history ext session_id user_message bot_response w
        = (Normal tt, w').
Proof.
  unfold save_chat_history, try_except.
  unfold bind at 1. rewrite get_db_connection_run. simpl.
  destruct (hd false (faults w)); [by eexists|].
  unfold bind at 1. erewrite execute_run by reflexivity. simpl.
  destruct (hd false (tail (faults w))); [by eexists|].
  unfold insert_chat_row.
  destruct (sql_text ext "session_id" session_id) as [sid|]; simpl;
    [|by eexists].
  destruct (sql_str ext "user_message" user_message) as [um|]; simpl;
    [|by eexists].
  destruct (sql_str ext "bot_response" bot_response) as [br|]; simpl;
    [|by eexists].
  unfold bind at 1. erewrite commit_run by reflexivity. simpl.
  destruct (hd false (tail (tail (faults w)))); [by eexists|].
  erewrite close_run by reflexivity. by eexists.
Qed.

(** C7.  Once the message is a non-blank text, the answer depends on the
    model alone: a reply gives 200 with the reply (or the fallback text),
    the session identifier and the timestamp marker, whatever outages the
    store goes through while the exchange is written; the 500 with the
    retry message is given exactly when the model call fails. *)
Theorem chat_persistence_is_not_fatal uuid4 gemini m msg w :
  default (JStr "") (m !! "message") = JStr msg →
  str_strip ext msg ≠ ""%string →
  ∃ r w',
    chat ext uuid4 gemini (JObj m) w = (Return r, w')
    ∧ r = match gemini (str_strip ext msg) with
          | ReplyText text =>
              jsonify
                (<["response" := JStr (or_fallback text)]>
                 (<["session_id" := default (JStr uuid4) (m !! "session_id")]>
                  (<["timestamp" := JStr "now"]> ∅)))
                200
          | ReplyError =>
              jsonify
                (error_body "Failed to process your message. Please try again.")
                500
          end
    ∧ (r = jsonify
             (error_body "Failed to process your message. Please try again.")
             500
       ↔ gemini (str_strip ext msg) = ReplyError).
Proof.
  intros Hmsg Hnonblank.
  apply String.eqb_neq in Hnonblank.
  unfold chat.
  destruct (gemini (str_strip ext msg)) as [text|] eqn:Hreply.
  - destruct (save_chat_history_falls_through
                (default (JStr uuid4) (m !! "session_id"))
                (str_strip ext msg) (or_fallback text) w) as [w' Hsave].
    eexists _, w'. split_and!; [|reflexivity|].
    + apply try_except_return.
      run_normal ltac:(unfold dict_get; rewrite Hmsg; reflexivity).
      run_normal ltac:(reflexivity).
      run_normal ltac:(reflexivity).
      rewrite Hnonblank.
      run_normal ltac:(unfold generate_content; rewrite Hreply; reflexivity).
      run_normal ltac:(exact Hsave).
      reflexivity.
    + split; [|done]. intros Hr. apply (f_equal status_code) in Hr. done.
  - eexists _, _. split_and!; [|reflexivity|done].
    erewrite try_except_caught; [reflexivity| |reflexivity].
    run_normal ltac:(unfold dict_get; rewrite Hmsg; reflexivity).
    run_normal ltac:(reflexivity).
    run_normal ltac:(reflexivity).
    rewrite Hnonblank.
    apply bind_raise. unfold generate_content. by rewrite Hreply.
Qed.

(** C10.  Whenever [chat] answers with status 200, the body carries
    ["timestamp"] with the text ["now"]. *)
Theorem chat_timestamp_is_now uuid4 gemini data w r w' :
  chat ext uuid4 gemini data w = (Return r, w') →
  status_code r = 200 →
  ∃ d, body r = JObj d ∧ d !! "timestamp" = Some (JStr "now").
Proof.
  unfold chat, try_except. intros Hrun Hok.
  destruct data as [| | | | |m];
    try (unfold bind at 1, dict_get, raise, logging_error, modify in Hrun;
         simpl in Hrun; injection Hrun as <- <-; discriminate Hok).
  unfold bind at 1, dict_get, ret in Hrun.
  destruct (default (JStr "") (m !! "message")) as [| | |msg| |];
    try (unfold bind at 1, strip, raise, logging_error, modify in Hrun;
         simpl in Hrun; injection Hrun as <- <-; discriminate Hok).
  unfold bind at 1, strip, ret in Hrun.
  unfold bind at 1 in Hrun.
  destruct (str_strip ext msg =? "")%string;
    [unfold return_ in Hrun; injection Hrun as <- <-; discriminate Hok|].
  unfold bind at 1, generate_content in Hrun.
  destruct (gemini (str_strip ext msg)) as [text|];
    [|unfold raise, bind, logging_error, modify in Hrun; simpl in Hrun;
      injection Hrun as <- <-; discriminate Hok].
  unfold ret in Hrun.
  destruct (save_chat_history_falls_through
              (default (JStr uuid4) (m !! "session_id"))
              (str_strip ext msg) (or_fallback text) w) as [w1 Hsave].
  unfold bind at 1 in Hrun. rewrite Hsave in Hrun.
  unfold return_ in Hrun. injection Hrun as <- <-.
  eexists. split; [reflexivity|].
  do 2 (rewrite lookup_insert_ne by done). apply lookup_insert_eq.
Qed.
End chat.

(** ** The booking transaction *)

Lemma default_status_active a :
  appointments.status a = default_status → active a.
Proof.
  unfold active. intros ->. unfold default_status.
  rewrite !not_elem_of_cons. split_and!; [done|done|apply not_elem_of_nil].
Qed.

Section booking.
Variable ext : Externals.

Lemma reads_only_bind {A B} (m : Py A) (k : A → Py B) :
  reads_only m → (∀ a, reads_only (k a)) → reads_only (bind m k).
Proof.
  intros Hm Hk w. unfold bind. specialize (Hm w).
  destruct (m w) as [[a|r|e] w1]; simpl in *; subst; [apply Hk|done..].
Qed.

Lemma reads_only_try_except {A} c (m : Py A) h :
  reads_only m → (∀ e, reads_only (h e)) → reads_only (try_except c m h).
Proof.
  intros Hm Hh w. unfold try_except. specialize (Hm w).
  destruct (m w) as [[a|r|e] w1]; simpl in *; subst; [done..|].
  destruct (c e); [apply Hh|done].
Qed.

Lemma reads_only_dict_get data k dflt : reads_only (dict_get data k dflt).
Proof. intros w. unfold dict_get. by destruct data. Qed.

Lemma reads_only_dict_item data k : reads_only (dict_item data k).
Proof.
  intros w. unfold dict_item. destruct data as [| | | | |m]; try done.
  by destruct (m !! k).
Qed.

Lemma reads_only_strptime {T} (parse : string → option T) v :
  reads_only (strptime parse v).
Proof.
  intros w. unfold strptime. destruct v as [| | |s| |]; try done.
  by destruct (parse s).
Qed.

Lemma reads_only_check_required data fields :
  reads_only (check_required data fields).
Proof.
  induction fields as [|f fields IH]; [done|].
  simpl. apply reads_only_bind; [apply reads_only_dict_get|].
  intros v. by destruct (negb (truthy v)).
Qed.

(** The checks read the request and the clock and write nothing. *)
Lemma validate_booking_world data w :
  (validate_booking ext data w).2 = w.
Proof.
  revert w. change (reads_only (validate_booking ext data)).
  unfold validate_booking.
  repeat first
    [ apply reads_only_check_required
    | apply reads_only_dict_get
    | apply reads_only_dict_item
    | apply reads_only_strptime
    | apply reads_only_bind; [|intros ?]
    | apply reads_only_try_except; [|intros ?]
    | done ].
  by destruct (datetime_le _ _).
Qed.

(** What the body of the inner [try] does to a fresh connection: the
    handle stays open, and the only commit it may perform appends one
    active appointment to a slot whose conflict query came back empty. *)
Lemma book_transaction_effect cs b w :
  conns w = cs ++ [Open (committed w)] →
  ∃ o w',
    book_transaction ext (length cs) b w = (o, w')
    ∧ (∃ s', conns w' = cs ++ [Open s'])
    ∧ (committed w' = committed w
       ∨ ∃ n d t,
           sql_int ext (doctor_id b) = Some n
           ∧ pg_date ext (appointment_date b) = Some d
           ∧ pg_time ext (appointment_time b) = Some t
           ∧ booked_into n d t (committed w) (committed w')).
Proof.
  intros Hc. unfold book_transaction.
  unfold bind at 1. erewrite execute_run by exact Hc. simpl.
  destruct (hd false (faults w)); [by eauto 10|].
  unfold select_verified_doctor at 1.
  destruct (sql_int ext (doctor_id b)) as [n|] eqn:Hn; simpl; [|by eauto 10].
  destruct (head (filter _ (tbl_doctors (committed w)))) as [doctor|];
    [|by eauto 10].
  unfold bind at 1. erewrite execute_run by reflexivity. simpl.
  destruct (hd false (tail (faults w))); [by eauto 10|].
  unfold select_conflict at 1. rewrite Hn. simpl.
  destruct (pg_date ext (appointment_date b)) as [d|] eqn:Hd; simpl;
    [|by eauto 10].
  destruct (pg_time ext (appointment_time b)) as [t|] eqn:Ht; simpl;
    [|by eauto 10].
  destruct (head (filter _ (tbl_appointments (committed w)))) as [a|] eqn:Hfree;
    simpl; [by eauto 10|].
  apply head_None in Hfree.
  unfold insert_appointment. unfold bind at 1. unfold bind at 1.
  erewrite execute_run by reflexivity. simpl.
  destruct (hd false (tail (tail (faults w)))); [by eauto 10|].
  unfold insert_appointment_row at 1. rewrite Hn, Hd, Ht.
  destruct (sql_text ext "patient_name" (patient_name b)) as [pn|]; simpl;
    [|by eauto 10].
  destruct (sql_text ext "patient_email" (patient_email b)) as [pe|]; simpl;
    [|by eauto 10].
  destruct (sql_text ext "patient_phone" (patient_phone b)) as [pp|]; simpl;
    [|by eauto 10].
  destruct (sql_text ext "reason" (reason b)) as [r|]; simpl; [|by eauto 10].
  destruct (decide (_ ∈ _)) as [Hdup|Hnew]; simpl;
    [unfold bind, modify, raise; simpl; by eauto 10|].
  unfold bind at 1. erewrite commit_run by reflexivity. simpl.
  destruct (hd false (tail (tail (tail (faults w))))); [by eauto 10|].
  unfold return_. eexists _, _. split; [reflexivity|]. simpl.
  split; [by eauto|]. right. exists n, d, t. split_and!; [done..|].
  eexists. split_and!; [| |exact Hfree|reflexivity].
  - done.
  - by apply default_status_active.
Qed.
Lemma released_refl w w' : conns w' = conns w → released w w'.
Proof. intros Hc. exists []. by rewrite app_nil_r. Qed.

Lemma released_closed w w' :
  conns w' = conns w ++ [Closed] → released w w'.
Proof. intros Hc. exists [Closed]. split; [done|]. by repeat constructor. Qed.

(** The end of a run: name the outcome and the world, then settle the
    connections and the store. *)
Ltac finish :=
  unfold bind, logging_error, modify, return_;
  eexists _, _; split; [reflexivity|]; simpl;
  split;
    [first [by apply released_refl
           |apply released_closed; simpl; by rewrite ?insert_last_handle]|];
  first [by left | done].

(** Every run of [book_appointment] gives back the connection it took,
    and commits nothing but, at most, one appointment into a slot that
    held no active one. *)
Lemma book_appointment_effect data w :
  ∃ o w',
    book_appointment ext data w = (o, w')
    ∧ released w w'
    ∧ (committed w' = committed w
       ∨ ∃ n d t, booked_into n d t (committed w) (committed w')).
Proof.
  unfold book_appointment, try_except. unfold bind at 1.
  pose proof (validate_booking_world data w) as Hw.
  destruct (validate_booking ext data w) as [o w1].
  simpl in Hw. subst w1.
  destruct o as [b|r|e]; simpl; [|finish..].
  unfold bind at 1. rewrite get_db_connection_run. simpl.
  destruct (hd false (faults w)); simpl; [finish|].
  unfold try_finally.
  set (w1 := set_conns _ _).
  destruct (book_transaction_effect (conns w) b w1 eq_refl)
    as (o & w2 & -> & (s' & Hs') & Hcommit).
  assert (committed w2 = committed w
          ∨ ∃ n d t, booked_into n d t (committed w) (committed w2))
    as Hstore by (destruct Hcommit as [?|(?&?&?&?&?&?&?)]; eauto 10).
  clear Hcommit.
  destruct o as [[]|r|e]; simpl.
  - rewrite Hs'. finish.
  - rewrite Hs'. finish.
  - unfold bind at 1. erewrite rollback_run by exact Hs'. simpl.
    destruct (hd false (faults w2)); simpl.
    + rewrite Hs'. finish.
    + finish.
Qed.

(** One more appointment in a slot without an active one keeps every
    slot at one active appointment at most. *)
Lemma unique_active_booked_into n d t s s' :
  unique_active s → booked_into n d t s s' → unique_active s'.
Proof.
  intros Huniq (a & Hslot & Hact & Hfree & ->) n' d' t'. simpl.
  rewrite filter_app, length_app.
  destruct (decide (at_slot n' d' t' a)) as [Ha|Ha].
  - assert (n' = n ∧ d' = d ∧ t' = t) as (-> & -> & ->).
    { destruct Hslot as (? & ? & ?), Ha as (? & ? & ?). by subst. }
    rewrite Hfree. rewrite filter_cons_True by done. simpl. lia.
  - rewrite (filter_cons_False _ a) by (by intros [? _]). simpl.
    specialize (Huniq n' d' t'). lia.
Qed.

(** A request that passes all three checks yields its fields. *)
Lemma validate_booking_pass m dv ds ts d0 t0 w :
  Forall (field_given m) required_fields →
  m !! "doctor_id" = Some dv →
  m !! "appointment_date" = Some (JStr ds) →
  m !! "appointment_time" = Some (JStr ts) →
  strptime_Ymd ext ds = Some d0 →
  strptime_HM ext ts = Some t0 →
  datetime_le (d0, t0) (clock w) = false →
  ∃ b, validate_booking ext (JObj m) w = (Normal b, w)
       ∧ doctor_id b = dv
       ∧ appointment_date b = JStr ds
       ∧ appointment_time b = JStr ts.
Proof.
  intros Hall Hdv Hd Ht Hpd Hpt Hfuture.
  destruct (required_lookups m Hall)
    as (v1 & v2 & v3 & v4 & v5 & H1 & H2 & H3 & H4 & H5).
  unfold validate_booking.
  rewrite (bind_normal _ _ _ _ _ (check_required_pass m _ w Hall)).
  unfold bind, dict_item, dict_get, try_except, strptime, get_world, ret,
    return_.
  rewrite H1, H2, Hdv, Hd, Ht, Hpd, Hpt. simpl. rewrite Hfuture.
  by eexists.
Qed.

(** C1 (amended).  Whatever the store holds, a request that passes the
    three checks, names a verified doctor and meets no outage, for a slot
    that holds an active appointment, is answered with 409 and the slot
    message, and the committed store is as it was.  And from a store with
    at most one active appointment per slot, every run of
    [book_appointment], whatever the request and the outages, leaves such
    a store. *)
Theorem book_appointment_no_double_booking data w :
  (∀ m dv ds ts d0 t0 n d t,
      data = JObj m →
      Forall (field_given m) required_fields →
      m !! "doctor_id" = Some dv →
      m !! "appointment_date" = Some (JStr ds) →
      m !! "appointment_time" = Some (JStr ts) →
      strptime_Ymd ext ds = Some d0 →
      strptime_HM ext ts = Some t0 →
      datetime_le (d0, t0) (clock w) = false →
      sql_int ext dv = Some n →
      pg_date ext (JStr ds) = Some d →
      pg_time ext (JStr ts) = Some t →
      (∃ doc, doc ∈ tbl_doctors (committed w)
              ∧ doctors.id doc = n ∧ doctors.is_verified doc = true) →
      occupied n d t (committed w) →
      no_outage 3 (faults w) →
      (book_appointment ext data w).1
      = Return (jsonify (error_body "This time slot is already booked") 409)
      ∧ committed (book_appointment ext data w).2 = committed w)
  ∧ (unique_active (committed w) →
     unique_active (committed (book_appointment ext data w).2)).
Proof.
  split; cycle 1.
  - intros Huniq.
    destruct (book_appointment_effect data w)
      as (o & w' & -> & _ & Hstore). simpl.
    destruct Hstore as [->|(n & d & t & Hbooked)]; [done|].
    by eapply unique_active_booked_into.
  - intros m dv ds ts d0 t0 n d t -> Hall Hdv Hd Ht Hpd Hpt Hfuture
      Hn Hsd Hst (doc & Hdoc & Hid & Hver) (a & Ha & Hslot & Hact)
      (Hf1 & Hf2 & Hf3 & _).
    destruct (validate_booking_pass m dv ds ts d0 t0 w)
      as (b & Hb & Hbd & Hbdate & Hbtime); [done..|].
    destruct (head_filter_found
                (λ d, doctors.id d = n ∧ doctors.is_verified d = true)
                (tbl_doctors (committed w)) doc Hdoc (conj Hid Hver))
      as [doc' Hdoc'].
    destruct (head_filter_found
                (λ a, at_slot n d t a ∧ active a)
                (tbl_appointments (committed w)) a Ha (conj Hslot Hact))
      as [a' Ha'].
    assert (∃ w', book_appointment ext (JObj m) w
                  = (Return
                       (jsonify (error_body "This time slot is already booked")
                          409), w')
                  ∧ committed w' = committed w) as (w' & -> & Hw');
      [|done].
    unfold book_appointment. eexists. split.
    + apply try_except_return.
      run_normal ltac:(exact Hb).
      run_normal ltac:(rewrite get_db_connection_run, Hf1; reflexivity).
      unfold try_finally.
      erewrite try_except_return; cycle 1.
      * unfold book_transaction.
        run_normal ltac:(
          erewrite (execute_run (conns w) (committed w)) by reflexivity;
          simpl; rewrite Hf2; unfold select_verified_doctor;
          rewrite Hbd, Hn; simpl; rewrite Hdoc'; reflexivity).
        simpl.
        run_normal ltac:(
          erewrite (execute_run (conns w) (committed w)) by reflexivity;
          simpl; rewrite Hf3; unfold select_conflict;
          rewrite Hbd, Hbdate, Hbtime, Hn, Hsd, Hst; simpl;
          rewrite Ha'; reflexivity).
        reflexivity.
      * erewrite close_run by reflexivity. reflexivity.
    + done.
Qed.
End booking.

(** ** Connections *)

Section connections.
Variable ext : Externals.

Lemma keeps_bind {A B} P (m : Py A) (k : A → Py B) :
  keeps P m → (∀ a, keeps P (k a)) → keeps P (bind m k).
Proof.
  intros Hm Hk w Hw. unfold bind. specialize (Hm w Hw).
  destruct (m w) as [[a|r|e] w1]; simpl in *; [by apply Hk|done..].
Qed.

Lemma keeps_try_except {A} P c (m : Py A) h :
  keeps P m → (∀ e, keeps P (h e)) → keeps P (try_except c m h).
Proof.
  intros Hm Hh w Hw. unfold try_except. specialize (Hm w Hw).
  destruct (m w) as [[a|r|e] w1]; simpl in *; [done..|].
  destruct (c e); [by apply Hh|done].
Qed.

Lemma keeps_return_ {A} P r : keeps P (@return_ A r).
Proof. by intros w Hw. Qed.

Lemma keeps_execute {A} cs (stmt : World → Store → option (A * Store)) :
  keeps (session cs) (execute (length cs) stmt).
Proof.
  intros w [s Hs]. erewrite execute_run by exact Hs. simpl.
  destruct (hd false (faults w)); simpl; [by exists s|].
  destruct (stmt _ s) as [[a s']|]; simpl; by eexists.
Qed.

Lemma keeps_commit cs : keeps (session cs) (commit (length cs)).
Proof.
  intros w [s Hs]. erewrite commit_run by exact Hs. simpl.
  destruct (hd false (faults w)); simpl; by exists s.
Qed.

Lemma keeps_rollback cs : keeps (session cs) (rollback (length cs)).
Proof.
  intros w [s Hs]. erewrite rollback_run by exact Hs. simpl.
  destruct (hd false (faults w)); simpl; by eexists.
Qed.

Lemma keeps_logging_error cs msg e : keeps (session cs) (logging_error msg e).
Proof. intros w [s Hs]. by exists s. Qed.

(** A block that keeps the session, closed in a [finally], ends with the
    handle closed. *)
Lemma try_finally_close_releases {A} cs (T : Py A) w :
  session cs w → keeps (session cs) T →
  conns (try_finally T (close (length cs)) w).2 = cs ++ [Closed].
Proof.
  intros Hw HT. unfold try_finally. specialize (HT w Hw).
  destruct (T w) as [o w1]. simpl in HT. destruct HT as [s Hs].
  erewrite close_run by exact Hs. done.
Qed.

(** X20.  [book_appointment] gives its connection back on every path:
    whatever the request and the outages, the handles that existed are as
    they were and the one it opened is closed. *)
Lemma book_appointment_releases data w :
  released w (book_appointment ext data w).2.
Proof.
  by destruct (book_appointment_effect ext data w) as (o & w' & -> & ? & _).
Qed.

(** X21.  So does [update_appointment]: both close in a [finally]. *)
Lemma update_appointment_releases appointment_id data w :
  released w (update_appointment ext appointment_id data w).2.
Proof.
  unfold update_appointment. unfold try_except at 1. unfold bind at 1.
  pose proof (reads_only_dict_get data "status" JNull w) as Hw.
  destruct (dict_get data "status" JNull w) as [o w1].
  simpl in Hw. subst w1.
  destruct o as [status|r|e]; simpl;
    [|by apply released_refl..].
  unfold bind at 1.
  pose proof (reads_only_dict_get data "notes" (JStr "") w) as Hw.
  destruct (dict_get data "notes" (JStr "") w) as [o w1].
  simpl in Hw. subst w1.
  destruct o as [notes|r|e]; simpl;
    [|by apply released_refl..].
  destruct (negb (status_in status valid_statuses)); simpl;
    [by apply released_refl|].
  unfold bind at 1. rewrite get_db_connection_run. simpl.
  destruct (hd false (faults w)); simpl; [by apply released_refl|].
  match goal with
  | |- context [try_finally ?T (close _) ?w1] =>
      pose proof (try_finally_close_releases (conns w) T w1) as Hclosed
  end.
  match type of Hclosed with
  | _ → _ → conns (?run).2 = _ => destruct run as [o w2]
  end.
  simpl in Hclosed.
  assert (conns w2 = conns w ++ [Closed]) as Hw2.
  { apply Hclosed; [by eexists|].
    apply keeps_try_except.
    - apply keeps_bind; [apply keeps_execute|].
      intros [hit|]; [|apply keeps_return_].
      apply keeps_bind; [apply keeps_commit|intros _; apply keeps_return_].
    - intros e. apply keeps_bind; [apply keeps_rollback|].
      intros _. apply keeps_bind; [apply keeps_logging_error|].
      intros _. apply keeps_return_. }
  destruct o as [[]|r|e]; simpl; by apply released_closed.
Qed.

(** C4.  [get_appointments] closes its connection after the fetch only:
    when the query raises on an open connection, the answer is 500 and the
    handle is left open, where [book_appointment] and [update_appointment]
    close theirs. *)
Theorem get_appointments_leaks_connection doctor_id status w :
  ∃ w',
    get_appointments ext doctor_id status (set_faults [false; true] w)
    = (Return (jsonify (error_body "Failed to retrieve appointments") 500), w')
    ∧ leaked (set_faults [false; true] w) w'.
Proof.
  unfold get_appointments, try_except.
  unfold bind at 1. rewrite get_db_connection_run. simpl.
  eexists. split; [reflexivity|].
  exists (committed w). simpl. apply lookup_last_handle.
Qed.

(** The two read paths of the chat relay have the same shape. *)
Lemma get_chat_history_leaks_connection session_id w :
  ∃ w',
    get_chat_history ext session_id (set_faults [false; true] w)
    = (Return (jsonify (error_body "Failed to retrieve chat history") 500), w')
    ∧ leaked (set_faults [false; true] w) w'.
Proof.
  unfold get_chat_history, try_except.
  unfold bind at 1. rewrite get_db_connection_run. simpl.
  eexists. split; [reflexivity|].
  exists (committed w). simpl. apply lookup_last_handle.
Qed.

Lemma save_chat_history_leaks_connection session_id user_message bot_response w :
  ∃ w',
    save_chat_history ext session_id user_message bot_response
      (set_faults [false; true] w)
    = (Normal tt, w')
    ∧ leaked (set_faults [false; true] w) w'.
Proof.
  unfold save_chat_history, try_except.
  unfold bind at 1. rewrite get_db_connection_run. simpl.
  eexists. split; [reflexivity|].
  exists (committed w). simpl. apply lookup_last_handle.
Qed.
End connections.

(** ** The order of the list *)

Lemma chain_Z (a b c : Z) : chain (a ?= b) (b ?= c) (a ?= c).
Proof.
  unfold chain.
  destruct (Z.compare_spec a b), (Z.compare_spec b c), (Z.compare_spec a c);
    split_and!; intros; solve [done | lia].
Qed.

Lemma chain_lex x1 x2 x3 y1 y2 y3 :
  chain x1 x2 x3 → chain y1 y2 y3 → chain (lex x1 y1) (lex x2 y2) (lex x3 y3).
Proof.
  unfold chain.
  intros (Hx1 & Hx2 & Hx3 & Hx4) (Hy1 & Hy2 & Hy3 & Hy4).
  destruct x1, x2; simpl;
    try rewrite (Hx1 eq_refl); try rewrite (Hx2 eq_refl);
    try rewrite (Hx3 eq_refl eq_refl); try rewrite (Hx4 eq_refl eq_refl);
    simpl; split_and!; try done.
Qed.

Lemma chain_datetime (a b c : DateTime) :
  chain (datetime_compare a b) (datetime_compare b c) (datetime_compare a c).
Proof.
  unfold datetime_compare, date_compare, time_compare.
  repeat first [apply chain_lex | apply chain_Z].
Qed.

Lemma chain_not_Lt ab bc ac : chain ab bc ac → ab ≠ Lt → bc ≠ Lt → ac ≠ Lt.
Proof.
  intros (H1 & H2 & H3 & H4) Hab Hbc.
  destruct ab, bc; try done.
  - by rewrite (H1 eq_refl).
  - by rewrite (H1 eq_refl).
  - by rewrite (H2 eq_refl).
  - by rewrite (H3 eq_refl eq_refl).
Qed.

Lemma chain_flip ab ba : chain ab ba Eq → ab = Lt → ba ≠ Lt.
Proof.
  intros (H1 & H2 & H3 & H4) -> ->. by specialize (H4 eq_refl eq_refl).
Qed.

Lemma datetime_compare_refl (a : DateTime) : datetime_compare a a = Eq.
Proof.
  unfold datetime_compare, date_compare, time_compare.
  by rewrite !Z.compare_refl.
Qed.

#[global] Instance date_time_desc_transitive : Transitive date_time_desc.
Proof.
  intros x y z. unfold date_time_desc. apply chain_not_Lt, chain_datetime.
Qed.

#[global] Instance date_time_desc_total : Total date_time_desc.
Proof.
  intros x y. unfold date_time_desc.
  destruct (datetime_compare (slot_time x) (slot_time y)) eqn:Hxy;
    [by left|right|by left].
  eapply chain_flip; [|exact Hxy].
  rewrite <- (datetime_compare_refl (slot_time x)). apply chain_datetime.
Qed.

(** [ORDER BY a.appointment_date DESC, a.appointment_time DESC], spelled
    out: a later date first, and within a date a later time first. *)
Lemma date_time_desc_spec x y :
  date_time_desc x y ↔
  date_compare (appointments.appointment_date x.1)
    (appointments.appointment_date y.1) = Gt
  ∨ (appointments.appointment_date x.1 = appointments.appointment_date y.1
     ∧ time_compare (appointments.appointment_time x.1)
         (appointments.appointment_time y.1) ≠ Lt).
Proof.
  unfold date_time_desc, datetime_compare, slot_time. simpl.
  set (dx := appointments.appointment_date x.1).
  set (dy := appointments.appointment_date y.1).
  assert (date_compare dx dy = Eq ↔ dx = dy) as Heq.
  { destruct dx as [y1 m1 d1], dy as [y2 m2 d2].
    unfold date_compare. simpl. split.
    - destruct (Z.compare_spec y1 y2), (Z.compare_spec m1 m2),
        (Z.compare_spec d1 d2); simpl; try done. intros _. by subst.
    - intros [= -> -> ->]. by rewrite !Z.compare_refl. }
  destruct (date_compare dx dy) eqn:Hd; simpl.
  - split; [intros ?; right; split; [by apply Heq|done]|].
    by intros [|[_ ?]].
  - split; [done|]. intros [|[Hdd _]]; [done|]. by apply Heq in Hdd.
  - split; [by left|done].
Qed.

(** ** The list endpoint *)

Lemma filter_none_by_id (docs : list doctors.row) k :
  k ∉ doctors.id <$> docs → filter (λ d, k = doctors.id d) docs = [].
Proof.
  induction docs as [|x docs IH]; [done|].
  rewrite fmap_cons, not_elem_of_cons. intros [Hx Hdocs].
  rewrite filter_cons_False by done. by apply IH.
Qed.

(** With unique ids the join condition selects one doctor. *)
Lemma filter_unique_id (docs : list doctors.row) d :
  NoDup (doctors.id <$> docs) → d ∈ docs →
  filter (λ d', doctors.id d = doctors.id d') docs = [d].
Proof.
  induction docs as [|x docs IH]; intros Hnd Hd.
  - by apply elem_of_nil in Hd.
  - rewrite fmap_cons in Hnd. apply NoDup_cons in Hnd as [Hx Hnd].
    apply elem_of_cons in Hd as [->|Hd].
    + rewrite filter_cons_True by done. by rewrite filter_none_by_id.
    + rewrite filter_cons_False; [by apply IH|].
      intros Heq. apply Hx. rewrite <- Heq. by apply list_elem_of_fmap_2.
Qed.

Lemma join_doctors_rows s :
  references_doctors s →
  (join_doctors s).*1 = tbl_appointments s
  ∧ Forall (joined s) (join_doctors s).
Proof.
  intros [Hnd Href]. unfold join_doctors.
  induction (tbl_appointments s) as [|a l IH]; [by split|].
  destruct (Href a) as (d & Hd & Hid); [by left|].
  destruct IH as [IH1 IH2]; [by intros a' ?; apply Href; right|].
  rewrite bind_cons. rewrite <- Hid, (filter_unique_id _ d) by done.
  split.
  - by rewrite fmap_app, IH1.
  - apply Forall_app. split; [|done]. by repeat constructor.
Qed.

Lemma filter_on_fst {A B} (P : A → Prop) `{!∀ x, Decision (P x)}
    (l : list (A * B)) :
  (filter (λ r, P r.1) l).*1 = filter P (l.*1).
Proof.
  induction l as [|[a b] l IH]; [done|].
  rewrite fmap_cons. simpl.
  destruct (decide (P a)).
  - rewrite !filter_cons_True by done. by rewrite fmap_cons, IH.
  - by rewrite !filter_cons_False.
Qed.

Lemma filter_everything {A} (P : A → Prop) `{!∀ x, Decision (P x)}
    (l : list A) :
  (∀ x, P x) → filter P l = l.
Proof.
  intros HP. induction l as [|x l IH]; [done|].
  by rewrite filter_cons_True, IH.
Qed.

Lemma Forall_filter_keeps {A} (Q P : A → Prop) `{!∀ x, Decision (P x)}
    (l : list A) :
  Forall Q l → Forall Q (filter P l).
Proof.
  rewrite !Forall_forall. intros HQ x [_ Hx]%list_elem_of_filter. by apply HQ.
Qed.

(** An element of the list shows its row, and one of the history its
    turn. *)
Lemma appointment_json_shows ext r :
  shows_appointment ext r (appointment_json ext r).
Proof.
  eexists. split; [reflexivity|]. split; [reflexivity|].
  split_and!; reflexivity.
Qed.

Lemma history_json_shows ext row : shows_turn ext row (history_json ext row).
Proof.
  eexists. split; [reflexivity|]. split; [reflexivity|].
  split_and!; reflexivity.
Qed.

Lemma shown_list {A} (shows : A → json → Prop) (f : A → json) (l : list A) :
  (∀ x, shows x (f x)) → Forall2 shows l (f <$> l).
Proof.
  intros Hf. apply Forall2_fmap_r, Forall_Forall2_diag, Forall_forall.
  intros x _. apply Hf.
Qed.

(** The two [AND] clauses of the list query, as filters. *)
Lemma where_doctor_spec ext doctor_id :
  filter_allows doctor_id (λ v, is_Some (sql_int ext (JStr v))) →
  ∃ f, where_doctor ext doctor_id = Some f
       ∧ ∀ rows : list (appointments.row * doctors.row),
           f rows
           = filter (λ r, filter_allows doctor_id
                            (λ v, sql_int ext (JStr v)
                                  = Some (appointments.doctor_id r.1)))
               rows.
Proof.
  intros Hreadable.
  unfold where_doctor. destruct doctor_id as [v|]; simpl.
  - destruct (String.eqb_spec v "") as [->|Hv].
    + eexists. split; [done|]. intros rows.
      symmetry. by apply filter_everything.
    + destruct (Hreadable Hv) as [n Hn]. simpl in Hn. rewrite Hn. simpl.
      eexists. split; [done|]. intros rows.
      apply list_filter_iff. intros r.
      split; [by intros -> _|]. intros Hr. specialize (Hr Hv). congruence.
  - eexists. split; [done|]. intros rows.
    symmetry. by apply filter_everything.
Qed.

Lemma where_status_spec ext status :
  filter_allows status (takes_text ext "status") →
  ∃ g, where_status ext status = Some g
       ∧ ∀ rows : list (appointments.row * doctors.row),
           g rows
           = filter (λ r, filter_allows status
                            (λ v, appointments.status r.1 = v)) rows.
Proof.
  intros Hreadable.
  unfold where_status. destruct status as [v|]; simpl.
  - destruct (String.eqb_spec v "") as [->|Hv].
    + eexists. split; [done|]. intros rows.
      symmetry. by apply filter_everything.
    + rewrite (Hreadable Hv). simpl.
      eexists. split; [done|]. intros rows.
      apply list_filter_iff. intros r. split; [by intros -> _|auto].
  - eexists. split; [done|]. intros rows.
    symmetry. by apply filter_everything.
Qed.

Section listing.
Variable ext : Externals.

(** C6 (amended).  On a store that keeps its key constraints and meets no
    outage, with filters that driver and store can read,
    [get_appointments] answers 200 with one element per appointment that
    matches the filters given (none more, none twice); each element shows
    the eleven fields of its appointment and the name and specialization
    of the doctor the appointment refers to; the later date comes first,
    and within a date the later time. *)
Theorem get_appointments_lists doctor_id status w :
  references_doctors (committed w) →
  filter_allows doctor_id (λ v, is_Some (sql_int ext (JStr v))) →
  filter_allows status (takes_text ext "status") →
  no_outage 2 (faults w) →
  ∃ rows items w',
    get_appointments ext doctor_id status w
    = (Return (jsonify {[ "appointments" := JArr items ]} 200), w')
    ∧ Forall2 (shows_appointment ext) rows items
    ∧ rows.*1 ≡ₚ filter (matches_filters ext doctor_id status)
                   (tbl_appointments (committed w))
    ∧ Forall (joined (committed w)) rows
    ∧ StronglySorted date_time_desc rows.
Proof.
  intros Hkeys Hdoctor Hstatus (Hf1 & Hf2 & _).
  destruct (join_doctors_rows _ Hkeys) as [Hfst Hjoined].
  destruct (where_doctor_spec ext doctor_id Hdoctor) as (f & Hf & Hfspec).
  destruct (where_status_spec ext status Hstatus) as (g & Hg & Hgspec).
  exists (merge_sort date_time_desc (g (f (join_doctors (committed w))))).
  eexists _, _. split_and!.
  - unfold get_appointments. apply try_except_return.
    run_normal ltac:(rewrite get_db_connection_run, Hf1; reflexivity).
    run_normal ltac:(
      erewrite (execute_run (conns w) (committed w)) by reflexivity;
      simpl; rewrite Hf2; unfold select_appointments;
      rewrite Hf, Hg; simpl; reflexivity).
    run_normal ltac:(erewrite (close_run (conns w)) by reflexivity; reflexivity).
    reflexivity.
  - apply shown_list, appointment_json_shows.
  - rewrite merge_sort_Permutation, Hgspec, Hfspec.
    rewrite list_filter_filter.
    rewrite <- Hfst.
    rewrite <- (filter_on_fst (matches_filters ext doctor_id status)).
    apply reflexive_eq. f_equal. apply list_filter_iff.
    intros r. unfold matches_filters. tauto.
  - rewrite merge_sort_Permutation, Hgspec, Hfspec.
    by do 2 apply Forall_filter_keeps.
  - apply StronglySorted_merge_sort; apply _.
Qed.
End listing.

(** * The statements on concrete requests *)

Lemma unique_active_singleton ds a cs :
  unique_active (mkStore ds [a] cs).
Proof.
  intros n d t. simpl.
  etrans; [apply length_filter|]. simpl. lia.
Defined.

(** The amended C1.  On a request for the slot Jane holds, the answer is
    409 and the store is as it was.  On the same request when Jane holds
    the slot of the day after, the appointment is stored as a second row,
    and the store still has one active appointment per slot at most. *)
Lemma book_appointment_no_double_booking_witness :
  let held := Sample.world Sample.held_store [] in
  let free := Sample.world Sample.next_day_store [] in
  ((book_appointment Sample.ext Sample.slot_2099 held).1
   = Return (jsonify (error_body "This time slot is already booked") 409)
   ∧ committed (book_appointment Sample.ext Sample.slot_2099 held).2
     = committed held)
  ∧ unique_active (committed free)
  ∧ length
      (tbl_appointments
         (committed (book_appointment Sample.ext Sample.slot_2099 free).2))
    = 2%nat
  ∧ unique_active
      (committed (book_appointment Sample.ext Sample.slot_2099 free).2).
Proof.
  intros held free.
  destruct (book_appointment_no_double_booking Sample.ext Sample.slot_2099 held)
    as [Hconflict _].
  destruct (book_appointment_no_double_booking Sample.ext Sample.slot_2099 free)
    as [_ Hkept].
  split; [|split; [|split]].
  - apply (Hconflict
             (Sample.booking (JInt 3) (JStr "2099-01-01") (JStr "10:00"))
             (JInt 3) "2099-01-01"%string "10:00"%string
             (mkDate 2099 1 1) Sample.ten 3 (mkDate 2099 1 1) Sample.ten);
      try reflexivity.
    + repeat constructor.
    + exists Sample.dr_grey. split_and!; [constructor|reflexivity..].
    + eexists. split_and!; [constructor| |].
      * by split_and!.
      * by apply default_status_active.
    + by split_and!.
  - apply unique_active_singleton.
  - vm_compute. reflexivity.
  - apply Hkept, unique_active_singleton.
Defined.

(** C1 as stated fails.  A request for a slot of the past that still
    holds a pending appointment is answered with 400, a request for an
    occupied slot of a doctor who is not verified with 404, and a request
    for an occupied slot while the store is down with 500: none with 409.
    And four successful requests end with two active appointments in one
    slot: [update_appointment] sets a cancelled appointment back to pending
    without looking at the slot. *)
Lemma book_appointment_double_booking_counterexample :
  (occupied 3 (mkDate 2020 1 1) Sample.ten
     (committed (Sample.world Sample.past_store []))
   ∧ book_appointment Sample.ext
       (JObj (Sample.booking (JInt 3) (JStr "2020-01-01") (JStr "10:00")))
       (Sample.world Sample.past_store [])
     = (Return
          (jsonify
             (error_body
                "Appointment must be scheduled for a future date and time")
             400),
        Sample.world Sample.past_store []))
  ∧ (occupied 4 (mkDate 2099 1 1) Sample.ten
       (committed (Sample.world Sample.house_store []))
     ∧ (book_appointment Sample.ext
          (JObj (Sample.booking (JInt 4) (JStr "2099-01-01") (JStr "10:00")))
          (Sample.world Sample.house_store [])).1
       = Return
           (jsonify (error_body "Doctor not found or not verified") 404))
  ∧ (occupied 4 (mkDate 2099 1 1) Sample.ten
       (committed (Sample.world Sample.house_store [true]))
     ∧ (book_appointment Sample.ext
          (JObj (Sample.booking (JInt 4) (JStr "2099-01-01") (JStr "10:00")))
          (Sample.world Sample.house_store [true])).1
       = Return (jsonify (error_body "Internal server error") 500))
  ∧ (Sample.answered (book_appointment Sample.ext Sample.slot_2099) Sample.w0
     = Some 200
     ∧ Sample.answered
         (update_appointment Sample.ext 1
            (JObj (Sample.status_only "cancelled"))) Sample.w1
       = Some 200
     ∧ Sample.answered (book_appointment Sample.ext Sample.slot_2099) Sample.w2
       = Some 200
     ∧ Sample.answered
         (update_appointment Sample.ext 1
            (JObj (Sample.status_only "pending"))) Sample.w3
       = Some 200
     ∧ ¬ unique_active (committed Sample.w4)).
Proof.
  assert (∀ n d fs s a,
            tbl_appointments s = [a] → at_slot n d Sample.ten a →
            appointments.status a = default_status →
            occupied n d Sample.ten (committed (Sample.world s fs)))
    as Hocc.
  { intros n d fs s a Hs Hslot Hstatus. exists a. simpl. rewrite Hs.
    split_and!; [apply list_elem_of_here|done|by apply default_status_active]. }
  split_and!.
  - by eapply Hocc.
  - vm_compute. reflexivity.
  - by eapply Hocc.
  - vm_compute. reflexivity.
  - by eapply Hocc.
  - vm_compute. reflexivity.
  - vm_compute. reflexivity.
  - vm_compute. reflexivity.
  - vm_compute. reflexivity.
  - vm_compute. reflexivity.
  - intros Huniq.
    specialize (Huniq 3 (mkDate 2099 1 1) Sample.ten).
    vm_compute in Huniq. lia.
Qed.

(** C2 on a booking for January 2020 with an empty appointment table. *)
Lemma book_appointment_rejects_past_witness :
  book_appointment Sample.ext
    (JObj (Sample.booking (JInt 3) (JStr "2020-01-01") (JStr "10:00")))
    (Sample.world Sample.empty_store [])
  = (Return
       (jsonify
          (error_body "Appointment must be scheduled for a future date and time")
          400),
     Sample.world Sample.empty_store []).
Proof.
  apply (book_appointment_rejects_past Sample.ext
           (Sample.booking (JInt 3) (JStr "2020-01-01") (JStr "10:00"))
           "2020-01-01"%string "10:00"%string (mkDate 2020 1 1) Sample.ten);
    try reflexivity.
  repeat constructor.
Defined.


(** The same request, evaluated: the field named is the doctor id. *)
Example book_appointment_doctor_zero :
  book_appointment Sample.ext
    (JObj (Sample.booking (JInt 0) (JStr "2099-01-01") (JStr "10:00")))
    (Sample.world Sample.empty_store [])
  = (Return (jsonify (error_body "doctor_id is required") 400),
     Sample.world Sample.empty_store []).
Proof. vm_compute. reflexivity. Qed.

(** C5 on the status ["done"]. *)
Lemma update_appointment_invalid_status_witness :
  update_appointment Sample.ext 1 (JObj (Sample.status_only "done"))
    (Sample.world Sample.future_store [])
  = (Return (jsonify (error_body "Invalid status") 400),
     Sample.world Sample.future_store []).
Proof.
  apply (update_appointment_invalid_status Sample.ext 1
           (Sample.status_only "done")).
  intros s Hs.
  assert (s = "done"%string) as -> by (vm_compute in Hs; congruence).
  unfold valid_statuses. rewrite !not_elem_of_cons.
  split_and!; [done..|apply not_elem_of_nil].
Defined.

(** The amended C9 on a status-only update of an appointment that has
    notes: they are replaced by the empty string. *)
Lemma update_appointment_overwrites_notes_witness :
  ∃ w',
    update_appointment Sample.ext 1 (JObj (Sample.status_only "confirmed"))
      (Sample.world Sample.future_store [])
    = (Return
         (jsonify {[ "message" := JStr "Appointment updated successfully" ]}
            200), w')
    ∧ tbl_appointments (committed w')
      = (λ a, if decide (appointments.id a = 1)
              then rewritten "confirmed" (Some ""%string)
                     (current_timestamp (Sample.world Sample.future_store []))
                     a
              else a)
          <$> tbl_appointments Sample.future_store
    ∧ (Sample.status_only "confirmed" !! "notes" = None
       → Some ""%string = Some ""%string)
    ∧ (∀ t, Sample.status_only "confirmed" !! "notes" = Some (JStr t)
            → Some ""%string = Some t).
Proof.
  apply (update_appointment_overwrites_notes Sample.ext 1
           (Sample.status_only "confirmed") "confirmed"%string
           (Some ""%string) (Sample.world Sample.future_store [])).
  - reflexivity.
  - unfold valid_statuses. apply list_elem_of_further, list_elem_of_here.
  - reflexivity.
  - eexists. split; [apply list_elem_of_here|reflexivity].
  - by split_and!.
Defined.

(** C9 as stated fails.  An update with a valid status for a stored id
    whose notes hold U+0000 is refused by the driver: the answer is 500
    with the update message, and the row keeps the notes it had.  The same
    holds of a status-only update while the store is down: 500 with the
    catch-all message, and the notes are kept. *)
Lemma update_appointment_notes_counterexample :
  let w := Sample.world Sample.future_store [] in
  let run := update_appointment Sample.ext 1 (JObj Sample.notes_with_nul) w in
  let down := Sample.world Sample.future_store [true] in
  let run_down :=
    update_appointment Sample.ext 1 (JObj (Sample.status_only "confirmed"))
      down in
  (Sample.notes_with_nul !! "status" = Some (JStr "confirmed")
   ∧ "confirmed"%string ∈ valid_statuses
   ∧ Sample.notes_with_nul !! "notes" = Some (JStr Sample.call_nul_back)
   ∧ (∃ a, a ∈ tbl_appointments (committed w) ∧ appointments.id a = 1))
  ∧ (run.1
     = Return (jsonify (error_body "Failed to update appointment") 500)
     ∧ committed run.2 = committed w
     ∧ appointments.notes <$> tbl_appointments (committed run.2) !! 0%nat
       = Some (Some "call back"%string))
  ∧ (run_down.1 = Return (jsonify (error_body "Internal server error") 500)
     ∧ committed run_down.2 = committed down
     ∧ appointments.notes <$> tbl_appointments (committed run_down.2) !! 0%nat
       = Some (Some "call back"%string)).
Proof.
  split_and!; try (vm_compute; reflexivity).
  - unfold valid_statuses. apply list_elem_of_further, list_elem_of_here.
  - eexists. split; [apply list_elem_of_here|reflexivity].
Qed.

(** C7 with the store down at the first call: the answer is still the
    reply of the model. *)
Lemma chat_persistence_is_not_fatal_witness :
  ∃ r w',
    chat Sample.ext "session-1" Sample.gemini (JObj Sample.hello)
      (Sample.world Sample.empty_store [true])
    = (Return r, w')
    ∧ r = jsonify
            (<["response" := JStr "Drink water."]>
             (<["session_id" := JStr "session-1"]>
              (<["timestamp" := JStr "now"]> ∅)))
            200
    ∧ (r = jsonify
             (error_body "Failed to process your message. Please try again.")
             500
       ↔ Sample.gemini "hello" = ReplyError).
Proof.
  apply (chat_persistence_is_not_fatal Sample.ext "session-1" Sample.gemini
           Sample.hello " hello "%string
           (Sample.world Sample.empty_store [true])).
  - reflexivity.
  - discriminate.
Defined.

(** C10 on the same request. *)
Lemma chat_timestamp_is_now_witness :
  ∃ d,
    body
      (jsonify
         (<["response" := JStr "Drink water."]>
          (<["session_id" := JStr "session-1"]>
           (<["timestamp" := JStr "now"]> ∅)))
         200)
    = JObj d
    ∧ d !! "timestamp" = Some (JStr "now").
Proof.
  apply (chat_timestamp_is_now Sample.ext "session-1" Sample.gemini
           (JObj Sample.hello) (Sample.world Sample.empty_store [true]) _
           (chat Sample.ext "session-1" Sample.gemini (JObj Sample.hello)
              (Sample.world Sample.empty_store [true])).2).
  - vm_compute. reflexivity.
  - reflexivity.
Defined.

Lemma sample_references_doctors : references_doctors Sample.future_store.
Proof.
  split.
  - simpl. apply NoDup_cons. split.
    + intros [?|[]%elem_of_nil]%elem_of_cons. discriminate.
    + apply NoDup_singleton.
  - intros a Ha. exists Sample.dr_grey. split; [apply list_elem_of_here|].
    simpl in Ha.
    repeat (apply elem_of_cons in Ha as [->|Ha]; [reflexivity|]).
    by apply elem_of_nil in Ha.
Defined.

(** The amended C6 on the three appointments of doctor 3, asking for
    that doctor: three elements, in the order of the slots. *)
Lemma get_appointments_lists_witness :
  ∃ rows items w',
    get_appointments Sample.ext (Some "3"%string) None
      (Sample.world Sample.future_store [])
    = (Return (jsonify {[ "appointments" := JArr items ]} 200), w')
    ∧ Forall2 (shows_appointment Sample.ext) rows items
    ∧ rows.*1 ≡ₚ filter (matches_filters Sample.ext (Some "3"%string) None)
                   (tbl_appointments Sample.future_store)
    ∧ Forall (joined Sample.future_store) rows
    ∧ StronglySorted date_time_desc rows.
Proof.
  apply (get_appointments_lists Sample.ext (Some "3"%string) None
           (Sample.world Sample.future_store [])).
  - apply sample_references_doctors.
  - intros _. by eexists.
  - done.
  - by split_and!.
Defined.

(** C6 as stated fails.  A status filter that holds U+0000 is refused by
    the driver, and a doctor filter that is not a number by the store: the
    answer is 500 with the list message, not the (empty) list of the
    appointments that match.  With the store down the answer is 500 as
    well, whatever is stored. *)
Lemma get_appointments_filters_counterexample :
  let w := Sample.world Sample.future_store [] in
  let failed :=
    Return (jsonify (error_body "Failed to retrieve appointments") 500) in
  (filter (matches_filters Sample.ext None (Some Sample.call_nul_back))
     (tbl_appointments (committed w)) = []
   ∧ (get_appointments Sample.ext None (Some Sample.call_nul_back) w).1
     = failed)
  ∧ (get_appointments Sample.ext (Some "abc"%string) None w).1 = failed
  ∧ (length (filter (matches_filters Sample.ext None None)
               (tbl_appointments (committed w))) = 3%nat
     ∧ (get_appointments Sample.ext None None
          (Sample.world Sample.future_store [true])).1 = failed).
Proof. split_and!; vm_compute; reflexivity. Qed.

(** One element, evaluated: what the list shows of Jane's appointment. *)
Example get_appointments_element :
  (get_appointments Sample.ext (Some "3"%string) (Some "pending"%string)
     (Sample.world Sample.held_store [])).1
  = Return
      (jsonify
         {[ "appointments" :=
              JArr
                [JObj
                   (<["id" := JInt 1]>
                    (<["patient_name" := JStr "Jane Doe"]>
                     (<["patient_email" := JStr "jane@x.com"]>
                      (<["patient_phone" := JStr ""]>
                       (<["doctor_id" := JInt 3]>
                        (<["doctor_name" := JStr "Grey"]>
                         (<["specialization" := JStr "Cardiology"]>
                          (<["appointment_date" := JStr "2099-01-01"]>
                           (<["appointment_time" := JStr "10:00"]>
                            (<["reason" := JStr ""]>
                             (<["status" := JStr "pending"]>
                              (<["notes" := JStr "call back"]>
                               (<["created_at" := JStr "2019-12-01T00:00:00"]>
                                ∅)))))))))))))] ]}
         200).
Proof. vm_compute. reflexivity. Qed.

(** The list, evaluated without filters: the three appointments, the
    latest slot first. *)
Example get_appointments_all :
  (get_appointments Sample.ext None None
     (Sample.world Sample.future_store [])).1
  = Return
      (jsonify
         {[ "appointments" :=
              JArr
                (appointment_json Sample.ext <$>
                   [(Sample.jane 2 (mkDate 2099 1 2) Sample.ten "cancelled",
                     Sample.dr_grey);
                    (Sample.jane 1 (mkDate 2099 1 1) Sample.ten "pending",
                     Sample.dr_grey);
                    (Sample.jane 3 (mkDate 2099 1 1) (mkTime 9 30 0 0)
                       "confirmed", Sample.dr_grey)]) ]}
         200).
Proof. vm_compute. reflexivity. Qed.

(** C4 on a request the store cannot run: the doctor filter is not a
    number, the query raises, and the connection stays open. *)
Example get_appointments_bad_filter_leaks :
  let w := Sample.world Sample.future_store [] in
  let run := get_appointments Sample.ext (Some "abc"%string) None w in
  run.1 = Return (jsonify (error_body "Failed to retrieve appointments") 500)
  ∧ conns run.2 = [Open Sample.future_store].
Proof. split; vm_compute; reflexivity. Qed.

(** * Further properties of the handlers *)

Lemma head_filter_none {A} (P : A → Prop) `{!∀ x, Decision (P x)}
    (l : list A) :
  (∀ x, x ∈ l → ¬ P x) → head (filter P l) = None.
Proof.
  intros Hnone. destruct (filter P l) as [|x l'] eqn:Hf; [done|].
  assert (x ∈ filter P l) as [Hx HP]%list_elem_of_filter
    by (rewrite Hf; apply list_elem_of_here).
  by destruct (Hnone x).
Qed.

Lemma no_outage_tail n fs : no_outage (S n) fs → no_outage n (tail fs).
Proof. by intros [_ ?]. Qed.

Lemma no_outage_le n k fs : (n ≤ k)%nat → no_outage k fs → no_outage n fs.
Proof.
  revert k fs. induction n as [|n IH]; intros k fs Hle Hk; [done|].
  destruct k as [|k]; [lia|]. destruct Hk as [Hh Ht].
  split; [done|]. apply (IH k); [lia|done].
Qed.

Section booking_runs.
Variable ext : Externals.

Lemma validate_booking_passes m w dv ds ts :
  passes_checks ext m w dv ds ts →
  ∃ b, validate_booking ext (JObj m) w = (Normal b, w)
       ∧ doctor_id b = dv
       ∧ appointment_date b = JStr ds
       ∧ appointment_time b = JStr ts
       ∧ patient_name b = default JNull (m !! "patient_name")
       ∧ patient_email b = default JNull (m !! "patient_email")
       ∧ patient_phone b = default (JStr "") (m !! "patient_phone")
       ∧ reason b = default (JStr "") (m !! "reason").
Proof.
  intros (Hall & Hdv & Hd & Ht & d0 & t0 & Hpd & Hpt & Hfuture).
  destruct (required_lookups m Hall)
    as (v1 & v2 & v3 & v4 & v5 & H1 & H2 & H3 & H4 & H5).
  unfold validate_booking.
  rewrite (bind_normal _ _ _ _ _ (check_required_pass m _ w Hall)).
  unfold bind, dict_item, dict_get, try_except, strptime, get_world, ret,
    return_.
  rewrite H1, H2, Hdv, Hd, Ht, Hpd, Hpt. simpl. rewrite Hfuture.
  eexists. split; [reflexivity|]. by split_and!.
Qed.

(** The run of a request for a free slot of a verified doctor, with the
    world it leaves. *)
Lemma book_appointment_success_run m w dv ds ts n d t pn pe pp r :
  passes_checks ext m w dv ds ts →
  targets ext dv ds ts n d t →
  stores_fields ext m pn pe pp r →
  verified n (committed w) →
  ¬ occupied n d t (committed w) →
  fresh_id w →
  no_outage 5 (faults w) →
  ∃ doc w',
    book_appointment ext (JObj m) w
    = (Return
         (jsonify
            (<["message" := JStr "Appointment booked successfully"]>
             (<["appointment_id" := JInt (appointments_id_seq w)]>
              (<["doctor_name" := JStr (doctors.name doc)]>
               (<["appointment_date" := JStr ds]>
                (<["appointment_time" := JStr ts]> ∅)))))
            200), w')
    ∧ (doc ∈ tbl_doctors (committed w) ∧ doctors.id doc = n
       ∧ doctors.is_verified doc = true)
    ∧ committed w'
      = mkStore (tbl_doctors (committed w))
          (tbl_appointments (committed w) ++ [booked_row w pn pe pp n d t r])
          (tbl_chat_history (committed w))
    ∧ conns w' = conns w ++ [Closed]
    ∧ clock w' = clock w
    ∧ current_timestamp w' = current_timestamp w
    ∧ faults w' = tail (tail (tail (tail (tail (faults w)))))
    ∧ appointments_id_seq w' = appointments_id_seq w + 1.
Proof.
  intros Hchecks (Hn & Hsd & Hst) (Hpn & Hpe & Hpp & Hr)
    (doc0 & Hdoc0 & Hid0 & Hver0) Hfree Hfresh
    (Hf1 & Hf2 & Hf3 & Hf4 & Hf5 & _).
  destruct (validate_booking_passes m w dv ds ts Hchecks)
    as (b & Hb & Hbd & Hbdate & Hbtime & Hbn & Hbe & Hbp & Hbr).
  destruct (head_filter_found
              (λ d, doctors.id d = n ∧ doctors.is_verified d = true)
              (tbl_doctors (committed w)) doc0 Hdoc0 (conj Hid0 Hver0))
    as [doc Hdoc].
  assert (doc ∈ tbl_doctors (committed w) ∧ doctors.id doc = n
          ∧ doctors.is_verified doc = true) as Hdocspec.
  { assert (doc ∈ filter
                    (λ d, doctors.id d = n ∧ doctors.is_verified d = true)
                    (tbl_doctors (committed w))) as Hin.
    { destruct (filter _ (tbl_doctors (committed w))) as [|x l]; [done|].
      injection Hdoc as ->. apply list_elem_of_here. }
    apply list_elem_of_filter in Hin. tauto. }
  assert (head (filter (λ a, at_slot n d t a ∧ active a)
                  (tbl_appointments (committed w))) = None) as Hnone.
  { apply head_filter_none. intros a Ha [Hslot Hact]. apply Hfree.
    by exists a. }
  exists doc. eexists. split; [|split; [exact Hdocspec|]].
  - unfold book_appointment. apply try_except_return.
    run_normal ltac:(exact Hb).
    run_normal ltac:(rewrite get_db_connection_run, Hf1; reflexivity).
    unfold try_finally.
    erewrite try_except_return; cycle 1.
    + unfold book_transaction.
      run_normal ltac:(
        erewrite (execute_run (conns w) (committed w)) by reflexivity;
        simpl; rewrite Hf2; unfold select_verified_doctor;
        rewrite Hbd, Hn; simpl; rewrite Hdoc; reflexivity).
      simpl.
      run_normal ltac:(
        erewrite (execute_run (conns w) (committed w)) by reflexivity;
        simpl; rewrite Hf3; unfold select_conflict;
        rewrite Hbd, Hbdate, Hbtime, Hn, Hsd, Hst; simpl;
        rewrite Hnone; reflexivity).
      simpl.
      run_normal ltac:(
        unfold insert_appointment;
        erewrite bind_normal;
          [|erewrite (execute_run (conns w) (committed w)) by reflexivity;
            simpl; rewrite Hf4; unfold insert_appointment_row;
            rewrite Hbn, Hbe, Hbp, Hbr, Hbd, Hbdate, Hbtime,
              Hpn, Hpe, Hpp, Hr, Hn, Hsd, Hst; simpl;
            rewrite decide_False by exact Hfresh; reflexivity];
        reflexivity).
      run_normal ltac:(
        erewrite (commit_run (conns w)) by reflexivity;
        simpl; rewrite Hf5; reflexivity).
      rewrite Hbdate, Hbtime. reflexivity.
    + erewrite close_run by reflexivity. reflexivity.
  - simpl. by split_and!.
Qed.
End booking_runs.

Section booking_answers.
Variable ext : Externals.

(** The run of a request for a slot that holds an active appointment. *)
Lemma book_appointment_conflict_run m w dv ds ts n d t :
  passes_checks ext m w dv ds ts →
  targets ext dv ds ts n d t →
  verified n (committed w) →
  occupied n d t (committed w) →
  no_outage 3 (faults w) →
  ∃ w',
    book_appointment ext (JObj m) w
    = (Return (jsonify (error_body "This time slot is already booked") 409), w')
    ∧ committed w' = committed w
    ∧ conns w' = conns w ++ [Closed].
Proof.
  intros Hchecks (Hn & Hsd & Hst) (doc & Hdoc & Hid & Hver)
    (a & Ha & Hslot & Hact) (Hf1 & Hf2 & Hf3 & _).
  destruct (validate_booking_passes ext m w dv ds ts Hchecks)
    as (b & Hb & Hbd & Hbdate & Hbtime & _).
  destruct (head_filter_found
              (λ d, doctors.id d = n ∧ doctors.is_verified d = true)
              (tbl_doctors (committed w)) doc Hdoc (conj Hid Hver))
    as [doc' Hdoc'].
  destruct (head_filter_found
              (λ a, at_slot n d t a ∧ active a)
              (tbl_appointments (committed w)) a Ha (conj Hslot Hact))
    as [a' Ha'].
  eexists. split.
  - unfold book_appointment. apply try_except_return.
    run_normal ltac:(exact Hb).
    run_normal ltac:(rewrite get_db_connection_run, Hf1; reflexivity).
    unfold try_finally.
    erewrite try_except_return; cycle 1.
    + unfold book_transaction.
      run_normal ltac:(
        erewrite (execute_run (conns w) (committed w)) by reflexivity;
        simpl; rewrite Hf2; unfold select_verified_doctor;
        rewrite Hbd, Hn; simpl; rewrite Hdoc'; reflexivity).
      simpl.
      run_normal ltac:(
        erewrite (execute_run (conns w) (committed w)) by reflexivity;
        simpl; rewrite Hf3; unfold select_conflict;
        rewrite Hbd, Hbdate, Hbtime, Hn, Hsd, Hst; simpl;
        rewrite Ha'; reflexivity).
      reflexivity.
    + erewrite close_run by reflexivity. reflexivity.
  - by split.
Qed.

(** A request whose slot is not later than the clock stops at the third
    check. *)
Lemma book_appointment_slot_passed m w0 w dv ds ts d0 t0 :
  passes_checks ext m w0 dv ds ts →
  strptime_Ymd ext ds = Some d0 →
  strptime_HM ext ts = Some t0 →
  datetime_le (d0, t0) (clock w) = true →
  book_appointment ext (JObj m) w
  = (Return
       (jsonify
          (error_body "Appointment must be scheduled for a future date and time")
          400), w).
Proof.
  intros (Hall & Hdv & Hd & Ht & _) Hpd Hpt Hle.
  destruct (required_lookups m Hall)
    as (v1 & v2 & v3 & v4 & v5 & H1 & H2 & H3 & H4 & H5).
  unfold book_appointment, validate_booking.
  apply try_except_return, bind_return.
  rewrite (bind_normal _ _ _ _ _ (check_required_pass m _ w Hall)).
  unfold bind, dict_item, dict_get, try_except, strptime, get_world, ret,
    return_.
  rewrite H1, H2, H3, Hd, Ht, Hpd, Hpt. simpl. by rewrite Hle.
Qed.

(** X1.  A request that passes the checks, for a free slot of a verified
    doctor, with text fields that driver and store take, a sequence value
    that no stored appointment has as its id, and no outage, is answered
    200 with the id drawn from the sequence and the doctor's name; exactly
    one row is appended, with the request's slot, status [pending] and no
    notes; the sequence moves on by one and the connection is closed. *)
Theorem book_appointment_books m w dv ds ts n d t pn pe pp r :
  passes_checks ext m w dv ds ts →
  targets ext dv ds ts n d t →
  stores_fields ext m pn pe pp r →
  verified n (committed w) →
  ¬ occupied n d t (committed w) →
  fresh_id w →
  no_outage 5 (faults w) →
  ∃ doc w',
    book_appointment ext (JObj m) w
    = (Return
         (jsonify
            (<["message" := JStr "Appointment booked successfully"]>
             (<["appointment_id" := JInt (appointments_id_seq w)]>
              (<["doctor_name" := JStr (doctors.name doc)]>
               (<["appointment_date" := JStr ds]>
                (<["appointment_time" := JStr ts]> ∅)))))
            200), w')
    ∧ (doc ∈ tbl_doctors (committed w) ∧ doctors.id doc = n
       ∧ doctors.is_verified doc = true)
    ∧ tbl_appointments (committed w')
      = tbl_appointments (committed w) ++
          [appointments.mk (appointments_id_seq w) pn pe pp n d t r
             "pending" None (current_timestamp w) (current_timestamp w)]
    ∧ tbl_doctors (committed w') = tbl_doctors (committed w)
    ∧ tbl_chat_history (committed w') = tbl_chat_history (committed w)
    ∧ appointments_id_seq w' = appointments_id_seq w + 1
    ∧ released w w'.
Proof.
  intros Hchecks Htargets Hfields Hver Hfree Hfresh Hup.
  destruct (book_appointment_success_run ext m w dv ds ts n d t pn pe pp r)
    as (doc & w' & Hrun & (Hdoc & Hid & Hv) & Hstore & Hconns & _ & _ & _
        & Hseq);
    [done..|].
  exists doc, w'. rewrite Hstore. split_and!; try done.
  by apply released_closed.
Qed.

(** X2.  The same request sent again, whatever has happened in between
    to the clock, the connections and the outages ahead, as long as the
    committed store is the one the first run left: while the slot is still
    later than the clock and the store is up, the answer is 409 and
    nothing is written, the row of the first run occupies the slot; once
    the clock has reached the slot, the answer is 400 with the future-date
    message and the world is not touched. *)
Theorem book_appointment_twice m w dv ds ts n d t pn pe pp r :
  passes_checks ext m w dv ds ts →
  targets ext dv ds ts n d t →
  stores_fields ext m pn pe pp r →
  verified n (committed w) →
  ¬ occupied n d t (committed w) →
  fresh_id w →
  no_outage 5 (faults w) →
  ∃ r1 w1,
    book_appointment ext (JObj m) w = (Return r1, w1)
    ∧ status_code r1 = 200
    ∧ (∀ w2,
         committed w2 = committed w1 →
         passes_checks ext m w2 dv ds ts →
         no_outage 3 (faults w2) →
         ∃ w3,
           book_appointment ext (JObj m) w2
           = (Return
                (jsonify (error_body "This time slot is already booked") 409),
              w3)
           ∧ committed w3 = committed w2)
    ∧ (∀ w2 d0 t0,
         strptime_Ymd ext ds = Some d0 →
         strptime_HM ext ts = Some t0 →
         datetime_le (d0, t0) (clock w2) = true →
         book_appointment ext (JObj m) w2
         = (Return
              (jsonify
                 (error_body
                    "Appointment must be scheduled for a future date and time")
                 400), w2)).
Proof.
  intros Hchecks Htargets Hfields Hver Hfree Hfresh Hup.
  destruct (book_appointment_success_run ext m w dv ds ts n d t pn pe pp r)
    as (doc & w1 & Hrun & Hdoc & Hstore & _); [done..|].
  eexists _, w1. split_and!; [exact Hrun|done| |].
  - intros w2 Hw2 Hchecks2 Hup2.
    destruct (book_appointment_conflict_run m w2 dv ds ts n d t)
      as (w3 & Hrun2 & Hstore2 & _); try done.
    + rewrite Hw2, Hstore. destruct Hver as (doc0 & ? & ? & ?). by exists doc0.
    + rewrite Hw2, Hstore. eexists. simpl. split_and!.
      * apply elem_of_app. right. apply list_elem_of_here.
      * by split_and!.
      * by apply default_status_active.
    + by exists w3.
  - intros w2 d0 t0. by apply book_appointment_slot_passed with w dv.
Qed.

(** X3.  A doctor id the store knows no verified doctor for is answered
    404; nothing is written and the connection is closed. *)
Theorem book_appointment_unknown_doctor m w dv ds ts n :
  passes_checks ext m w dv ds ts →
  sql_int ext dv = Some n →
  ¬ verified n (committed w) →
  no_outage 2 (faults w) →
  ∃ w',
    book_appointment ext (JObj m) w
    = (Return (jsonify (error_body "Doctor not found or not verified") 404),
       w')
    ∧ committed w' = committed w
    ∧ released w w'.
Proof.
  intros Hchecks Hn Hunknown (Hf1 & Hf2 & _).
  destruct (validate_booking_passes ext m w dv ds ts Hchecks)
    as (b & Hb & Hbd & _).
  assert (head (filter (λ d, doctors.id d = n ∧ doctors.is_verified d = true)
                  (tbl_doctors (committed w))) = None) as Hnone.
  { apply head_filter_none. intros doc Hdoc [Hid Hv]. apply Hunknown.
    by exists doc. }
  eexists. split.
  - unfold book_appointment. apply try_except_return.
    run_normal ltac:(exact Hb).
    run_normal ltac:(rewrite get_db_connection_run, Hf1; reflexivity).
    unfold try_finally.
    erewrite try_except_return; cycle 1.
    + unfold book_transaction.
      run_normal ltac:(
        erewrite (execute_run (conns w) (committed w)) by reflexivity;
        simpl; rewrite Hf2; unfold select_verified_doctor;
        rewrite Hbd, Hn; simpl; rewrite Hnone; reflexivity).
      reflexivity.
    + erewrite close_run by reflexivity. reflexivity.
  - split; [done|]. by apply released_closed.
Qed.
End booking_answers.

Section booking_paths.
Variable ext : Externals.

Ltac path_end :=
  eexists _, _; split; [reflexivity|]; split; [by eexists|]; simpl;
  first [done | by left | by right].

(** The body of the inner [try] never falls through, and it has
    committed only where it returns the 200 answer. *)
Lemma book_transaction_outcome cs b w :
  conns w = cs ++ [Open (committed w)] →
  ∃ o w',
    book_transaction ext (length cs) b w = (o, w')
    ∧ (∃ s', conns w' = cs ++ [Open s'])
    ∧ match o with
      | Normal _ => False
      | Return r => committed w' = committed w ∨ status_code r = 200
      | Raise _ => committed w' = committed w
      end.
Proof.
  intros Hc. unfold book_transaction.
  unfold bind at 1. erewrite execute_run by exact Hc. simpl.
  destruct (hd false (faults w)); [path_end|].
  unfold select_verified_doctor at 1.
  destruct (sql_int ext (doctor_id b)) as [n|] eqn:Hn; simpl; [|path_end].
  destruct (head (filter _ (tbl_doctors (committed w)))) as [doctor|];
    [|path_end].
  unfold bind at 1. erewrite execute_run by reflexivity. simpl.
  destruct (hd false (tail (faults w))); [path_end|].
  unfold select_conflict at 1. rewrite Hn. simpl.
  destruct (pg_date ext (appointment_date b)) as [d|] eqn:Hd; simpl;
    [|path_end].
  destruct (pg_time ext (appointment_time b)) as [t|] eqn:Ht; simpl;
    [|path_end].
  destruct (head (filter _ (tbl_appointments (committed w)))) as [a|];
    simpl; [path_end|].
  unfold insert_appointment. unfold bind at 1. unfold bind at 1.
  erewrite execute_run by reflexivity. simpl.
  destruct (hd false (tail (tail (faults w)))); [path_end|].
  unfold insert_appointment_row at 1. rewrite Hn, Hd, Ht.
  destruct (sql_text ext "patient_name" (patient_name b)) as [pn|]; simpl;
    [|path_end].
  destruct (sql_text ext "patient_email" (patient_email b)) as [pe|]; simpl;
    [|path_end].
  destruct (sql_text ext "patient_phone" (patient_phone b)) as [pp|]; simpl;
    [|path_end].
  destruct (sql_text ext "reason" (reason b)) as [r|]; simpl; [|path_end].
  destruct (decide (_ ∈ _)) as [Hdup|Hnew]; simpl;
    [unfold bind, modify, raise; simpl; path_end|].
  unfold bind at 1. erewrite commit_run by reflexivity. simpl.
  destruct (hd false (tail (tail (tail (faults w))))); [path_end|].
  unfold return_. path_end.
Qed.

(** X4.  No exception escapes [book_appointment]: every run ends with an
    answer, and an answer other than 200 means that the committed store is
    as it was. *)
Theorem book_appointment_always_answers data w :
  ∃ r w',
    book_appointment ext data w = (Return r, w')
    ∧ (status_code r ≠ 200 → committed w' = committed w).
Proof.
  unfold book_appointment, try_except. unfold bind at 1.
  pose proof (validate_booking_world ext data w) as Hw.
  destruct (validate_booking ext data w) as [o w1].
  simpl in Hw. subst w1.
  destruct o as [b|r|e]; simpl;
    [|by eexists _, _|
     unfold bind, logging_error, modify, return_; by eexists _, _].
  unfold bind at 1. rewrite get_db_connection_run. simpl.
  destruct (hd false (faults w)); simpl;
    [unfold bind, logging_error, modify, return_; by eexists _, _|].
  unfold try_finally.
  set (w1 := set_conns _ _).
  destruct (book_transaction_outcome (conns w) b w1 eq_refl)
    as (o & w2 & -> & (s' & Hs') & Hout).
  destruct o as [[]|r|e]; simpl; [done| |].
  - eexists _, _. split; [reflexivity|]. simpl.
    intros Hr. by destruct Hout.
  - unfold bind at 1. erewrite rollback_run by exact Hs'. simpl.
    destruct (hd false (faults w2)); simpl;
      unfold bind, logging_error, modify, return_;
      eexists _, _; (split; [reflexivity|]); simpl; done.
Qed.

(** X5.  When the commit fails after the insert went through (text
    fields that driver and store take, a sequence value that no stored
    appointment has as its id), the rollback leaves the committed store as
    it was: the answer is 500 with the booking message, no appointment was
    stored, the connection is closed; only the id drawn from the sequence
    is gone. *)
Theorem book_appointment_failed_commit m w dv ds ts n d t pn pe pp r fs :
  passes_checks ext m w dv ds ts →
  targets ext dv ds ts n d t →
  stores_fields ext m pn pe pp r →
  verified n (committed w) →
  ¬ occupied n d t (committed w) →
  fresh_id w →
  faults w = [false; false; false; false; true; false] ++ fs →
  ∃ w',
    book_appointment ext (JObj m) w
    = (Return (jsonify (error_body "Failed to book appointment") 500), w')
    ∧ committed w' = committed w
    ∧ conns w' = conns w ++ [Closed]
    ∧ appointments_id_seq w' = appointments_id_seq w + 1
    ∧ log w'
      = log w ++ [("Database error in book_appointment"%string, DatabaseError)].
Proof.
  intros Hchecks (Hn & Hsd & Hst) (Hpn & Hpe & Hpp & Hr)
    (doc0 & Hdoc0 & Hid0 & Hver0) Hfree Hfresh Hfaults.
  destruct (validate_booking_passes ext m w dv ds ts Hchecks)
    as (b & Hb & Hbd & Hbdate & Hbtime & Hbn & Hbe & Hbp & Hbr).
  destruct (head_filter_found
              (λ d, doctors.id d = n ∧ doctors.is_verified d = true)
              (tbl_doctors (committed w)) doc0 Hdoc0 (conj Hid0 Hver0))
    as [doc Hdoc].
  assert (head (filter (λ a, at_slot n d t a ∧ active a)
                  (tbl_appointments (committed w))) = None) as Hnone.
  { apply head_filter_none. intros a Ha [Hslot Hact]. apply Hfree.
    by exists a. }
  eexists. split.
  - unfold book_appointment. apply try_except_return.
    run_normal ltac:(exact Hb).
    run_normal ltac:(rewrite get_db_connection_run, Hfaults; reflexivity).
    unfold try_finally.
    erewrite try_except_caught; [| |reflexivity]; cycle 1.
    + unfold book_transaction.
      run_normal ltac:(
        erewrite (execute_run (conns w) (committed w)) by reflexivity;
        simpl; unfold select_verified_doctor;
        rewrite Hbd, Hn; simpl; rewrite Hdoc; reflexivity).
      simpl.
      run_normal ltac:(
        erewrite (execute_run (conns w) (committed w)) by reflexivity;
        simpl; unfold select_conflict;
        rewrite Hbd, Hbdate, Hbtime, Hn, Hsd, Hst; simpl;
        rewrite Hnone; reflexivity).
      simpl.
      run_normal ltac:(
        unfold insert_appointment;
        erewrite bind_normal;
          [|erewrite (execute_run (conns w) (committed w)) by reflexivity;
            simpl; unfold insert_appointment_row;
            rewrite Hbn, Hbe, Hbp, Hbr, Hbd, Hbdate, Hbtime,
              Hpn, Hpe, Hpp, Hr, Hn, Hsd, Hst; simpl;
            rewrite decide_False by exact Hfresh; reflexivity];
        reflexivity).
      apply bind_raise.
      erewrite (commit_run (conns w)) by reflexivity. reflexivity.
    + run_normal ltac:(
        erewrite (rollback_run (conns w)) by reflexivity; reflexivity).
      run_normal ltac:(reflexivity).
      unfold return_.
      erewrite close_run by reflexivity. reflexivity.
  - simpl. by split_and!.
Qed.

(** X6.  A request in which some required field is absent or falsy is
    answered 400 naming the first such field in the order of the list; the
    world is not touched. *)
Theorem book_appointment_missing_field m w :
  ¬ Forall (field_given m) required_fields →
  ∃ pre g post,
    required_fields = pre ++ g :: post
    ∧ Forall (field_given m) pre
    ∧ ¬ field_given m g
    ∧ book_appointment ext (JObj m) w
      = (Return (jsonify (error_body (g +:+ " is required")) 400), w).
Proof.
  intros Hnot.
  destruct (first_not_given m required_fields)
    as (pre & g & post & Hreq & Hpre & Hg).
  { apply not_Forall_Exists; [|done]. intros f. unfold field_given. apply _. }
  exists pre, g, post. split_and!; [done..|].
  by apply (book_appointment_stops_at_required ext m pre g post).
Qed.

(** X7.  A body that is not a JSON object has no [get]: the answer is
    500 with the catch-all message, the error is logged, and no connection
    is opened. *)
Theorem book_appointment_not_an_object data w :
  (∀ m, data ≠ JObj m) →
  book_appointment ext data w
  = (Return (jsonify (error_body "Internal server error") 500),
     set_log (log w ++ [("Error in book_appointment"%string, AttributeError)])
       w).
Proof.
  intros Hdata. unfold book_appointment, validate_booking.
  erewrite try_except_caught; [reflexivity| |reflexivity].
  apply bind_raise. unfold required_fields. simpl.
  apply bind_raise. unfold dict_get.
  destruct data; try reflexivity. by destruct (Hdata m).
Qed.
End booking_paths.

Section update_paths.
Variable ext : Externals.

Ltac answered :=
  unfold bind, logging_error, modify, return_;
  eexists _, _; split; [reflexivity|]; simpl; by left.

Ltac rolled_back :=
  unfold bind at 1; erewrite rollback_run by reflexivity; simpl;
  destruct (hd false _); simpl; answered.

(** Every run of [update_appointment] ends with an answer; the committed
    store is as it was, or the answer is 200 and the rows of the id have
    been rewritten with the status of the request. *)
Lemma update_appointment_effect appointment_id data w :
  ∃ r w',
    update_appointment ext appointment_id data w = (Return r, w')
    ∧ (committed w' = committed w
       ∨ status_code r = 200
         ∧ ∃ st nt,
             (∀ m, data = JObj m →
                   default JNull (m !! "status") = JStr st)
             ∧ committed w'
               = mkStore (tbl_doctors (committed w))
                   ((λ a, if decide (appointments.id a = appointment_id)
                          then rewritten st nt (current_timestamp w) a else a)
                      <$> tbl_appointments (committed w))
                   (tbl_chat_history (committed w))).
Proof.
  unfold update_appointment. unfold try_except at 1. unfold bind at 1.
  destruct data as [| | | | |m];
    try solve [unfold dict_get, raise; simpl; answered].
  unfold dict_get at 1. unfold ret at 1.
  unfold bind at 1. unfold dict_get at 1. unfold ret at 1.
  set (status := default JNull (m !! "status")).
  set (notes := default (JStr "") (m !! "notes")).
  destruct (negb (status_in status valid_statuses)); simpl; [answered|].
  unfold bind at 1. rewrite get_db_connection_run. simpl.
  destruct (hd false (faults w)); simpl; [answered|].
  unfold try_finally, try_except.
  unfold bind at 1. erewrite execute_run by reflexivity. simpl.
  destruct (hd false (tail (faults w))); simpl; [rolled_back|].
  unfold update_appointment_row at 1.
  destruct status as [| | |st| |] eqn:Hst; simpl; try rolled_back.
  destruct (has_nul st); simpl; [rolled_back|].
  destruct (sql_text ext "notes" notes) as [nt|]; simpl; [|rolled_back].
  destruct (head (filter _ (tbl_appointments (committed w)))) as [hit|];
    simpl; [|answered].
  unfold bind at 1. erewrite commit_run by reflexivity. simpl.
  destruct (hd false (tail (tail (faults w)))); simpl; [rolled_back|].
  unfold return_. eexists _, _. split; [reflexivity|]. simpl.
  right. split; [done|]. exists st, nt. split; [|done].
  by intros m' [= <-].
Qed.

(** X8.  No exception escapes [update_appointment], and an answer other
    than 200 means that the committed store is as it was. *)
Theorem update_appointment_always_answers appointment_id data w :
  ∃ r w',
    update_appointment ext appointment_id data w = (Return r, w')
    ∧ (status_code r ≠ 200 → committed w' = committed w).
Proof.
  destruct (update_appointment_effect appointment_id data w)
    as (r & w' & Hrun & [Hsame|[Hok _]]);
    exists r, w'; by split.
Qed.

(** X9.  Whatever the request, [update_appointment] writes status,
    notes and [updated_at] only: the rows keep their number, order, id,
    patient, doctor, slot, reason and creation time, and the doctors and
    the chat turns are as they were. *)
Theorem update_appointment_keeps_columns appointment_id data w :
  let w' := (update_appointment ext appointment_id data w).2 in
  kept_columns <$> tbl_appointments (committed w')
  = kept_columns <$> tbl_appointments (committed w)
  ∧ tbl_doctors (committed w') = tbl_doctors (committed w)
  ∧ tbl_chat_history (committed w') = tbl_chat_history (committed w).
Proof.
  destruct (update_appointment_effect appointment_id data w)
    as (r & w' & Hrun & Hstore).
  rewrite Hrun. simpl.
  destruct Hstore as [->|[_ (st & nt & _ & ->)]]; simpl; [done|].
  split; [|done]. rewrite <- list_fmap_compose.
  apply list_fmap_ext. intros i a _. simpl. by destruct (decide _).
Qed.

(** X10.  A valid update with notes that driver and store take, for an
    id the store does not hold, is answered 404: nothing is committed and
    the connection is closed. *)
Theorem update_appointment_not_found appointment_id m s nt w :
  m !! "status" = Some (JStr s) →
  s ∈ valid_statuses →
  sql_text ext "notes" (default (JStr "") (m !! "notes")) = Some nt →
  (∀ a, a ∈ tbl_appointments (committed w)
        → appointments.id a ≠ appointment_id) →
  no_outage 2 (faults w) →
  ∃ w',
    update_appointment ext appointment_id (JObj m) w
    = (Return (jsonify (error_body "Appointment not found") 404), w')
    ∧ committed w' = committed w
    ∧ released w w'.
Proof.
  intros Hs Hvalid Hnotes Hnone (Hf1 & Hf2 & _).
  assert (head (filter (λ a, appointments.id a = appointment_id)
                  (tbl_appointments (committed w))) = None) as Hhead
    by by apply head_filter_none.
  unfold update_appointment.
  eexists. split.
  - apply try_except_return.
    run_normal ltac:(unfold dict_get; rewrite Hs; reflexivity).
    run_normal ltac:(unfold dict_get; reflexivity).
    simpl. rewrite bool_decide_eq_true_2 by done. simpl.
    run_normal ltac:(rewrite get_db_connection_run, Hf1; reflexivity).
    unfold try_finally.
    erewrite try_except_return; cycle 1.
    + run_normal ltac:(
        erewrite (execute_run (conns w) (committed w)) by reflexivity;
        simpl; rewrite Hf2; unfold update_appointment_row;
        rewrite (valid_statuses_no_nul s Hvalid), Hnotes; simpl; reflexivity).
      rewrite Hhead. reflexivity.
    + erewrite close_run by reflexivity. reflexivity.
  - simpl. split; [done|]. by apply released_closed.
Qed.
End update_paths.

(** ** The read endpoints *)

Lemma chain_not_Gt ab bc ac : chain ab bc ac → ab ≠ Gt → bc ≠ Gt → ac ≠ Gt.
Proof.
  intros (H1 & H2 & H3 & H4) Hab Hbc.
  destruct ab, bc; try done.
  - by rewrite (H1 eq_refl).
  - by rewrite (H1 eq_refl).
  - by rewrite (H2 eq_refl).
  - by rewrite (H4 eq_refl eq_refl).
Qed.

#[global] Instance created_asc_transitive : Transitive created_asc.
Proof.
  intros x y z. unfold created_asc. apply chain_not_Gt, chain_datetime.
Qed.

#[global] Instance created_asc_total : Total created_asc.
Proof.
  intros x y. unfold created_asc.
  destruct (datetime_compare (chat_history.created_at x)
              (chat_history.created_at y)) eqn:Hxy;
    [by left|by left|right].
  pose proof (chain_datetime (chat_history.created_at x)
                (chat_history.created_at y) (chat_history.created_at x))
    as (_ & _ & H3 & _).
  rewrite datetime_compare_refl, Hxy in H3.
  intros Hyx. by specialize (H3 eq_refl Hyx).
Qed.

Lemma join_doctors_elem s r :
  r ∈ join_doctors s → r.1 ∈ tbl_appointments s ∧ joined s r.
Proof.
  unfold join_doctors. intros (a & Hr & Ha)%list_elem_of_bind.
  apply list_elem_of_fmap in Hr as (d & -> & Hd).
  apply list_elem_of_filter in Hd as [Hid Hd].
  by repeat split.
Qed.

Lemma elem_of_join_doctors s a d :
  a ∈ tbl_appointments s → d ∈ tbl_doctors s →
  appointments.doctor_id a = doctors.id d →
  (a, d) ∈ join_doctors s.
Proof.
  intros Ha Hd Hid. unfold join_doctors. apply list_elem_of_bind.
  exists a. split; [|done].
  apply list_elem_of_fmap_2. by apply list_elem_of_filter.
Qed.

Section reading.
Variable ext : Externals.

Lemma where_status_elem status g
    (l : list (appointments.row * doctors.row)) r :
  where_status ext status = Some g →
  r ∈ g l ↔
  r ∈ l ∧ filter_allows status (λ v, appointments.status r.1 = v).
Proof.
  unfold where_status. destruct status as [v|]; simpl.
  - destruct (String.eqb_spec v "") as [->|Hv].
    + intros [= <-]. tauto.
    + destruct (sql_str ext "status" v) as [v'|] eqn:Hv'; simpl; [|done].
      apply sql_str_takes in Hv' as [-> _].
      intros [= <-]. rewrite list_elem_of_filter.
      split; [by intros [-> ?]|].
      intros [? Hr]. split; [by apply Hr|done].
  - intros [= <-]. tauto.
Qed.

Lemma where_doctor_elem doctor_id f
    (l : list (appointments.row * doctors.row)) r :
  where_doctor ext doctor_id = Some f →
  r ∈ f l ↔
  r ∈ l ∧ filter_allows doctor_id
            (λ v, sql_int ext (JStr v) = Some (appointments.doctor_id r.1)).
Proof.
  unfold where_doctor. destruct doctor_id as [v|]; simpl.
  - destruct (String.eqb_spec v "") as [->|Hv].
    + intros [= <-]. tauto.
    + destruct (pg_int ext (JStr v)) as [n|]; simpl; [|done].
      intros [= <-]. rewrite list_elem_of_filter.
      split; [by intros [-> ?]|].
      intros [? Hr]. split; [|done]. specialize (Hr Hv). congruence.
  - intros [= <-]. tauto.
Qed.

(** The run of the list endpoint when the query goes through. *)
Lemma get_appointments_run doctor_id status f g w :
  where_doctor ext doctor_id = Some f →
  where_status ext status = Some g →
  no_outage 2 (faults w) →
  ∃ w',
    get_appointments ext doctor_id status w
    = (Return
         (jsonify
            {[ "appointments" :=
                 JArr (appointment_json ext <$>
                         merge_sort date_time_desc
                           (g (f (join_doctors (committed w))))) ]}
            200), w')
    ∧ committed w' = committed w
    ∧ conns w' = conns w ++ [Closed].
Proof.
  intros Hf Hg (Hf1 & Hf2 & _).
  eexists. split.
  - unfold get_appointments. apply try_except_return.
    run_normal ltac:(rewrite get_db_connection_run, Hf1; reflexivity).
    run_normal ltac:(
      erewrite (execute_run (conns w) (committed w)) by reflexivity;
      simpl; rewrite Hf2; unfold select_appointments;
      rewrite Hf, Hg; simpl; reflexivity).
    run_normal ltac:(erewrite (close_run (conns w)) by reflexivity; reflexivity).
    reflexivity.
  - by split.
Qed.

(** The rows of the list, whatever the store holds. *)
Lemma listed_rows doctor_id status f g (s : Store) r :
  where_doctor ext doctor_id = Some f →
  where_status ext status = Some g →
  r ∈ merge_sort date_time_desc (g (f (join_doctors s))) ↔
  r.1 ∈ tbl_appointments s ∧ joined s r
  ∧ matches_filters ext doctor_id status r.1.
Proof.
  intros Hf Hg. rewrite merge_sort_Permutation.
  rewrite (where_status_elem _ g), (where_doctor_elem _ f) by done.
  unfold matches_filters. split.
  - intros [[Hr Hd] Hs]. apply join_doctors_elem in Hr as [? ?]. tauto.
  - intros (Ha & [Hd Hid] & Hdf & Hsf). split_and!; [|done..].
    destruct r as [a d]. by apply elem_of_join_doctors.
Qed.

(** X11.  Whatever the store holds, with filters the store can read and
    no outage, the list has an element for exactly the pairs of an
    appointment of the store that passes the filters and a doctor of the
    store with the appointment's doctor id, and each element shows the
    fields of its pair; an appointment whose doctor id names no doctor is
    never listed.  On this path the connection is closed. *)
Theorem get_appointments_lists_joined_rows_only doctor_id status w :
  filter_allows doctor_id (λ v, is_Some (sql_int ext (JStr v))) →
  filter_allows status (takes_text ext "status") →
  no_outage 2 (faults w) →
  ∃ rows items w',
    get_appointments ext doctor_id status w
    = (Return (jsonify {[ "appointments" := JArr items ]} 200), w')
    ∧ Forall2 (shows_appointment ext) rows items
    ∧ released w w'
    ∧ (∀ r, r ∈ rows ↔
            r.1 ∈ tbl_appointments (committed w)
            ∧ joined (committed w) r
            ∧ matches_filters ext doctor_id status r.1)
    ∧ (∀ a, (∀ d, d ∈ tbl_doctors (committed w)
                  → doctors.id d ≠ appointments.doctor_id a)
            → a ∉ rows.*1).
Proof.
  intros Hdoctor Hstatus Hup.
  destruct (where_doctor_spec ext doctor_id Hdoctor) as (f & Hf & _).
  destruct (where_status_spec ext status Hstatus) as (g & Hg & _).
  destruct (get_appointments_run doctor_id status f g w Hf Hg Hup)
    as (w' & Hrun & Hstore & Hconns).
  eexists _, _, w'.
  split_and!; [exact Hrun| |by apply released_closed| |].
  - apply shown_list, appointment_json_shows.
  - intros r. by apply listed_rows.
  - intros a Horphan (r & -> & Hr)%list_elem_of_fmap.
    apply (listed_rows doctor_id status f g) in Hr as (_ & [Hd Hid] & _);
      [|done..].
    by destruct (Horphan r.2).
Qed.

(** X12.  [get_appointments] never writes: on every path the committed
    store and the id sequence are as they were. *)
Theorem get_appointments_never_writes doctor_id status w :
  let w' := (get_appointments ext doctor_id status w).2 in
  committed w' = committed w
  ∧ appointments_id_seq w' = appointments_id_seq w.
Proof.
  assert (∃ o w', get_appointments ext doctor_id status w = (o, w')
                  ∧ committed w' = committed w
                  ∧ appointments_id_seq w' = appointments_id_seq w)
    as (o & w' & -> & Hstore & Hseq); [|done].
  unfold get_appointments, try_except.
  unfold bind at 1. rewrite get_db_connection_run. simpl.
  destruct (hd false (faults w)); simpl; [by eexists _, _|].
  unfold bind at 1. erewrite execute_run by reflexivity. simpl.
  destruct (hd false (tail (faults w))); simpl; [by eexists _, _|].
  destruct (select_appointments _ _ _ _ _) as [[rows s]|]; simpl;
    by eexists _, _.
Qed.

(** X13.  With the store up and a session id that driver and store
    take, [get_chat_history] answers 200 with one element per turn of that
    session and none for any other, each showing the message, the reply
    and the time of its turn, the oldest first; it writes nothing and
    closes its connection. *)
Theorem get_chat_history_lists session_id w :
  takes_text ext "session_id" session_id →
  no_outage 2 (faults w) →
  ∃ rows items w',
    get_chat_history ext session_id w
    = (Return (jsonify {[ "history" := JArr items ]} 200), w')
    ∧ Forall2 (shows_turn ext) rows items
    ∧ rows ≡ₚ filter (λ r, chat_history.session_id r = Some session_id)
                (tbl_chat_history (committed w))
    ∧ StronglySorted created_asc rows
    ∧ committed w' = committed w
    ∧ released w w'.
Proof.
  intros Hsid (Hf1 & Hf2 & _).
  eexists _, _, _. split_and!.
  - unfold get_chat_history. apply try_except_return.
    run_normal ltac:(rewrite get_db_connection_run, Hf1; reflexivity).
    run_normal ltac:(
      erewrite (execute_run (conns w) (committed w)) by reflexivity;
      simpl; rewrite Hf2; unfold select_history; rewrite Hsid;
      reflexivity).
    run_normal ltac:(erewrite (close_run (conns w)) by reflexivity; reflexivity).
    reflexivity.
  - apply shown_list, history_json_shows.
  - apply merge_sort_Permutation.
  - apply StronglySorted_merge_sort; apply _.
  - done.
  - by apply released_closed.
Qed.
End reading.

(** ** The chat relay *)

Section chat_paths.
Variable ext : Externals.

(** The write of the exchange leaves doctors and appointments alone, and
    commits one new turn or nothing. *)
Lemma save_chat_history_effect session_id user_message bot_response w :
  ∃ w',
    save_chat_history ext session_id user_message bot_response w
    = (Normal tt, w')
    ∧ tbl_doctors (committed w') = tbl_doctors (committed w)
    ∧ tbl_appointments (committed w') = tbl_appointments (committed w)
    ∧ (tbl_chat_history (committed w') = tbl_chat_history (committed w)
       ∨ ∃ sid,
           sql_text ext "session_id" session_id = Some sid
           ∧ tbl_chat_history (committed w')
             = tbl_chat_history (committed w) ++
                 [chat_history.mk sid user_message bot_response
                    (current_timestamp w)]).
Proof.
  unfold save_chat_history, try_except.
  unfold bind at 1. rewrite get_db_connection_run. simpl.
  destruct (hd false (faults w)); [eexists; split_and!; eauto|].
  unfold bind at 1. erewrite execute_run by reflexivity. simpl.
  destruct (hd false (tail (faults w))); [eexists; split_and!; eauto|].
  unfold insert_chat_row.
  destruct (sql_text ext "session_id" session_id) as [sid|]; simpl;
    [|eexists; split_and!; eauto].
  destruct (sql_str ext "user_message" user_message) as [um|] eqn:Hum; simpl;
    [|eexists; split_and!; eauto].
  apply sql_str_takes in Hum as [-> _].
  destruct (sql_str ext "bot_response" bot_response) as [br|] eqn:Hbr; simpl;
    [|eexists; split_and!; eauto].
  apply sql_str_takes in Hbr as [-> _].
  unfold bind at 1. erewrite commit_run by reflexivity. simpl.
  destruct (hd false (tail (tail (faults w))));
    [eexists; split_and!; eauto|].
  erewrite close_run by reflexivity.
  eexists. split_and!; [reflexivity|done|done|].
  right. by exists sid.
Qed.

(** The run of a chat that reaches the model and the store. *)
Lemma chat_success_run uuid4 gemini m msg text sid w :
  default (JStr "") (m !! "message") = JStr msg →
  str_strip ext msg ≠ ""%string →
  gemini (str_strip ext msg) = ReplyText text →
  sql_text ext "session_id" (default (JStr uuid4) (m !! "session_id"))
  = Some sid →
  takes_text ext "user_message" (str_strip ext msg) →
  takes_text ext "bot_response" (or_fallback text) →
  no_outage 3 (faults w) →
  ∃ w',
    chat ext uuid4 gemini (JObj m) w
    = (Return
         (jsonify
            (<["response" := JStr (or_fallback text)]>
             (<["session_id" := default (JStr uuid4) (m !! "session_id")]>
              (<["timestamp" := JStr "now"]> ∅)))
            200), w')
    ∧ committed w'
      = mkStore (tbl_doctors (committed w)) (tbl_appointments (committed w))
          (tbl_chat_history (committed w) ++
             [chat_history.mk sid (str_strip ext msg) (or_fallback text)
                (current_timestamp w)])
    ∧ conns w' = conns w ++ [Closed]
    ∧ faults w' = tail (tail (tail (faults w))).
Proof.
  intros Hmsg Hnonblank Hreply Hsid Hum Hbr (Hf1 & Hf2 & Hf3 & _).
  apply String.eqb_neq in Hnonblank.
  eexists. split.
  - unfold chat. apply try_except_return.
    run_normal ltac:(unfold dict_get; rewrite Hmsg; reflexivity).
    run_normal ltac:(reflexivity).
    run_normal ltac:(reflexivity).
    rewrite Hnonblank.
    run_normal ltac:(unfold generate_content; rewrite Hreply; reflexivity).
    run_normal ltac:(
      unfold save_chat_history, try_except;
      erewrite bind_normal;
        [|rewrite get_db_connection_run, Hf1; reflexivity];
      cbv beta;
      erewrite bind_normal;
        [|erewrite (execute_run (conns w) (committed w)) by reflexivity;
          simpl; rewrite Hf2; unfold insert_chat_row;
          rewrite Hsid; simpl; rewrite Hum; simpl; rewrite Hbr;
          simpl; reflexivity];
      cbv beta;
      erewrite bind_normal;
        [|erewrite (commit_run (conns w)) by reflexivity;
          simpl; rewrite Hf3; reflexivity];
      cbv beta;
      erewrite (close_run (conns w)) by reflexivity; reflexivity).
    reflexivity.
  - simpl. by split_and!.
Qed.

(** X14.  A message that is absent, empty or white space only is
    answered 400 whatever the model would say, and the world is not
    touched: neither the model nor the store is reached. *)
Theorem chat_blank_message uuid4 gemini m msg w :
  default (JStr "") (m !! "message") = JStr msg →
  str_strip ext msg = ""%string →
  chat ext uuid4 gemini (JObj m) w
  = (Return (jsonify (error_body "Message is required") 400), w).
Proof.
  intros Hmsg Hblank. unfold chat. apply try_except_return.
  run_normal ltac:(unfold dict_get; rewrite Hmsg; reflexivity).
  run_normal ltac:(reflexivity).
  run_normal ltac:(reflexivity).
  by rewrite Hblank.
Qed.

(** X15.  A body that is not an object, or a message that is not text
    (a number, [null], a list), has no [get] or no [strip]: the answer is
    500 with the retry message whatever the model would say, and apart
    from the log the world is not touched. *)
Theorem chat_message_not_text uuid4 gemini data w :
  (∀ m s, data = JObj m → default (JStr "") (m !! "message") ≠ JStr s) →
  chat ext uuid4 gemini data w
  = (Return
       (jsonify
          (error_body "Failed to process your message. Please try again.")
          500),
     set_log (log w ++ [("Chat error"%string, AttributeError)]) w).
Proof.
  intros Hdata. unfold chat.
  erewrite try_except_caught; [reflexivity| |reflexivity].
  destruct data as [| | | | |m]; try (by apply bind_raise).
  run_normal ltac:(reflexivity).
  apply bind_raise. unfold strip.
  destruct (default (JStr "") (m !! "message")) as [| | |s| |] eqn:Hm;
    try reflexivity.
  by destruct (Hdata m s).
Qed.

(** X16.  A chat that reaches the model, with the store up and a
    session id, a message and a reply that driver and store take, appends
    exactly one turn: the session id as the store reads it, the stripped
    message, the text that is answered, the store's current time.  Doctors
    and appointments are as they were and the connection is closed. *)
Theorem chat_stores_turn uuid4 gemini m msg text sid w :
  default (JStr "") (m !! "message") = JStr msg →
  str_strip ext msg ≠ ""%string →
  gemini (str_strip ext msg) = ReplyText text →
  sql_text ext "session_id" (default (JStr uuid4) (m !! "session_id"))
  = Some sid →
  takes_text ext "user_message" (str_strip ext msg) →
  takes_text ext "bot_response" (or_fallback text) →
  no_outage 3 (faults w) →
  ∃ r w',
    chat ext uuid4 gemini (JObj m) w = (Return r, w')
    ∧ status_code r = 200
    ∧ tbl_chat_history (committed w')
      = tbl_chat_history (committed w) ++
          [chat_history.mk sid (str_strip ext msg) (or_fallback text)
             (current_timestamp w)]
    ∧ tbl_doctors (committed w') = tbl_doctors (committed w)
    ∧ tbl_appointments (committed w') = tbl_appointments (committed w)
    ∧ released w w'.
Proof.
  intros Hmsg Hnonblank Hreply Hsid Hum Hbr Hup.
  destruct (chat_success_run uuid4 gemini m msg text sid w)
    as (w' & Hrun & Hstore & Hconns & _); [done..|].
  eexists _, w'. rewrite Hstore. split_and!; try done.
  by apply released_closed.
Qed.

(** X17.  Whatever the request, the model and the store do, [chat] ends
    with an answer, never writes doctors or appointments, and adds one
    chat turn at most. *)
Theorem chat_writes_one_turn_at_most uuid4 gemini data w :
  ∃ r w',
    chat ext uuid4 gemini data w = (Return r, w')
    ∧ tbl_doctors (committed w') = tbl_doctors (committed w)
    ∧ tbl_appointments (committed w') = tbl_appointments (committed w)
    ∧ (tbl_chat_history (committed w') = tbl_chat_history (committed w)
       ∨ ∃ turn,
           tbl_chat_history (committed w')
           = tbl_chat_history (committed w) ++ [turn]).
Proof.
  unfold chat, try_except.
  destruct data as [| | | | |m];
    try solve [unfold bind, dict_get, raise, logging_error, modify, return_;
               simpl; eexists _, _; split_and!; eauto].
  unfold bind at 1, dict_get, ret.
  destruct (default (JStr "") (m !! "message")) as [| | |msg| |];
    try solve [unfold bind, strip, raise, logging_error, modify, return_;
               simpl; eexists _, _; split_and!; eauto].
  unfold bind at 1, strip, ret.
  unfold bind at 1.
  destruct (str_strip ext msg =? "")%string;
    [unfold return_; eexists _, _; split_and!; eauto|].
  unfold bind at 1, generate_content.
  destruct (gemini (str_strip ext msg)) as [text|];
    [|unfold raise, bind, logging_error, modify, return_; simpl;
      eexists _, _; split_and!; eauto].
  unfold ret.
  destruct (save_chat_history_effect
              (default (JStr uuid4) (m !! "session_id"))
              (str_strip ext msg) (or_fallback text) w)
    as (w1 & Hsave & Hdocs & Happts & Hturns).
  unfold bind at 1. rewrite Hsave. unfold return_.
  eexists _, _. split_and!; [reflexivity|done|done|].
  destruct Hturns as [?|(sid & _ & ?)]; [by left|right; by eexists].
Qed.
End chat_paths.

(** ** Writing, then reading *)

Lemma shown_elem {A} (shows : A → json → Prop) l items x :
  Forall2 shows l items → x ∈ l → ∃ j, j ∈ items ∧ shows x j.
Proof.
  intros Hall (i & Hi)%list_elem_of_lookup.
  destruct (Forall2_lookup_l _ _ _ _ _ Hall Hi) as (j & Hj & Hshows).
  exists j. split; [|done]. by eapply list_elem_of_lookup_2.
Qed.

Section round_trips.
Variable ext : Externals.

Lemma get_chat_history_run session_id w :
  takes_text ext "session_id" session_id →
  no_outage 2 (faults w) →
  ∃ w',
    get_chat_history ext session_id w
    = (Return
         (jsonify
            {[ "history" :=
                 JArr (history_json ext <$>
                         merge_sort created_asc
                           (filter
                              (λ r, chat_history.session_id r = Some session_id)
                              (tbl_chat_history (committed w)))) ]}
            200), w').
Proof.
  intros Hsid (Hf1 & Hf2 & _).
  eexists. unfold get_chat_history. apply try_except_return.
  run_normal ltac:(rewrite get_db_connection_run, Hf1; reflexivity).
  run_normal ltac:(
    erewrite (execute_run (conns w) (committed w)) by reflexivity;
    simpl; rewrite Hf2; unfold select_history; rewrite Hsid; reflexivity).
  run_normal ltac:(erewrite (close_run (conns w)) by reflexivity; reflexivity).
  reflexivity.
Qed.

(** X18.  A chat under a text session id, with the store up and texts
    that driver and store take, followed by the history of that id,
    whatever has happened in between to the clock, the connections and the
    outages ahead, as long as the committed store is the one the chat left
    and the store is up: the history has an element for each turn the
    session had before and for the turn just written, each showing the
    message, the reply and the time of its turn, the oldest first. *)
Theorem chat_then_history uuid4 gemini m msg text sid w :
  default (JStr "") (m !! "message") = JStr msg →
  str_strip ext msg ≠ ""%string →
  gemini (str_strip ext msg) = ReplyText text →
  default (JStr uuid4) (m !! "session_id") = JStr sid →
  takes_text ext "session_id" sid →
  takes_text ext "user_message" (str_strip ext msg) →
  takes_text ext "bot_response" (or_fallback text) →
  no_outage 3 (faults w) →
  ∃ r w1,
    chat ext uuid4 gemini (JObj m) w = (Return r, w1)
    ∧ status_code r = 200
    ∧ ∀ w2,
        committed w2 = committed w1 →
        no_outage 2 (faults w2) →
        ∃ rows items w3,
          get_chat_history ext sid w2
          = (Return (jsonify {[ "history" := JArr items ]} 200), w3)
          ∧ Forall2 (shows_turn ext) rows items
          ∧ StronglySorted created_asc rows
          ∧ rows ≡ₚ filter (λ r, chat_history.session_id r = Some sid)
                      (tbl_chat_history (committed w)) ++
                    [chat_history.mk (Some sid) (str_strip ext msg)
                       (or_fallback text) (current_timestamp w)]
          ∧ ∃ j, j ∈ items
                 ∧ shows_turn ext
                     (chat_history.mk (Some sid) (str_strip ext msg)
                        (or_fallback text) (current_timestamp w)) j.
Proof.
  intros Hmsg Hnonblank Hreply Hsid Hsidtext Hum Hbr Hup.
  destruct (chat_success_run ext uuid4 gemini m msg text (Some sid) w)
    as (w1 & Hrun & Hstore & _);
    [done|done|done|by rewrite Hsid; simpl; rewrite Hsidtext|done|done|done|].
  eexists _, w1. split_and!; [exact Hrun|done|].
  intros w2 Hw2 Hup2.
  destruct (get_chat_history_run sid w2 Hsidtext Hup2) as [w3 Hhistory].
  assert (merge_sort created_asc
            (filter (λ r, chat_history.session_id r = Some sid)
               (tbl_chat_history (committed w2)))
          ≡ₚ filter (λ r, chat_history.session_id r = Some sid)
               (tbl_chat_history (committed w)) ++
             [chat_history.mk (Some sid) (str_strip ext msg)
                (or_fallback text) (current_timestamp w)]) as Hrows.
  { rewrite merge_sort_Permutation, Hw2, Hstore. simpl.
    rewrite filter_app. by rewrite filter_cons_True by done. }
  assert (Forall2 (shows_turn ext)
            (merge_sort created_asc
               (filter (λ r, chat_history.session_id r = Some sid)
                  (tbl_chat_history (committed w2))))
            (history_json ext <$>
               merge_sort created_asc
                 (filter (λ r, chat_history.session_id r = Some sid)
                    (tbl_chat_history (committed w2))))) as Hshown
    by apply shown_list, history_json_shows.
  eexists _, _, w3. split_and!; [exact Hhistory|exact Hshown| |exact Hrows|].
  - apply StronglySorted_merge_sort; apply _.
  - apply (shown_elem _ _ _ _ Hshown). rewrite Hrows.
    apply elem_of_app. right. apply list_elem_of_here.
Qed.

(** X19.  A booking that succeeds, followed by a list whose filters the
    new appointment passes (its doctor, the status [pending], or none) and
    the store can read, whatever has happened in between to the clock, the
    connections and the outages ahead, as long as the committed store is
    the one the booking left and the store is up: the new row is in the
    list, paired with a doctor of the id it was booked for, and an element
    of the answer shows its fields with the name and specialization of
    that doctor. *)
Theorem book_then_list m w dv ds ts n d t pn pe pp r doctor_filter status_filter :
  passes_checks ext m w dv ds ts →
  targets ext dv ds ts n d t →
  stores_fields ext m pn pe pp r →
  verified n (committed w) →
  ¬ occupied n d t (committed w) →
  fresh_id w →
  filter_allows doctor_filter (λ v, sql_int ext (JStr v) = Some n) →
  filter_allows status_filter
    (λ v, v = "pending"%string ∧ takes_text ext "status" v) →
  no_outage 5 (faults w) →
  ∃ r1 w1 doc,
    book_appointment ext (JObj m) w = (Return r1, w1)
    ∧ status_code r1 = 200
    ∧ doc ∈ tbl_doctors (committed w)
    ∧ doctors.id doc = n
    ∧ ∀ w2,
        committed w2 = committed w1 →
        no_outage 2 (faults w2) →
        ∃ rows items w3,
          get_appointments ext doctor_filter status_filter w2
          = (Return (jsonify {[ "appointments" := JArr items ]} 200), w3)
          ∧ Forall2 (shows_appointment ext) rows items
          ∧ (booked_row w pn pe pp n d t r, doc) ∈ rows
          ∧ ∃ j, j ∈ items
                 ∧ shows_appointment ext
                     (booked_row w pn pe pp n d t r, doc) j.
Proof.
  intros Hchecks Htargets Hfields Hver Hfree Hfresh Hdf Hsf Hup.
  destruct (book_appointment_success_run ext m w dv ds ts n d t pn pe pp r)
    as (doc & w1 & Hrun & (Hdoc & Hid & _) & Hstore & _); [done..|].
  destruct (where_doctor_spec ext doctor_filter) as (f & Hf & _).
  { destruct doctor_filter as [v|]; simpl in *; [|done].
    intros Hv. rewrite (Hdf Hv). by eexists. }
  destruct (where_status_spec ext status_filter) as (g & Hg & _).
  { destruct status_filter as [v|]; simpl in *; [|done].
    intros Hv. by apply Hsf. }
  eexists _, w1, doc. split_and!; [exact Hrun|done|exact Hdoc|exact Hid|].
  intros w2 Hw2 Hup2.
  destruct (get_appointments_run ext doctor_filter status_filter f g w2 Hf Hg
              Hup2) as (w3 & Hlist & _).
  assert ((booked_row w pn pe pp n d t r, doc)
          ∈ merge_sort date_time_desc (g (f (join_doctors (committed w2)))))
    as Hin.
  { apply (listed_rows ext doctor_filter status_filter f g); [done..|].
    rewrite Hw2, Hstore. simpl. split_and!.
    - apply elem_of_app. right. apply list_elem_of_here.
    - by split.
    - split.
      + destruct doctor_filter as [v|]; simpl in *; [|done].
        intros Hv. by apply Hdf.
      + destruct status_filter as [v|]; simpl in *; [|done].
        intros Hv. by destruct (Hsf Hv) as [-> _]. }
  assert (Forall2 (shows_appointment ext)
            (merge_sort date_time_desc (g (f (join_doctors (committed w2)))))
            (appointment_json ext <$>
               merge_sort date_time_desc
                 (g (f (join_doctors (committed w2)))))) as Hshown
    by apply shown_list, appointment_json_shows.
  eexists _, _, w3. split_and!; [exact Hlist|exact Hshown|exact Hin|].
  by apply (shown_elem _ _ _ _ Hshown).
Qed.
End round_trips.

(** ** Freeing a slot *)

Lemma filter_fmap_le {A} (P : A → Prop) `{!∀ x, Decision (P x)}
    (f : A → A) (l : list A) :
  (∀ x, P (f x) → f x = x) →
  (length (filter P (f <$> l)) ≤ length (filter P l))%nat.
Proof.
  intros Hf. induction l as [|x l IH]; [done|].
  rewrite fmap_cons. destruct (decide (P (f x))) as [HP|HP].
  - rewrite filter_cons_True by done. rewrite (Hf x HP) in HP.
    rewrite (filter_cons_True _ x) by done. simpl. lia.
  - rewrite filter_cons_False by done.
    destruct (decide (P x)).
    + rewrite (filter_cons_True _ x) by done. simpl. lia.
    + by rewrite (filter_cons_False _ x).
Qed.

Lemma inactive_status s a nt ts :
  s ∈ ["cancelled"; "completed"]%string → ¬ active (rewritten s nt ts a).
Proof. intros Hs Hact. by apply Hact. Qed.

Section freeing.
Variable ext : Externals.

(** The run of a valid update of a stored appointment, with the world it
    leaves. *)
Lemma update_appointment_success_run appointment_id m s nt w :
  m !! "status" = Some (JStr s) →
  s ∈ valid_statuses →
  sql_text ext "notes" (default (JStr "") (m !! "notes")) = Some nt →
  (∃ a, a ∈ tbl_appointments (committed w)
        ∧ appointments.id a = appointment_id) →
  no_outage 3 (faults w) →
  ∃ w',
    update_appointment ext appointment_id (JObj m) w
    = (Return
         (jsonify {[ "message" := JStr "Appointment updated successfully" ]}
            200), w')
    ∧ committed w'
      = mkStore (tbl_doctors (committed w))
          ((λ a, if decide (appointments.id a = appointment_id)
                 then rewritten s nt (current_timestamp w) a else a)
             <$> tbl_appointments (committed w))
          (tbl_chat_history (committed w))
    ∧ clock w' = clock w
    ∧ appointments_id_seq w' = appointments_id_seq w
    ∧ current_timestamp w' = current_timestamp w
    ∧ faults w' = tail (tail (tail (faults w))).
Proof.
  intros Hs Hvalid Hnotes (a & Ha & Hid) (Hf1 & Hf2 & Hf3 & _).
  destruct (head_filter_found
              (λ a, appointments.id a = appointment_id)
              (tbl_appointments (committed w)) a Ha Hid) as [a' Hhead].
  unfold update_appointment.
  eexists. split.
  - apply try_except_return.
    run_normal ltac:(unfold dict_get; rewrite Hs; reflexivity).
    run_normal ltac:(unfold dict_get; reflexivity).
    simpl. rewrite bool_decide_eq_true_2 by done. simpl.
    run_normal ltac:(rewrite get_db_connection_run, Hf1; reflexivity).
    unfold try_finally.
    erewrite try_except_return; cycle 1.
    + run_normal ltac:(
        erewrite (execute_run (conns w) (committed w)) by reflexivity;
        simpl; rewrite Hf2; unfold update_appointment_row;
        rewrite (valid_statuses_no_nul s Hvalid), Hnotes; simpl; reflexivity).
      rewrite Hhead. simpl.
      run_normal ltac:(
        erewrite (commit_run (conns w)) by reflexivity;
        simpl; rewrite Hf3; reflexivity).
      reflexivity.
    + erewrite close_run by reflexivity. reflexivity.
  - simpl. by split_and!.
Qed.

(** X23.  Cancelling (or completing) the appointment that holds a slot
    frees the slot.  The update, with notes that driver and store take and
    no outage, is answered 200; and a booking of that slot that follows,
    whatever has happened in between to the clock, the sequence, the
    connections and the outages ahead, as long as the committed store is
    the one the update left, the request passes the checks at the new
    clock, its text fields are taken, the sequence value is the id of no
    stored appointment and the store is up, is answered 200 as well and
    appends its row. *)
Theorem cancel_then_book appointment_id mu s nt m w dv ds ts n d t pn pe pp r :
  mu !! "status" = Some (JStr s) →
  s ∈ ["cancelled"; "completed"]%string →
  sql_text ext "notes" (default (JStr "") (mu !! "notes")) = Some nt →
  (∃ a, a ∈ tbl_appointments (committed w)
        ∧ appointments.id a = appointment_id) →
  (∀ a, a ∈ tbl_appointments (committed w) → at_slot n d t a → active a
        → appointments.id a = appointment_id) →
  targets ext dv ds ts n d t →
  stores_fields ext m pn pe pp r →
  verified n (committed w) →
  no_outage 3 (faults w) →
  ∃ r1 w1,
    update_appointment ext appointment_id (JObj mu) w = (Return r1, w1)
    ∧ status_code r1 = 200
    ∧ ∀ w2,
        committed w2 = committed w1 →
        passes_checks ext m w2 dv ds ts →
        fresh_id w2 →
        no_outage 5 (faults w2) →
        ∃ r2 w3,
          book_appointment ext (JObj m) w2 = (Return r2, w3)
          ∧ status_code r2 = 200
          ∧ tbl_appointments (committed w3)
            = tbl_appointments (committed w1) ++
                [booked_row w2 pn pe pp n d t r]
          ∧ length (tbl_appointments (committed w3))
            = S (length (tbl_appointments (committed w))).
Proof.
  intros Hs Hinactive Hnotes Hstored Hholder Htargets Hfields Hver Hup.
  assert (s ∈ valid_statuses) as Hvalid.
  { unfold valid_statuses.
    apply elem_of_cons in Hinactive as [->|Hinactive].
    - do 3 apply list_elem_of_further. apply list_elem_of_here.
    - apply list_elem_of_singleton in Hinactive as ->.
      do 2 apply list_elem_of_further. apply list_elem_of_here. }
  destruct (update_appointment_success_run appointment_id mu s nt w)
    as (w1 & Hrun1 & Hstore1 & _); [done..|].
  eexists _, w1. split_and!; [exact Hrun1|done|].
  intros w2 Hw2 Hchecks Hfresh Hup2.
  destruct (book_appointment_success_run ext m w2 dv ds ts n d t pn pe pp r)
    as (doc & w3 & Hrun2 & _ & Hstore2 & _); try done.
  - rewrite Hw2, Hstore1. destruct Hver as (doc0 & ? & ? & ?). by exists doc0.
  - rewrite Hw2, Hstore1. simpl.
    intros (a' & (a & -> & Ha)%list_elem_of_fmap & Hslot & Hact).
    destruct (decide (appointments.id a = appointment_id)) as [Hid|Hid].
    + by apply (inactive_status s a nt (current_timestamp w)) in Hact.
    + apply Hid. by apply Hholder.
  - eexists _, w3. split_and!; [exact Hrun2|done| |].
    + by rewrite Hstore2, Hw2.
    + rewrite Hstore2, Hw2, Hstore1. simpl.
      rewrite length_app, length_fmap. simpl. lia.
Qed.

(** X24.  An update to [cancelled] or [completed] never breaks the rule
    of one active appointment per slot, on any path. *)
Theorem update_to_inactive_keeps_unique_active appointment_id m s w :
  m !! "status" = Some (JStr s) →
  s ∈ ["cancelled"; "completed"]%string →
  unique_active (committed w) →
  unique_active (committed (update_appointment ext appointment_id (JObj m) w).2).
Proof.
  intros Hs Hinactive Huniq.
  assert (∃ r w',
            update_appointment ext appointment_id (JObj m) w = (Return r, w')
            ∧ (committed w' = committed w
               ∨ ∃ nt,
                   committed w'
                   = mkStore (tbl_doctors (committed w))
                       ((λ a, if decide (appointments.id a = appointment_id)
                              then rewritten s nt (current_timestamp w) a
                              else a)
                          <$> tbl_appointments (committed w))
                       (tbl_chat_history (committed w))))
    as (r & w' & -> & Hstore).
  { destruct (update_appointment_effect ext appointment_id (JObj m) w)
      as (r & w' & Hrun & [?|[_ (st & nt & Hst & ?)]]); [by eauto|].
    specialize (Hst m eq_refl). rewrite Hs in Hst. simpl in Hst.
    injection Hst as <-. by eauto 10. }
  simpl. destruct Hstore as [->|[nt ->]]; [done|].
  intros n d t. simpl.
  etrans; [|apply (Huniq n d t)].
  apply filter_fmap_le. intros a [_ Hact].
  destruct (decide (appointments.id a = appointment_id)); [|done].
  by apply (inactive_status s a nt (current_timestamp w)) in Hact.
Qed.
End freeing.

(** ** Statements the driver or the store refuses *)

Section refusals.
Variable ext : Externals.

(** The insert of a booking whose text fields are not all taken. *)
Lemma insert_appointment_row_refused b m n d t w s :
  patient_name b = default JNull (m !! "patient_name") →
  patient_email b = default JNull (m !! "patient_email") →
  patient_phone b = default (JStr "") (m !! "patient_phone") →
  reason b = default (JStr "") (m !! "reason") →
  sql_int ext (doctor_id b) = Some n →
  pg_date ext (appointment_date b) = Some d →
  pg_time ext (appointment_time b) = Some t →
  (∀ pn pe pp r, ¬ stores_fields ext m pn pe pp r) →
  insert_appointment_row ext (patient_name b) (patient_email b)
    (patient_phone b) (doctor_id b) (appointment_date b) (appointment_time b)
    (reason b) w s = None.
Proof.
  intros Hbn Hbe Hbp Hbr Hn Hd Ht Hrefused.
  unfold insert_appointment_row. rewrite Hbn, Hbe, Hbp, Hbr, Hn, Hd, Ht.
  destruct (sql_text ext "patient_name" _) as [pn|] eqn:Hpn; simpl; [|done].
  destruct (sql_text ext "patient_email" _) as [pe|] eqn:Hpe; simpl; [|done].
  destruct (sql_text ext "patient_phone" _) as [pp|] eqn:Hpp; simpl; [|done].
  destruct (sql_text ext "reason" _) as [r|] eqn:Hr; simpl; [|done].
  by destruct (Hrefused pn pe pp r).
Qed.

(** X25.  A booking that passes the checks, for a free slot of a verified
    doctor, with a text field that driver or store do not take (a name
    that holds U+0000, say): the insert raises, the transaction is rolled
    back, and the answer is 500 with the booking message; nothing is
    stored, the error is logged and the connection is closed. *)
Theorem book_appointment_refused_text m w dv ds ts n d t :
  passes_checks ext m w dv ds ts →
  targets ext dv ds ts n d t →
  verified n (committed w) →
  ¬ occupied n d t (committed w) →
  (∀ pn pe pp r, ¬ stores_fields ext m pn pe pp r) →
  no_outage 5 (faults w) →
  ∃ w',
    book_appointment ext (JObj m) w
    = (Return (jsonify (error_body "Failed to book appointment") 500), w')
    ∧ committed w' = committed w
    ∧ released w w'
    ∧ log w'
      = log w ++ [("Database error in book_appointment"%string, DatabaseError)].
Proof.
  intros Hchecks (Hn & Hsd & Hst) (doc0 & Hdoc0 & Hid0 & Hver0) Hfree
    Hrefused (Hf1 & Hf2 & Hf3 & Hf4 & Hf5 & _).
  destruct (validate_booking_passes ext m w dv ds ts Hchecks)
    as (b & Hb & Hbd & Hbdate & Hbtime & Hbn & Hbe & Hbp & Hbr).
  destruct (head_filter_found
              (λ d, doctors.id d = n ∧ doctors.is_verified d = true)
              (tbl_doctors (committed w)) doc0 Hdoc0 (conj Hid0 Hver0))
    as [doc Hdoc].
  assert (head (filter (λ a, at_slot n d t a ∧ active a)
                  (tbl_appointments (committed w))) = None) as Hnone.
  { apply head_filter_none. intros a Ha [Hslot Hact]. apply Hfree.
    by exists a. }
  eexists. split.
  - unfold book_appointment. apply try_except_return.
    run_normal ltac:(exact Hb).
    run_normal ltac:(rewrite get_db_connection_run, Hf1; reflexivity).
    unfold try_finally.
    erewrite try_except_caught; [| |reflexivity]; cycle 1.
    + unfold book_transaction.
      run_normal ltac:(
        erewrite (execute_run (conns w) (committed w)) by reflexivity;
        simpl; rewrite Hf2; unfold select_verified_doctor;
        rewrite Hbd, Hn; simpl; rewrite Hdoc; reflexivity).
      simpl.
      run_normal ltac:(
        erewrite (execute_run (conns w) (committed w)) by reflexivity;
        simpl; rewrite Hf3; unfold select_conflict;
        rewrite Hbd, Hbdate, Hbtime, Hn, Hsd, Hst; simpl;
        rewrite Hnone; reflexivity).
      simpl.
      apply bind_raise. unfold insert_appointment. apply bind_raise.
      erewrite (execute_run (conns w) (committed w)) by reflexivity.
      simpl. rewrite Hf4.
      rewrite (insert_appointment_row_refused b m n d t);
        [reflexivity|try done..].
      * by rewrite Hbd.
      * by rewrite Hbdate.
      * by rewrite Hbtime.
    + run_normal ltac:(
        erewrite (rollback_run (conns w)) by reflexivity;
        simpl; rewrite Hf5; reflexivity).
      run_normal ltac:(reflexivity).
      unfold return_.
      erewrite close_run by reflexivity. reflexivity.
  - simpl. split_and!; [done| |done]. by apply released_closed.
Qed.

(** X26.  A booking that passes the checks, for a free slot of a verified
    doctor, when the next value of the sequence is the id of a stored
    appointment: the insert is refused for the key, the transaction is
    rolled back, and the answer is 500 with the booking message; nothing
    is stored, the connection is closed, and the sequence has moved on by
    one, so that the value is not drawn again. *)
Theorem book_appointment_duplicate_key m w dv ds ts n d t pn pe pp r :
  passes_checks ext m w dv ds ts →
  targets ext dv ds ts n d t →
  stores_fields ext m pn pe pp r →
  verified n (committed w) →
  ¬ occupied n d t (committed w) →
  ¬ fresh_id w →
  no_outage 5 (faults w) →
  ∃ w',
    book_appointment ext (JObj m) w
    = (Return (jsonify (error_body "Failed to book appointment") 500), w')
    ∧ committed w' = committed w
    ∧ appointments_id_seq w' = appointments_id_seq w + 1
    ∧ released w w'.
Proof.
  intros Hchecks (Hn & Hsd & Hst) (Hpn & Hpe & Hpp & Hr)
    (doc0 & Hdoc0 & Hid0 & Hver0) Hfree Htaken
    (Hf1 & Hf2 & Hf3 & Hf4 & Hf5 & _).
  apply dec_stable in Htaken.
  destruct (validate_booking_passes ext m w dv ds ts Hchecks)
    as (b & Hb & Hbd & Hbdate & Hbtime & Hbn & Hbe & Hbp & Hbr).
  destruct (head_filter_found
              (λ d, doctors.id d = n ∧ doctors.is_verified d = true)
              (tbl_doctors (committed w)) doc0 Hdoc0 (conj Hid0 Hver0))
    as [doc Hdoc].
  assert (head (filter (λ a, at_slot n d t a ∧ active a)
                  (tbl_appointments (committed w))) = None) as Hnone.
  { apply head_filter_none. intros a Ha [Hslot Hact]. apply Hfree.
    by exists a. }
  eexists. split.
  - unfold book_appointment. apply try_except_return.
    run_normal ltac:(exact Hb).
    run_normal ltac:(rewrite get_db_connection_run, Hf1; reflexivity).
    unfold try_finally.
    erewrite try_except_caught; [| |reflexivity]; cycle 1.
    + unfold book_transaction.
      run_normal ltac:(
        erewrite (execute_run (conns w) (committed w)) by reflexivity;
        simpl; rewrite Hf2; unfold select_verified_doctor;
        rewrite Hbd, Hn; simpl; rewrite Hdoc; reflexivity).
      simpl.
      run_normal ltac:(
        erewrite (execute_run (conns w) (committed w)) by reflexivity;
        simpl; rewrite Hf3; unfold select_conflict;
        rewrite Hbd, Hbdate, Hbtime, Hn, Hsd, Hst; simpl;
        rewrite Hnone; reflexivity).
      simpl.
      apply bind_raise. unfold insert_appointment.
      erewrite bind_normal;
        [|erewrite (execute_run (conns w) (committed w)) by reflexivity;
          simpl; rewrite Hf4; unfold insert_appointment_row;
          rewrite Hbn, Hbe, Hbp, Hbr, Hbd, Hbdate, Hbtime,
            Hpn, Hpe, Hpp, Hr, Hn, Hsd, Hst; simpl;
          rewrite decide_True by exact Htaken; reflexivity].
      reflexivity.
    + run_normal ltac:(
        erewrite (rollback_run (conns w)) by reflexivity;
        simpl; rewrite Hf5; reflexivity).
      run_normal ltac:(reflexivity).
      unfold return_.
      erewrite close_run by reflexivity. reflexivity.
  - simpl. split_and!; [done|done|]. by apply released_closed.
Qed.

(** X27.  An update with a valid status whose notes driver or store do
    not take (notes that hold U+0000, say): the statement raises, the
    transaction is rolled back, and the answer is 500 with the update
    message; the committed store is as it was, whether the id is stored or
    not, and the connection is closed. *)
Theorem update_appointment_refused_notes appointment_id m s w :
  m !! "status" = Some (JStr s) →
  s ∈ valid_statuses →
  sql_text ext "notes" (default (JStr "") (m !! "notes")) = None →
  no_outage 3 (faults w) →
  ∃ w',
    update_appointment ext appointment_id (JObj m) w
    = (Return (jsonify (error_body "Failed to update appointment") 500), w')
    ∧ committed w' = committed w
    ∧ released w w'
    ∧ log w'
      = log w ++ [("Database error updating appointment"%string,
                   DatabaseError)].
Proof.
  intros Hs Hvalid Hnotes (Hf1 & Hf2 & Hf3 & _).
  unfold update_appointment.
  eexists. split.
  - apply try_except_return.
    run_normal ltac:(unfold dict_get; rewrite Hs; reflexivity).
    run_normal ltac:(unfold dict_get; reflexivity).
    simpl. rewrite bool_decide_eq_true_2 by done. simpl.
    run_normal ltac:(rewrite get_db_connection_run, Hf1; reflexivity).
    unfold try_finally.
    erewrite try_except_caught; [| |reflexivity]; cycle 1.
    + apply bind_raise.
      erewrite (execute_run (conns w) (committed w)) by reflexivity.
      simpl. rewrite Hf2. unfold update_appointment_row.
      rewrite (valid_statuses_no_nul s Hvalid), Hnotes. reflexivity.
    + run_normal ltac:(
        erewrite (rollback_run (conns w)) by reflexivity;
        simpl; rewrite Hf3; reflexivity).
      run_normal ltac:(reflexivity).
      unfold return_.
      erewrite close_run by reflexivity. reflexivity.
  - simpl. split_and!; [done| |done]. by apply released_closed.
Qed.

(** X28.  A chat that reaches the model, with the store up, whose session
    id, message or reply driver or store do not take (a message that holds
    U+0000, say): the answer is the 200 with the reply all the same, but
    no turn is stored, the failure is logged, and the connection the write
    opened stays open. *)
Theorem chat_refused_text uuid4 gemini m msg text w :
  default (JStr "") (m !! "message") = JStr msg →
  str_strip ext msg ≠ ""%string →
  gemini (str_strip ext msg) = ReplyText text →
  sql_text ext "session_id" (default (JStr uuid4) (m !! "session_id")) = None
  ∨ sql_str ext "user_message" (str_strip ext msg) = None
  ∨ sql_str ext "bot_response" (or_fallback text) = None →
  no_outage 2 (faults w) →
  ∃ w',
    chat ext uuid4 gemini (JObj m) w
    = (Return
         (jsonify
            (<["response" := JStr (or_fallback text)]>
             (<["session_id" := default (JStr uuid4) (m !! "session_id")]>
              (<["timestamp" := JStr "now"]> ∅)))
            200), w')
    ∧ committed w' = committed w
    ∧ leaked w w'
    ∧ log w' = log w ++ [("Failed to save chat history"%string, DatabaseError)].
Proof.
  intros Hmsg Hnonblank Hreply Hrefused (Hf1 & Hf2 & _).
  apply String.eqb_neq in Hnonblank.
  assert (insert_chat_row ext (default (JStr uuid4) (m !! "session_id"))
            (str_strip ext msg) (or_fallback text)
            (set_faults (tail (tail (faults w)))
               (set_conns (conns w ++ [Open (committed w)])
                  (set_faults (tail (faults w)) w)))
            (committed w) = None) as Hrow.
  { unfold insert_chat_row.
    destruct (sql_text ext "session_id" _) as [sid|]; simpl; [|done].
    destruct (sql_str ext "user_message" _) as [um|]; simpl; [|done].
    destruct (sql_str ext "bot_response" _) as [br|]; simpl; [|done].
    by destruct Hrefused as [?|[?|?]]. }
  eexists. split.
  - unfold chat. apply try_except_return.
    run_normal ltac:(unfold dict_get; rewrite Hmsg; reflexivity).
    run_normal ltac:(reflexivity).
    run_normal ltac:(reflexivity).
    rewrite Hnonblank.
    run_normal ltac:(unfold generate_content; rewrite Hreply; reflexivity).
    run_normal ltac:(
      unfold save_chat_history;
      erewrite try_except_caught; [reflexivity| |reflexivity];
      erewrite bind_normal;
        [|rewrite get_db_connection_run, Hf1; reflexivity];
      cbv beta;
      apply bind_raise;
      erewrite (execute_run (conns w) (committed w)) by reflexivity;
      simpl; rewrite Hf2, Hrow; reflexivity).
    reflexivity.
  - simpl. split_and!; [done| |done].
    exists (committed w). simpl. apply lookup_last_handle.
Qed.
End refusals.

(** * The further properties on concrete requests *)

Lemma sample_passes_checks s fs :
  passes_checks Sample.ext Sample.jane_2099 (Sample.world s fs)
    (JInt 3) "2099-01-01" "10:00".
Proof.
  split_and!; [repeat constructor|reflexivity..|].
  exists (mkDate 2099 1 1), Sample.ten. by split_and!.
Defined.

Lemma sample_targets :
  targets Sample.ext (JInt 3) "2099-01-01" "10:00" 3 (mkDate 2099 1 1)
    Sample.ten.
Proof. by split_and!. Defined.

Lemma sample_verified s fs :
  tbl_doctors s = [Sample.dr_grey; Sample.dr_house] →
  verified 3 (committed (Sample.world s fs)).
Proof.
  intros Hs. exists Sample.dr_grey. simpl. rewrite Hs.
  split_and!; [apply list_elem_of_here|reflexivity..].
Defined.

Lemma sample_free fs :
  ¬ occupied 3 (mkDate 2099 1 1) Sample.ten
      (committed (Sample.world Sample.empty_store fs)).
Proof. intros (a & Ha & _). simpl in Ha. by apply elem_of_nil in Ha. Defined.

Lemma sample_passes_checks_at c fs w :
  datetime_le (mkDate 2099 1 1, Sample.ten) c = false →
  passes_checks Sample.ext Sample.jane_2099 (Sample.later c fs w)
    (JInt 3) "2099-01-01" "10:00".
Proof.
  intros Hc. split_and!; [repeat constructor|reflexivity..|].
  exists (mkDate 2099 1 1), Sample.ten. by split_and!.
Defined.

Lemma sample_fields :
  stores_fields Sample.ext Sample.jane_2099
    (Some "Jane Doe"%string) (Some "jane@x.com"%string)
    (Some ""%string) (Some ""%string).
Proof. by split_and!. Defined.

Lemma sample_fresh (w : World) : bool_decide (fresh_id w) = true → fresh_id w.
Proof. apply bool_decide_eq_true_1. Defined.

(** X1 on the request of section 8 and an empty appointment table. *)
Lemma book_appointment_books_witness :
  ∃ doc w',
    book_appointment Sample.ext (JObj Sample.jane_2099) Sample.w0
    = (Return
         (jsonify
            (<["message" := JStr "Appointment booked successfully"]>
             (<["appointment_id" := JInt 1]>
              (<["doctor_name" := JStr (doctors.name doc)]>
               (<["appointment_date" := JStr "2099-01-01"]>
                (<["appointment_time" := JStr "10:00"]> ∅)))))
            200), w')
    ∧ (doc ∈ tbl_doctors (committed Sample.w0) ∧ doctors.id doc = 3
       ∧ doctors.is_verified doc = true)
    ∧ tbl_appointments (committed w')
      = tbl_appointments (committed Sample.w0) ++ [Sample.jane_row 1]
    ∧ tbl_doctors (committed w') = tbl_doctors (committed Sample.w0)
    ∧ tbl_chat_history (committed w') = tbl_chat_history (committed Sample.w0)
    ∧ appointments_id_seq w' = 2
    ∧ released Sample.w0 w'.
Proof.
  apply (book_appointment_books Sample.ext Sample.jane_2099 Sample.w0
           (JInt 3) "2099-01-01" "10:00" 3 (mkDate 2099 1 1) Sample.ten
           (Some "Jane Doe"%string) (Some "jane@x.com"%string)
           (Some ""%string) (Some ""%string)).
  - apply sample_passes_checks.
  - apply sample_targets.
  - apply sample_fields.
  - by apply sample_verified.
  - apply sample_free.
  - by apply sample_fresh.
  - by split_and!.
Defined.

(** X2 on the same request, sent again in 2050, when the slot is still
    ahead, and in 2100, when it has passed. *)
Lemma book_appointment_twice_witness :
  ∃ r1 w1,
    book_appointment Sample.ext (JObj Sample.jane_2099) Sample.w0
    = (Return r1, w1)
    ∧ status_code r1 = 200
    ∧ (∃ w3,
         book_appointment Sample.ext (JObj Sample.jane_2099)
           (Sample.later Sample.year_2050 [] w1)
         = (Return
              (jsonify (error_body "This time slot is already booked") 409),
            w3)
         ∧ committed w3 = committed w1)
    ∧ book_appointment Sample.ext (JObj Sample.jane_2099)
        (Sample.later Sample.year_2100 [] w1)
      = (Return
           (jsonify
              (error_body
                 "Appointment must be scheduled for a future date and time")
              400), Sample.later Sample.year_2100 [] w1).
Proof.
  destruct (book_appointment_twice Sample.ext Sample.jane_2099 Sample.w0
              (JInt 3) "2099-01-01" "10:00" 3 (mkDate 2099 1 1) Sample.ten
              (Some "Jane Doe"%string) (Some "jane@x.com"%string)
              (Some ""%string) (Some ""%string))
    as (r1 & w1 & Hrun & Hok & Hconflict & Hpassed).
  - apply sample_passes_checks.
  - apply sample_targets.
  - apply sample_fields.
  - by apply sample_verified.
  - apply sample_free.
  - by apply sample_fresh.
  - by split_and!.
  - exists r1, w1. split; [exact Hrun|]. split; [exact Hok|]. split.
    + apply (Hconflict (Sample.later Sample.year_2050 [] w1)).
      * reflexivity.
      * by apply sample_passes_checks_at.
      * by split_and!.
    + by apply (Hpassed (Sample.later Sample.year_2100 [] w1)
                  (mkDate 2099 1 1) Sample.ten).
Defined.

(** X3 on a request for doctor 4, who is not verified. *)
Lemma book_appointment_unknown_doctor_witness :
  ∃ w',
    book_appointment Sample.ext (JObj Sample.house_2099) Sample.w0
    = (Return (jsonify (error_body "Doctor not found or not verified") 404),
       w')
    ∧ committed w' = committed Sample.w0
    ∧ released Sample.w0 w'.
Proof.
  apply (book_appointment_unknown_doctor Sample.ext Sample.house_2099
           Sample.w0 (JInt 4) "2099-01-01" "10:00" 4).
  - split_and!; [repeat constructor|reflexivity..|].
    exists (mkDate 2099 1 1), Sample.ten. by split_and!.
  - reflexivity.
  - intros (doc & Hdoc & Hid & Hv). simpl in Hdoc.
    apply elem_of_cons in Hdoc as [->|Hdoc]; [discriminate Hid|].
    apply list_elem_of_singleton in Hdoc as ->. discriminate Hv.
  - by split_and!.
Defined.

(** A sequence value that a stored appointment already has as its id:
    the insert is refused, the answer is 500 with the booking message,
    nothing is stored, and the value is drawn all the same. *)
Example book_appointment_taken_id :
  let w := set_seq 1 (Sample.world Sample.next_day_store []) in
  let run := book_appointment Sample.ext Sample.slot_2099 w in
  run.1 = Return (jsonify (error_body "Failed to book appointment") 500)
  ∧ committed run.2 = committed w
  ∧ appointments_id_seq run.2 = 2
  ∧ conns run.2 = [Closed].
Proof. split_and!; vm_compute; reflexivity. Qed.

(** A patient name that holds U+0000: the insert is refused before it is
    sent, the answer is 500 with the booking message, nothing is stored
    and no id is drawn. *)
Example book_appointment_name_with_nul :
  let w := Sample.world Sample.empty_store [] in
  let run :=
    book_appointment Sample.ext (JObj Sample.nul_2099) w in
  run.1 = Return (jsonify (error_body "Failed to book appointment") 500)
  ∧ committed run.2 = committed w
  ∧ appointments_id_seq run.2 = 1
  ∧ conns run.2 = [Closed].
Proof. split_and!; vm_compute; reflexivity. Qed.

(** X5 with the store failing at the fifth call, the commit. *)
Lemma book_appointment_failed_commit_witness :
  let w := Sample.world Sample.empty_store
             [false; false; false; false; true; false] in
  ∃ w',
    book_appointment Sample.ext (JObj Sample.jane_2099) w
    = (Return (jsonify (error_body "Failed to book appointment") 500), w')
    ∧ committed w' = committed w
    ∧ conns w' = conns w ++ [Closed]
    ∧ appointments_id_seq w' = appointments_id_seq w + 1
    ∧ log w'
      = log w ++ [("Database error in book_appointment"%string, DatabaseError)].
Proof.
  intros w.
  apply (book_appointment_failed_commit Sample.ext Sample.jane_2099 w
           (JInt 3) "2099-01-01" "10:00" 3 (mkDate 2099 1 1) Sample.ten
           (Some "Jane Doe"%string) (Some "jane@x.com"%string)
           (Some ""%string) (Some ""%string) []).
  - apply sample_passes_checks.
  - apply sample_targets.
  - apply sample_fields.
  - by apply sample_verified.
  - apply sample_free.
  - by apply sample_fresh.
  - reflexivity.
Defined.

(** X6 on the empty object: the first field of the list is named. *)
Lemma book_appointment_missing_field_witness :
  ∃ pre g post,
    required_fields = pre ++ g :: post
    ∧ Forall (field_given ∅) pre
    ∧ ¬ field_given ∅ g
    ∧ book_appointment Sample.ext (JObj ∅) Sample.w0
      = (Return (jsonify (error_body (g +:+ " is required")) 400), Sample.w0).
Proof.
  apply (book_appointment_missing_field Sample.ext ∅ Sample.w0).
  intros Hall. apply Forall_cons in Hall as [Hname _]. discriminate Hname.
Defined.

(** X7 on a body that is a JSON array. *)
Lemma book_appointment_not_an_object_witness :
  book_appointment Sample.ext (JArr []) Sample.w0
  = (Return (jsonify (error_body "Internal server error") 500),
     set_log
       (log Sample.w0 ++ [("Error in book_appointment"%string, AttributeError)])
       Sample.w0).
Proof.
  apply (book_appointment_not_an_object Sample.ext (JArr []) Sample.w0).
  intros m. discriminate.
Defined.

(** X22 on a date of month 13. *)
Lemma book_appointment_bad_format_witness :
  book_appointment Sample.ext (JObj Sample.month_13) Sample.w0
  = (Return (jsonify (error_body "Invalid date or time format") 400),
     Sample.w0).
Proof.
  apply (book_appointment_bad_format Sample.ext Sample.month_13
           "2099-13-01" Sample.w0).
  - repeat constructor.
  - reflexivity.
  - by left.
Defined.

(** X10 on an id the store does not hold. *)
Lemma update_appointment_not_found_witness :
  ∃ w',
    update_appointment Sample.ext 99 (JObj (Sample.status_only "confirmed"))
      (Sample.world Sample.held_store [])
    = (Return (jsonify (error_body "Appointment not found") 404), w')
    ∧ committed w' = committed (Sample.world Sample.held_store [])
    ∧ released (Sample.world Sample.held_store []) w'.
Proof.
  apply (update_appointment_not_found Sample.ext 99
           (Sample.status_only "confirmed") "confirmed" (Some ""%string)
           (Sample.world Sample.held_store [])).
  - reflexivity.
  - unfold valid_statuses. apply list_elem_of_further, list_elem_of_here.
  - reflexivity.
  - intros a Ha. simpl in Ha. apply list_elem_of_singleton in Ha as ->.
    discriminate.
  - by split_and!.
Defined.

(** X24 on the cancellation of the appointment that holds a slot. *)
Lemma update_to_inactive_keeps_unique_active_witness :
  unique_active
    (committed
       (update_appointment Sample.ext 1 (JObj (Sample.status_only "cancelled"))
          (Sample.world Sample.held_store [])).2).
Proof.
  apply (update_to_inactive_keeps_unique_active Sample.ext 1
           (Sample.status_only "cancelled") "cancelled"
           (Sample.world Sample.held_store [])).
  - reflexivity.
  - apply list_elem_of_here.
  - apply unique_active_singleton.
Defined.

(** X23 on Jane's slot: cancelled, then booked again in 2050. *)
Lemma cancel_then_book_witness :
  let w := Sample.world Sample.held_store [] in
  ∃ r1 w1,
    update_appointment Sample.ext 1 (JObj (Sample.status_only "cancelled")) w
    = (Return r1, w1)
    ∧ status_code r1 = 200
    ∧ ∃ r2 w3,
        book_appointment Sample.ext (JObj Sample.jane_2099)
          (Sample.later Sample.year_2050 [] w1)
        = (Return r2, w3)
        ∧ status_code r2 = 200
        ∧ tbl_appointments (committed w3)
          = tbl_appointments (committed w1) ++
              [booked_row (Sample.later Sample.year_2050 [] w1)
                 (Some "Jane Doe"%string) (Some "jane@x.com"%string)
                 (Some ""%string) 3 (mkDate 2099 1 1) Sample.ten
                 (Some ""%string)]
        ∧ length (tbl_appointments (committed w3)) = 2%nat.
Proof.
  intros w.
  destruct (cancel_then_book Sample.ext 1 (Sample.status_only "cancelled")
              "cancelled" (Some ""%string) Sample.jane_2099 w
              (JInt 3) "2099-01-01" "10:00" 3 (mkDate 2099 1 1) Sample.ten
              (Some "Jane Doe"%string) (Some "jane@x.com"%string)
              (Some ""%string) (Some ""%string))
    as (r1 & w1 & Hrun & Hok & Hnext).
  - reflexivity.
  - apply list_elem_of_here.
  - reflexivity.
  - eexists. split; [apply list_elem_of_here|reflexivity].
  - intros a Ha _ _. simpl in Ha.
    by apply list_elem_of_singleton in Ha as ->.
  - apply sample_targets.
  - apply sample_fields.
  - by apply sample_verified.
  - by split_and!.
  - assert (w1 = (update_appointment Sample.ext 1
                    (JObj (Sample.status_only "cancelled")) w).2) as Hw1
      by (by rewrite Hrun).
    exists r1, w1. split; [exact Hrun|]. split; [exact Hok|].
    apply (Hnext (Sample.later Sample.year_2050 [] w1)).
    + reflexivity.
    + by apply sample_passes_checks_at.
    + rewrite Hw1. by apply sample_fresh.
    + by split_and!.
Defined.

(** X11 on a store with an appointment of doctor 3 and one whose doctor
    id names no doctor, listed without filters: the first is listed, the
    second is not. *)
Lemma get_appointments_lists_joined_rows_only_witness :
  let w := Sample.world Sample.stray_store [] in
  ∃ rows items w',
    get_appointments Sample.ext None None w
    = (Return (jsonify {[ "appointments" := JArr items ]} 200), w')
    ∧ Forall2 (shows_appointment Sample.ext) rows items
    ∧ released w w'
    ∧ (Sample.jane 1 (mkDate 2099 1 1) Sample.ten "pending", Sample.dr_grey)
      ∈ rows
    ∧ Sample.stray ∈ tbl_appointments (committed w)
    ∧ Sample.stray ∉ rows.*1.
Proof.
  intros w.
  destruct (get_appointments_lists_joined_rows_only Sample.ext None None w)
    as (rows & items & w' & Hrun & Hshown & Hreleased & Hrows & Hstray);
    [done|done|by split_and!|].
  exists rows, items, w'.
  split; [exact Hrun|]. split; [exact Hshown|]. split; [exact Hreleased|].
  split; [|split].
  - apply Hrows. split; [apply list_elem_of_here|].
    split; [split; [apply list_elem_of_here|reflexivity]|by split].
  - apply list_elem_of_further, list_elem_of_here.
  - apply Hstray. intros d Hd. simpl in Hd.
    apply elem_of_cons in Hd as [->|Hd]; [discriminate|].
    apply list_elem_of_singleton in Hd as ->. discriminate.
Defined.

(** The same list, evaluated: one element, that of Jane's appointment. *)
Example get_appointments_skips_stray :
  (get_appointments Sample.ext None None
     (Sample.world Sample.stray_store [])).1
  = (get_appointments Sample.ext (Some "3"%string) (Some "pending"%string)
       (Sample.world Sample.held_store [])).1.
Proof. vm_compute. reflexivity. Qed.

(** X13 on two sessions: the two turns of the first, the older first. *)
Lemma get_chat_history_lists_witness :
  let w := Sample.world Sample.chat_store [] in
  ∃ rows items w',
    get_chat_history Sample.ext "session-1" w
    = (Return (jsonify {[ "history" := JArr items ]} 200), w')
    ∧ Forall2 (shows_turn Sample.ext) rows items
    ∧ rows ≡ₚ filter (λ r, chat_history.session_id r = Some "session-1"%string)
                (tbl_chat_history (committed w))
    ∧ StronglySorted created_asc rows
    ∧ committed w' = committed w
    ∧ released w w'.
Proof.
  intros w. apply (get_chat_history_lists Sample.ext "session-1" w).
  - reflexivity.
  - by split_and!.
Defined.

(** The same history, evaluated. *)
Example get_chat_history_session_1 :
  (get_chat_history Sample.ext "session-1"
     (Sample.world Sample.chat_store [])).1
  = Return
      (jsonify
         {[ "history" :=
              JArr
                [JObj
                   (<["user_message" := JStr "first"]>
                    (<["bot_response" := JStr "Drink water."]>
                     (<["timestamp" := JStr "2026-11-01T08:00:00"]> ∅)));
                 JObj
                   (<["user_message" := JStr "second"]>
                    (<["bot_response" := JStr "Drink water."]>
                     (<["timestamp" := JStr "2026-11-01T11:00:00"]> ∅)))] ]}
         200).
Proof. vm_compute. reflexivity. Qed.

(** A session id that holds U+0000: the query is refused, the answer is
    500 with the history message, and the connection stays open. *)
Example get_chat_history_session_with_nul :
  let run :=
    get_chat_history Sample.ext Sample.call_nul_back
      (Sample.world Sample.chat_store []) in
  run.1 = Return (jsonify (error_body "Failed to retrieve chat history") 500)
  ∧ conns run.2 = [Open Sample.chat_store].
Proof. split_and!; vm_compute; reflexivity. Qed.

(** X14 on a message of three spaces. *)
Lemma chat_blank_message_witness :
  chat Sample.ext "session-1" Sample.gemini (JObj Sample.blank) Sample.w0
  = (Return (jsonify (error_body "Message is required") 400), Sample.w0).
Proof.
  apply (chat_blank_message Sample.ext "session-1" Sample.gemini
           Sample.blank "   " Sample.w0); reflexivity.
Defined.

(** X15 on a message that is the number 5. *)
Lemma chat_message_not_text_witness :
  chat Sample.ext "session-1" Sample.gemini (JObj Sample.number_message)
    Sample.w0
  = (Return
       (jsonify
          (error_body "Failed to process your message. Please try again.")
          500),
     set_log (log Sample.w0 ++ [("Chat error"%string, AttributeError)])
       Sample.w0).
Proof.
  apply (chat_message_not_text Sample.ext "session-1" Sample.gemini
           (JObj Sample.number_message) Sample.w0).
  intros m s [= <-]. discriminate.
Defined.

(** X16 on a greeting, with the store up. *)
Lemma chat_stores_turn_witness :
  ∃ r w',
    chat Sample.ext "session-1" Sample.gemini (JObj Sample.hello) Sample.w0
    = (Return r, w')
    ∧ status_code r = 200
    ∧ tbl_chat_history (committed w')
      = tbl_chat_history (committed Sample.w0) ++
          [chat_history.mk (Some "session-1"%string) "hello" "Drink water."
             (current_timestamp Sample.w0)]
    ∧ tbl_doctors (committed w') = tbl_doctors (committed Sample.w0)
    ∧ tbl_appointments (committed w') = tbl_appointments (committed Sample.w0)
    ∧ released Sample.w0 w'.
Proof.
  apply (chat_stores_turn Sample.ext "session-1" Sample.gemini Sample.hello
           " hello " (Some "Drink water."%string) (Some "session-1"%string)
           Sample.w0);
    try reflexivity.
  - discriminate.
  - by split_and!.
Defined.

(** A message that holds U+0000 is answered all the same, but no turn is
    stored and the connection stays open. *)
Example chat_message_with_nul :
  let w := Sample.world Sample.chat_store [] in
  let run :=
    chat Sample.ext "session-1" Sample.gemini
      (JObj Sample.nul_message) w in
  Sample.answered
    (chat Sample.ext "session-1" Sample.gemini (JObj Sample.nul_message)) w
  = Some 200
  ∧ committed run.2 = committed w
  ∧ conns run.2 = [Open Sample.chat_store].
Proof. split_and!; vm_compute; reflexivity. Qed.

(** X18 on a new turn of the first session, read back in 2100. *)
Lemma chat_then_history_witness :
  let w := Sample.world Sample.chat_store [] in
  let said :=
    chat_history.mk (Some "session-1"%string) "hello" "Drink water."
      (current_timestamp w) in
  ∃ r w1,
    chat Sample.ext "session-1" Sample.gemini (JObj Sample.hello) w
    = (Return r, w1)
    ∧ status_code r = 200
    ∧ ∃ rows items w3,
        get_chat_history Sample.ext "session-1"
          (Sample.later Sample.year_2100 [] w1)
        = (Return (jsonify {[ "history" := JArr items ]} 200), w3)
        ∧ Forall2 (shows_turn Sample.ext) rows items
        ∧ StronglySorted created_asc rows
        ∧ rows ≡ₚ filter
                    (λ r, chat_history.session_id r = Some "session-1"%string)
                    (tbl_chat_history (committed w)) ++ [said]
        ∧ ∃ j, j ∈ items ∧ shows_turn Sample.ext said j.
Proof.
  intros w said.
  destruct (chat_then_history Sample.ext "session-1" Sample.gemini
              Sample.hello " hello " (Some "Drink water."%string)
              "session-1" w)
    as (r & w1 & Hrun & Hok & Hnext); try reflexivity.
  - discriminate.
  - by split_and!.
  - exists r, w1. split; [exact Hrun|]. split; [exact Hok|].
    apply (Hnext (Sample.later Sample.year_2100 [] w1));
      [reflexivity|by split_and!].
Defined.

(** X19 on the request of section 8, then the list of doctor 3's pending
    appointments, read in 2100. *)
Lemma book_then_list_witness :
  ∃ r1 w1 doc,
    book_appointment Sample.ext (JObj Sample.jane_2099) Sample.w0
    = (Return r1, w1)
    ∧ status_code r1 = 200
    ∧ doc ∈ tbl_doctors (committed Sample.w0)
    ∧ doctors.id doc = 3
    ∧ ∃ rows items w3,
        get_appointments Sample.ext (Some "3"%string) (Some "pending"%string)
          (Sample.later Sample.year_2100 [] w1)
        = (Return (jsonify {[ "appointments" := JArr items ]} 200), w3)
        ∧ Forall2 (shows_appointment Sample.ext) rows items
        ∧ (Sample.jane_row 1, doc) ∈ rows
        ∧ ∃ j, j ∈ items
               ∧ shows_appointment Sample.ext (Sample.jane_row 1, doc) j.
Proof.
  destruct (book_then_list Sample.ext Sample.jane_2099 Sample.w0
              (JInt 3) "2099-01-01" "10:00" 3 (mkDate 2099 1 1) Sample.ten
              (Some "Jane Doe"%string) (Some "jane@x.com"%string)
              (Some ""%string) (Some ""%string)
              (Some "3"%string) (Some "pending"%string))
    as (r1 & w1 & doc & Hrun & Hok & Hdoc & Hid & Hnext).
  - apply sample_passes_checks.
  - apply sample_targets.
  - apply sample_fields.
  - by apply sample_verified.
  - apply sample_free.
  - by apply sample_fresh.
  - by intros _.
  - by intros _.
  - by split_and!.
  - exists r1, w1, doc.
    split; [exact Hrun|]. split; [exact Hok|]. split; [exact Hdoc|].
    split; [exact Hid|].
    apply (Hnext (Sample.later Sample.year_2100 [] w1));
      [reflexivity|by split_and!].
Defined.

(** The two requests, evaluated: what the list shows of the appointment
    just booked. *)
Example book_then_list_element :
  (get_appointments Sample.ext (Some "3"%string) (Some "pending"%string)
     (Sample.later Sample.year_2100 [] Sample.w1)).1
  = Return
      (jsonify
         {[ "appointments" :=
              JArr
                [JObj
                   (<["id" := JInt 1]>
                    (<["patient_name" := JStr "Jane Doe"]>
                     (<["patient_email" := JStr "jane@x.com"]>
                      (<["patient_phone" := JStr ""]>
                       (<["doctor_id" := JInt 3]>
                        (<["doctor_name" := JStr "Grey"]>
                         (<["specialization" := JStr "Cardiology"]>
                          (<["appointment_date" := JStr "2099-01-01"]>
                           (<["appointment_time" := JStr "10:00"]>
                            (<["reason" := JStr ""]>
                             (<["status" := JStr "pending"]>
                              (<["notes" := JNull]>
                               (<["created_at" := JStr "2026-11-03T12:00:00"]>
                                ∅)))))))))))))] ]}
         200).
Proof. vm_compute. reflexivity. Qed.

(** X25 on the request of section 8 under a name that holds U+0000. *)
Lemma book_appointment_refused_text_witness :
  ∃ w',
    book_appointment Sample.ext (JObj Sample.nul_2099) Sample.w0
    = (Return (jsonify (error_body "Failed to book appointment") 500), w')
    ∧ committed w' = committed Sample.w0
    ∧ released Sample.w0 w'
    ∧ log w'
      = log Sample.w0 ++
          [("Database error in book_appointment"%string, DatabaseError)].
Proof.
  apply (book_appointment_refused_text Sample.ext Sample.nul_2099 Sample.w0
           (JInt 3) "2099-01-01" "10:00" 3 (mkDate 2099 1 1) Sample.ten).
  - split_and!; [repeat constructor|reflexivity..|].
    exists (mkDate 2099 1 1), Sample.ten. by split_and!.
  - apply sample_targets.
  - by apply sample_verified.
  - apply sample_free.
  - intros pn pe pp r (Hpn & _). discriminate Hpn.
  - by split_and!.
Defined.

(** X26 on the request of section 8 when the sequence stands at 1 and
    Jane's appointment of the day after has that id. *)
Lemma book_appointment_duplicate_key_witness :
  let w := set_seq 1 (Sample.world Sample.next_day_store []) in
  ∃ w',
    book_appointment Sample.ext (JObj Sample.jane_2099) w
    = (Return (jsonify (error_body "Failed to book appointment") 500), w')
    ∧ committed w' = committed w
    ∧ appointments_id_seq w' = 2
    ∧ released w w'.
Proof.
  intros w.
  apply (book_appointment_duplicate_key Sample.ext Sample.jane_2099 w
           (JInt 3) "2099-01-01" "10:00" 3 (mkDate 2099 1 1) Sample.ten
           (Some "Jane Doe"%string) (Some "jane@x.com"%string)
           (Some ""%string) (Some ""%string)).
  - split_and!; [repeat constructor|reflexivity..|].
    exists (mkDate 2099 1 1), Sample.ten. by split_and!.
  - apply sample_targets.
  - apply sample_fields.
  - exists Sample.dr_grey. split_and!; [apply list_elem_of_here|reflexivity..].
  - intros (a & Ha & [_ [Hd _]] & _). simpl in Ha.
    apply list_elem_of_singleton in Ha as ->. discriminate Hd.
  - intros Hfresh. apply Hfresh. apply list_elem_of_here.
  - by split_and!.
Defined.

(** X27 on notes that hold U+0000, for a stored appointment. *)
Lemma update_appointment_refused_notes_witness :
  let w := Sample.world Sample.future_store [] in
  ∃ w',
    update_appointment Sample.ext 1 (JObj Sample.notes_with_nul) w
    = (Return (jsonify (error_body "Failed to update appointment") 500), w')
    ∧ committed w' = committed w
    ∧ released w w'
    ∧ log w'
      = log w ++ [("Database error updating appointment"%string,
                   DatabaseError)].
Proof.
  intros w.
  apply (update_appointment_refused_notes Sample.ext 1 Sample.notes_with_nul
           "confirmed" w).
  - reflexivity.
  - unfold valid_statuses. apply list_elem_of_further, list_elem_of_here.
  - reflexivity.
  - by split_and!.
Defined.

(** X28 on a message that holds U+0000. *)
Lemma chat_refused_text_witness :
  let w := Sample.world Sample.chat_store [] in
  ∃ w',
    chat Sample.ext "session-1" Sample.gemini (JObj Sample.nul_message) w
    = (Return
         (jsonify
            (<["response" := JStr "Drink water."]>
             (<["session_id" := JStr "session-1"]>
              (<["timestamp" := JStr "now"]> ∅)))
            200), w')
    ∧ committed w' = committed w
    ∧ leaked w w'
    ∧ log w' = log w ++ [("Failed to save chat history"%string, DatabaseError)].
Proof.
  intros w.
  apply (chat_refused_text Sample.ext "session-1" Sample.gemini
           Sample.nul_message Sample.call_nul_back
           (Some "Drink water."%string) w).
  - reflexivity.
  - discriminate.
  - reflexivity.
  - right. left. reflexivity.
  - by split_and!.
Defined.
